(** * Shopping-list generation of the meal planner

    A shallow embedding of [meal_planner/core/shopping_list.py] together
    with the parts of [meal_planner/core/meal_plan.py],
    [meal_planner/config.py] and the SQLite schema of
    [meal_planner/db/database.py] that it reads.

    Conventions of the embedding:
    - a Python [str] is a [string] of ASCII characters; [lower], [strip]
      and [title] are the ASCII restrictions of the Python methods;
    - a Python [float] (an SQL REAL) is an IEEE 754 binary64, a primitive
      [float] of Rocq, with the arithmetic of the processor; a value that
      is an [int] or a [float] is a [number]; an SQL INTEGER is an integer
      of [Z];
    - an SQL table is the list of its rows in rowid order, a [SELECT]
      without [ORDER BY] returns the rows in that order;
    - a Python [dict] that is only looked up is a [gmap], a [set] a
      [gset]; a [dict] that is iterated ([required], [store_items], the
      returned mapping) is an association list in insertion order. *)

From Stdlib Require Import Ascii DecimalString Floats.
From Stdlib Require Uint63.
From stdpp Require Import base option list sorting strings gmap.

Local Open Scope Z_scope.
Local Open Scope string_scope.
Local Open Scope list_scope.

#[local] Set Warnings "-inexact-float".

(** ** Python string methods, on ASCII *)

Module PyStr.

Definition is_upper (c : ascii) : bool :=
  let n := N_of_ascii c in ((65 <=? n) && (n <=? 90))%N.

Definition is_lower (c : ascii) : bool :=
  let n := N_of_ascii c in ((97 <=? n) && (n <=? 122))%N.

Definition is_cased (c : ascii) : bool := is_upper c || is_lower c.

(** [str.isspace] on one ASCII character: TAB, LF, VT, FF, CR, the four
    separators FS, GS, RS, US, and the space. *)
Definition is_space (c : ascii) : bool :=
  let n := N_of_ascii c in
  (((9 <=? n) && (n <=? 13)) || ((28 <=? n) && (n <=? 32)))%N.

Definition lower_char (c : ascii) : ascii :=
  if is_upper c then ascii_of_N (N_of_ascii c + 32) else c.

Definition upper_char (c : ascii) : ascii :=
  if is_lower c then ascii_of_N (N_of_ascii c - 32) else c.

(** [s.lower()] *)
Fixpoint lower (s : string) : string :=
  match s with
  | EmptyString => EmptyString
  | String c s' => String (lower_char c) (lower s')
  end.

Fixpoint lstrip (s : string) : string :=
  match s with
  | EmptyString => EmptyString
  | String c s' => if is_space c then lstrip s' else s
  end.

Fixpoint rstrip (s : string) : string :=
  match s with
  | EmptyString => EmptyString
  | String c s' =>
      match rstrip s' with
      | EmptyString => if is_space c then EmptyString else String c EmptyString
      | r => String c r
      end
  end.

(** [s.strip()] *)
Definition strip (s : string) : string := rstrip (lstrip s).

(** [s.title()]: a cased character is upper-cased when the character
    before it is not cased, and lower-cased otherwise. *)
Fixpoint title_from (prev_cased : bool) (s : string) : string :=
  match s with
  | EmptyString => EmptyString
  | String c s' =>
      if is_cased c
      then String (if prev_cased then lower_char c else upper_char c)
                  (title_from true s')
      else String c (title_from false s')
  end.

Definition title (s : string) : string := title_from false s.

(** The normalisation the module writes as [.lower().strip()]. *)
Definition normalize (s : string) : string := strip (lower s).

(** Truthiness of a nullable TEXT value: [None] and [""] are falsy. *)
Definition truthy (o : option string) : option string :=
  match o with
  | Some EmptyString => None
  | _ => o
  end.

(** [a or b] for a nullable string [a]. *)
Definition or_else (a : option string) (b : string) : string :=
  default b (truthy a).

(** [a or b] where both are nullable. *)
Definition or_opt (a b : option string) : option string :=
  match truthy a with
  | Some s => Some s
  | None => b
  end.


End PyStr.

Import PyStr.


(** ** Numbers *)

Module PyNum.

(** A number of the module: a Python [int], or a Python [float], which is
    an IEEE 754 binary64. *)
Inductive number := Int (z : Z) | Float (f : float).

(** [float(z)]: the double nearest to the integer, ties to even. *)
Definition float_of_int (z : Z) : float :=
  SF2Prim (binary_normalize prec emax z 0 false).

(** The operand of a float operation. *)
Definition to_float (x : number) : float :=
  match x with
  | Int z => float_of_int z
  | Float f => f
  end.

(** [x or 0] on a nullable REAL: [None], [0.0] and [-0.0] are falsy. *)
Definition or_zero (o : option float) : number :=
  match o with
  | Some x => if (x =? 0)%float then Int 0 else Float x
  | None => Int 0
  end.

(** [x * n] for an [int] [n]. *)
Definition times_int (x : number) (n : Z) : number :=
  match x with
  | Int z => Int (z * n)
  | Float f => Float (f * float_of_int n)
  end.

(** [bool(x)] *)
Definition is_true (x : number) : bool :=
  match x with
  | Int z => negb (Z.eqb z 0)
  | Float f => negb (f =? 0)%float
  end.

(** [x > 0] *)
Definition is_positive (x : number) : bool :=
  match x with
  | Int z => Z.ltb 0 z
  | Float f => (0 <? f)%float
  end.

(** Nearest integer to [n / d], ties to the even one. *)
Definition round_half_even (n d : Z) : Z :=
  let q := n / d in
  match 2 * (n mod d) ?= d with
  | Lt => q
  | Gt => q + 1
  | Eq => if Z.even q then q else q + 1
  end.

(** The absolute value of a finite double [m * 2 ^ e] in units of
    [10 ^ -digits], rounded to the nearest integer, ties to even. *)
Definition scaled (m : positive) (e : Z) (digits : Z) : Z :=
  let '(n, d) := match e with
                 | Zneg p => (Zpos m, 2 ^ Zpos p)
                 | _ => (Zpos m * 2 ^ e, 1)
                 end in
  match digits with
  | Zneg p => round_half_even n (d * 10 ^ Zpos p)
  | _ => round_half_even (n * 10 ^ digits) d
  end.

(** [round(x, 2)]: the decimal with two places nearest to the value of
    the double, ties to even, then the double nearest to that decimal. *)
Definition round2 (x : float) : float :=
  match Prim2SF x with
  | S754_finite s m e =>
      match scaled m e 2 with
      | Zpos k => SF2Prim (SFdiv prec emax (S754_finite s k 0) (S754_finite false 100 0))
      | _ => SF2Prim (S754_zero s)
      end
  | _ => x
  end.

Definition digits (z : Z) : string := NilZero.string_of_uint (N.to_uint (Z.to_N z)).

Fixpoint zeros (n : nat) : string :=
  match n with O => "" | S n' => String "0" (zeros n') end.

(** The decimal digits of [z], padded on the left to [width] digits. *)
Definition padded (width : nat) (z : Z) : string :=
  let s := digits z in zeros (width - String.length s) +:+ s.

Definition signed_text (s : bool) (t : string) : string :=
  if s then String "-" t else t.

(** [f"{x:.2f}"] *)
Definition format_2f (x : float) : string :=
  match Prim2SF x with
  | S754_nan => "nan"
  | S754_infinity s => signed_text s "inf"
  | S754_zero s => signed_text s "0.00"
  | S754_finite s m e =>
      let k := scaled m e 2 in
      signed_text s (digits (k / 100) +:+ "." +:+ padded 2 (k mod 100))
  end.

(** A text without its trailing zeros. *)
Fixpoint strip_zeros (t : string) : string :=
  match t with
  | EmptyString => EmptyString
  | String c t' =>
      match strip_zeros t' with
      | EmptyString => if Ascii.eqb c "0" then EmptyString else String c EmptyString
      | r => String c r
      end
  end.

(** The decimal exponent [X] of a positive value [m * 2 ^ e] printed with
    six significant digits, and those digits as an integer of
    [10 ^ 5 <= k < 10 ^ 6]: the value is about [k * 10 ^ (X - 5)]. *)
Fixpoint six_digits_from (fuel : nat) (m : positive) (e : Z) (X : Z) : Z * Z :=
  let k := scaled m e (5 - X) in
  match fuel with
  | O => (X, k)
  | S fuel' =>
      if Z.ltb k (10 ^ 5) then six_digits_from fuel' m e (X - 1)
      else if Z.leb (10 ^ 6) k then six_digits_from fuel' m e (X + 1)
      else (X, k)
  end.

Definition six_digits (m : positive) (e : Z) : Z * Z :=
  (* log10 of the value is about 0.30103 * log2 *)
  let guess := (Z.log2 (Zpos m) + e) * 30103 / 100000 in
  six_digits_from 8 m e guess.

(** [f"{x:g}"] for a float. *)
Definition format_g_float (x : float) : string :=
  match Prim2SF x with
  | S754_nan => "nan"
  | S754_infinity s => signed_text s "inf"
  | S754_zero s => signed_text s "0"
  | S754_finite s m e =>
      let '(X, k) := six_digits m e in
      let ds := digits k in
      signed_text s
        (if orb (Z.ltb X (-4)) (Z.leb 6 X) then
           let mant := strip_zeros (String.substring 1 5 ds) in
           String.substring 0 1 ds
             +:+ (match mant with EmptyString => "" | _ => "." +:+ mant end)
             +:+ "e" +:+ (if Z.ltb X 0 then "-" else "+") +:+ padded 2 (Z.abs X)
         else if Z.ltb X 0 then
           "0." +:+ zeros (Z.to_nat (- X - 1)) +:+ strip_zeros ds
         else
           let int_part := String.substring 0 (Z.to_nat (X + 1)) ds in
           let frac := strip_zeros (String.substring (Z.to_nat (X + 1)) 6 ds) in
           int_part +:+ (match frac with EmptyString => "" | _ => "." +:+ frac end))
  end.

(** [f"{x:g}"] *)
Definition format_g (x : number) : string := format_g_float (to_float x).

End PyNum.

Import PyNum.

(** ** The tables of the SQLite schema (columns the module reads) *)

Record store_row := {
  store_id : Z;
  store_name : string
}.

Record pantry_row := {
  pantry_name : string;
  pantry_quantity : option float;
  pantry_estimated_price : option float;
  pantry_preferred_store_id : option Z
}.

Record ingredient_row := {
  ing_recipe_id : Z;
  ing_name : string;
  ing_quantity : option float;
  ing_unit : option string;
  ing_estimated_price : option float;
  ing_shopping_name : option string;
  ing_shopping_qty : option float;
  ing_shopping_unit : option string
}.

Record meal_plan_row := {
  mp_date : string;
  mp_meal_slot : string;
  mp_recipe_id : option Z;
  mp_servings : Z
}.

Record staple_row := {
  staple_name : string;
  staple_category : option string;
  staple_preferred_store_id : option Z;
  staple_need_to_buy : Z
}.

Record known_price_row := {
  kp_item_name : string;
  kp_unit_price : float
}.

(** ** Python values, for the cached payload *)

#[local] Set Warnings "-register-all".

Inductive pyval :=
| VNone
| VBool (b : bool)
| VInt (z : Z)
| VFloat (f : float)
| VStr (s : string)
| VList (l : list pyval)
| VTuple (l : list pyval)
| VDict (d : list (string * pyval)).

(** The [value] column of the settings table as this module writes it:
    the text [json.dumps] produced for a payload, or the empty string. *)
Inductive setting_text :=
| JsonText (payload : pyval)
| EmptyText.

Record database := {
  db_stores : list store_row;
  db_pantry : list pantry_row;
  db_recipe_ingredients : list ingredient_row;
  db_meal_plan : list meal_plan_row;
  db_staples : list staple_row;
  db_known_prices : list known_price_row;
  db_settings : list (string * setting_text)
}.

(** ** Stable sorting, as [list.sort] and [ORDER BY] *)

Section StableSort.
Context {A : Type} (le : A -> A -> bool).

Fixpoint insert_sorted (x : A) (l : list A) : list A :=
  match l with
  | [] => [x]
  | y :: l' => if le x y then x :: l else y :: insert_sorted x l'
  end.

Definition stable_sort (l : list A) : list A := foldr insert_sorted [] l.
End StableSort.

(** ** Dictionaries in insertion order *)

Section OrderedDict.
Context {K V : Type} `{EqDecision K}.

Fixpoint od_lookup (k : K) (d : list (K * V)) : option V :=
  match d with
  | [] => None
  | (k', v) :: d' => if decide (k = k') then Some v else od_lookup k d'
  end.

(** [d[k] = f(d.get(k))]: the value of an existing key is replaced in
    place, a new key goes to the end. *)
Fixpoint od_upsert (f : option V -> V) (k : K) (d : list (K * V)) : list (K * V) :=
  match d with
  | [] => [(k, f None)]
  | (k', v) :: d' =>
      if decide (k = k') then (k', f (Some v)) :: d'
      else (k', v) :: od_upsert f k d'
  end.
End OrderedDict.

(** ** [meal_plan.py]: the range query *)

Record MealPlanEntry := {
  entry_date : string;
  entry_meal_slot : string;
  entry_recipe_id : option Z;
  entry_servings : Z
}.

Definition entry_of_row (r : meal_plan_row) : MealPlanEntry :=
  {| entry_date := mp_date r; entry_meal_slot := mp_meal_slot r;
     entry_recipe_id := mp_recipe_id r; entry_servings := mp_servings r |}.

(** [WHERE mp.date >= ? AND mp.date <= ?] on TEXT *)
Definition date_in_range (start end_ : string) (r : meal_plan_row) : bool :=
  String.leb start (mp_date r) && String.leb (mp_date r) end_.

(** [ORDER BY mp.date, mp.meal_slot] *)
Definition row_le (a b : meal_plan_row) : bool :=
  match String.compare (mp_date a) (mp_date b) with
  | Lt => true
  | Gt => false
  | Eq => String.leb (mp_meal_slot a) (mp_meal_slot b)
  end.

Definition get_meals_in_range (db : database) (start end_ : string)
  : list MealPlanEntry :=
  map entry_of_row
      (stable_sort row_le (List.filter (date_in_range start end_) (db_meal_plan db))).

(** ** [shopping_list.py]: [generate] *)

(** An aggregation key [(s_name, s_unit)] and an emitted tuple
    [(display_name, quantity, unit, estimated_cost)]. *)
Abbreviation key := (string * string)%type.
Abbreviation line := (string * number * string * option float)%type.

Section Aggregate.

(** [SELECT ... FROM recipe_ingredients WHERE recipe_id = ?] *)
Definition ingredients_of (db : database) (rid : Z) : list ingredient_row :=
  List.filter (fun i => Z.eqb (ing_recipe_id i) rid) (db_recipe_ingredients db).

Definition s_name (ing : ingredient_row) : string :=
  normalize (or_else (ing_shopping_name ing) (ing_name ing)).

Definition s_unit (ing : ingredient_row) : string :=
  normalize (or_else (or_opt (ing_shopping_unit ing) (ing_unit ing)) "").

Definition s_qty (ing : ingredient_row) : number :=
  match ing_shopping_qty ing with
  | Some q => Float q
  | None => or_zero (ing_quantity ing)
  end.

Definition shopping_key (ing : ingredient_row) : key := (s_name ing, s_unit ing).

(** [required[key] += qty] on a [defaultdict(float)] *)
Definition required_add (k : key) (qty : number) (required : list (key * float))
  : list (key * float) :=
  od_upsert (fun o => (default 0 o + to_float qty)%float) k required.

(** The recipe-price side table: a key keeps the first price stored. *)
Definition record_price (k : key) (price : option float)
    (ingredient_prices : gmap key float) : gmap key float :=
  match price with
  | Some p =>
      match ingredient_prices !! k with
      | None => <[k := p]> ingredient_prices
      | Some _ => ingredient_prices
      end
  | None => ingredient_prices
  end.

(** The body of [for ing in ings]. *)
Definition add_ingredient (servings : Z)
    (acc : list (key * float) * gmap key float) (ing : ingredient_row)
  : list (key * float) * gmap key float :=
  let k := shopping_key ing in
  let qty := times_int (s_qty ing) servings in
  (required_add k qty acc.1, record_price k (ing_estimated_price ing) acc.2).

(** [if not entry.recipe_id: continue]: [None] and [0] are falsy. *)
Definition recipe_ref (e : MealPlanEntry) : option Z :=
  match entry_recipe_id e with
  | Some rid => if Z.eqb rid 0 then None else Some rid
  | None => None
  end.

(** The ingredient rows an entry contributes, in the order read. *)
Definition entry_ingredients (db : database) (e : MealPlanEntry)
  : list ingredient_row :=
  match recipe_ref e with
  | Some rid => ingredients_of db rid
  | None => []
  end.

(** The body of [for entry in entries]. *)
Definition add_entry (db : database)
    (acc : list (key * float) * gmap key float) (e : MealPlanEntry)
  : list (key * float) * gmap key float :=
  fold_left (add_ingredient (entry_servings e)) (entry_ingredients db e) acc.

(** The aggregation loop: [(required, ingredient_prices)]. *)
Definition aggregate (db : database) (entries : list MealPlanEntry)
  : list (key * float) * gmap key float :=
  fold_left (add_entry db) entries ([], ∅).

End Aggregate.

Section Snapshots.

Variable db : database.

(** [{row["name"].lower().strip(): (row["quantity"] or 0) for row in pantry_rows}] *)
Definition pantry_qty : gmap string number :=
  fold_left (fun m r => <[normalize (pantry_name r) := or_zero (pantry_quantity r)]> m)
            (db_pantry db) ∅.

(** [SELECT name FROM staples WHERE need_to_buy = 0], normalised into a set. *)
Definition staple_names : gset string :=
  list_to_set
    (map (fun r => normalize (staple_name r))
         (List.filter (fun r => Z.eqb (staple_need_to_buy r) 0) (db_staples db))).

Definition pantry_prices : gmap string float :=
  fold_left (fun m r =>
               match pantry_estimated_price r with
               | Some p => <[normalize (pantry_name r) := p]> m
               | None => m
               end)
            (db_pantry db) ∅.

Definition known_prices : gmap string float :=
  fold_left (fun m r => <[normalize (kp_item_name r) := kp_unit_price r]> m)
            (db_known_prices db) ∅.

(** [LEFT JOIN stores s ON x.preferred_store_id = s.id], column [s.name]. *)
Definition joined_store_name (sid : option Z) : option string :=
  match sid with
  | Some i => store_name <$> List.find (fun s => Z.eqb (store_id s) i) (db_stores db)
  | None => None
  end.

(** The store query of a line: first pantry row with [LOWER(p.name) = ?]. *)
Definition store_row_for (ing_name : string) : option (option string) :=
  (fun p => joined_store_name (pantry_preferred_store_id p))
    <$> List.find (fun p => String.eqb (lower (pantry_name p)) ing_name) (db_pantry db).

Definition store_name_for (ing_name : string) : string :=
  match store_row_for ing_name with
  | Some sn => or_else sn "No Store Assigned"
  | None => "No Store Assigned"
  end.

(** [SELECT s.name, s.category, st.name as store_name ... WHERE s.need_to_buy = 1] *)
Definition staple_need_rows : list (string * option string * option string) :=
  map (fun r => (staple_name r, staple_category r,
                 joined_store_name (staple_preferred_store_id r)))
      (List.filter (fun r => Z.eqb (staple_need_to_buy r) 1) (db_staples db)).

End Snapshots.

Section Reconcile.

Variable db : database.
Variable use_pantry : bool.
Variable ingredient_prices : gmap key float.

(** Price resolution: known price > recipe ingredient price > pantry price. *)
Definition unit_price_for (k : key) : option float :=
  match known_prices db !! k.1 with
  | Some p => Some p
  | None =>
      match ingredient_prices !! k with
      | Some p => Some p
      | None => pantry_prices db !! k.1
      end
  end.

(** The quantity to buy of a key, [None] when the loop continues. *)
Definition buy_qty_for (ing_name : string) (needed : float) : option float :=
  if use_pantry then
    let on_hand := default (Int 0) (pantry_qty db !! ing_name) in
    let buy_qty := (needed - to_float on_hand)%float in
    if (buy_qty <=? 0)%float then None else Some buy_qty
  else Some needed.

(** The body of [for (ing_name, unit), needed in required.items()]: the
    store and the tuple appended, [None] when the key is skipped. *)
Definition line_for (item : key * float) : option (string * line) :=
  let '((ing_name, unit), needed) := item in
  if decide (ing_name ∈ staple_names db) then None
  else
    match buy_qty_for ing_name needed with
    | None => None
    | Some buy_qty =>
        let item_cost :=
          (fun p => round2 (p * buy_qty)%float) <$> unit_price_for (ing_name, unit) in
        Some (store_name_for db ing_name,
              (title ing_name, Float (round2 buy_qty), unit, item_cost))
    end.

(** [store_items[store].append(item)] on a [defaultdict(list)] *)
Definition store_append (store : string) (item : line)
    (store_items : list (string * list line)) : list (string * list line) :=
  od_upsert (fun o => default [] o ++ [item]) store store_items.

Definition add_line (store_items : list (string * list line)) (item : key * float)
  : list (string * list line) :=
  match line_for item with
  | Some (store, l) => store_append store l store_items
  | None => store_items
  end.

End Reconcile.

(** [store_items[store].sort(key=lambda x: x[0])] for every store *)
Definition line_le (a b : line) : bool := String.leb a.1.1.1 b.1.1.1.

Definition sort_stores (store_items : list (string * list line))
  : list (string * list line) :=
  map (fun si => (si.1, stable_sort line_le si.2)) store_items.

(** [any(item[0].lower().strip() == staple_lower for items in ... for item in items)] *)
Definition already_listed (store_items : list (string * list line))
    (staple_lower : string) : bool :=
  existsb (fun si => existsb (fun item : line =>
                       String.eqb (normalize item.1.1.1) staple_lower) si.2)
          store_items.

(** The body of [for row in staple_need_rows]. *)
Definition add_staple (db : database) (store_items : list (string * list line))
    (row : string * option string * option string) : list (string * list line) :=
  let '(name, _, st_name) := row in
  let store := or_else st_name "Staples" in
  let staple_lower := normalize name in
  if already_listed store_items staple_lower then store_items
  else store_append store (name, Int 0, "", known_prices db !! staple_lower) store_items.

(** The part of [generate] after [if not required]. *)
Definition build_list (db : database) (use_pantry : bool)
    (required : list (key * float)) (ingredient_prices : gmap key float)
  : list (string * list line) :=
  let store_items := fold_left (add_line db use_pantry ingredient_prices) required [] in
  let store_items := sort_stores store_items in
  let store_items := fold_left (add_staple db) (staple_need_rows db) store_items in
  sort_stores store_items.

Definition generate (db : database) (start_date end_date : string) (use_pantry : bool)
  : list (string * list line) :=
  match get_meals_in_range db start_date end_date with
  | [] => []
  | entries =>
      let '(required, ingredient_prices) := aggregate db entries in
      match required with
      | [] => []
      | _ => build_list db use_pantry required ingredient_prices
      end
  end.

(** ** [config.py]: the settings table *)

(** [SELECT value FROM settings WHERE key = ?] *)
Definition get_setting (db : database) (k : string) : option setting_text :=
  od_lookup k (db_settings db).

(** [INSERT ... ON CONFLICT(key) DO UPDATE SET value=excluded.value] *)
Definition set_setting (db : database) (k : string) (value : setting_text)
  : database :=
  {| db_stores := db_stores db; db_pantry := db_pantry db;
     db_recipe_ingredients := db_recipe_ingredients db;
     db_meal_plan := db_meal_plan db; db_staples := db_staples db;
     db_known_prices := db_known_prices db;
     db_settings := od_upsert (fun _ => value) k (db_settings db) |}.

(** ** Python operations on values, with the exceptions they raise *)

Inductive exn := JSONDecodeError | KeyError | IndexError | TypeError | AttributeError.

Inductive outcome (A : Type) :=
| Return (a : A)
| Raise (e : exn).
Arguments Return {A} a.
Arguments Raise {A} e.

#[global] Instance outcome_ret : MRet outcome := @Return.
#[global] Instance outcome_bind : MBind outcome :=
  fun A B f m => match m with Return a => f a | Raise e => Raise e end.

Module Py.

(** [json.loads(json.dumps(v))]: a tuple comes back as a list. *)
Fixpoint json_value (v : pyval) : pyval :=
  match v with
  | VList l => VList (map json_value l)
  | VTuple l => VList (map json_value l)
  | VDict d => VDict (map (fun kv => match kv with (k, x) => (k, json_value x) end) d)
  | _ => v
  end.

(** [json.loads(raw)] of a non-empty stored text. *)
Definition json_loads (raw : setting_text) : outcome pyval :=
  match raw with
  | JsonText payload => Return (json_value payload)
  | EmptyText => Raise JSONDecodeError
  end.

(** [d.get(k, dflt)] *)
Definition get (d : pyval) (k : string) (dflt : pyval) : outcome pyval :=
  match d with
  | VDict kvs => Return (default dflt (od_lookup k kvs))
  | _ => Raise AttributeError
  end.

(** [d.items()] *)
Definition items (d : pyval) : outcome (list (string * pyval)) :=
  match d with
  | VDict kvs => Return kvs
  | _ => Raise AttributeError
  end.

Definition chars (s : string) : list pyval :=
  map (fun c => VStr (String c EmptyString)) (String.list_ascii_of_string s).

(** The elements [for x in v] visits. *)
Definition iter (v : pyval) : outcome (list pyval) :=
  match v with
  | VList l => Return l
  | VTuple l => Return l
  | VDict kvs => Return (map (fun kv => VStr kv.1) kvs)
  | VStr s => Return (chars s)
  | _ => Raise TypeError
  end.

(** [tuple(v)] *)
Definition tuple (v : pyval) : outcome pyval := l ← iter v; Return (VTuple l).

(** [hash(v)] does not raise: no list and no dictionary inside. *)
Fixpoint hashable (v : pyval) : bool :=
  match v with
  | VList _ | VDict _ => false
  | VTuple l => forallb hashable l
  | _ => true
  end.

(** The integer a subscript of a sequence stands for; [True] is 1 and
    [False] is 0. *)
Definition index_of (k : pyval) : option Z :=
  match k with
  | VInt i => Some i
  | VBool b => Some (if b then 1 else 0)
  | _ => None
  end.

(** The position an index denotes in a sequence of [n] elements: a
    negative index counts from the end. *)
Definition position (n : nat) (i : Z) : option nat :=
  let j := if Z.ltb i 0 then i + Z.of_nat n else i in
  if Z.leb 0 j && Z.ltb j (Z.of_nat n) then Some (Z.to_nat j) else None.

(** [d[k]]. The keys of a dictionary are strings here, as in a JSON
    object, so any other key that can be hashed is missing. *)
Definition getitem (d k : pyval) : outcome pyval :=
  match d with
  | VDict kvs =>
      match k with
      | VStr s =>
          match od_lookup s kvs with
          | Some v => Return v
          | None => Raise KeyError
          end
      | _ => if hashable k then Raise KeyError else Raise TypeError
      end
  | VList l | VTuple l =>
      match index_of k with
      | Some i =>
          match position (length l) i ≫= (fun n => l !! n) with
          | Some v => Return v
          | None => Raise IndexError
          end
      | None => Raise TypeError
      end
  | VStr s =>
      match index_of k with
      | Some i =>
          match position (String.length s) i ≫= (fun n => chars s !! n) with
          | Some v => Return v
          | None => Raise IndexError
          end
      | None => Raise TypeError
      end
  | _ => Raise TypeError
  end.

(** [d[k] = v], giving the updated container. The loader assigns only
    where it has just read: to a string key of a dictionary, or to a
    position of a list. *)
Definition setitem (d k v : pyval) : outcome pyval :=
  match d with
  | VDict kvs =>
      match k with
      | VStr s => Return (VDict (od_upsert (fun _ => v) s kvs))
      | _ => Raise TypeError
      end
  | VList l =>
      match index_of k with
      | Some i =>
          match position (length l) i with
          | Some n => Return (VList (<[n := v]> l))
          | None => Raise IndexError
          end
      | None => Raise TypeError
      end
  | _ => Raise TypeError
  end.

(** [len(v)] *)
Definition len (v : pyval) : outcome nat :=
  match v with
  | VList l => Return (length l)
  | VTuple l => Return (length l)
  | VDict kvs => Return (length kvs)
  | VStr s => Return (String.length s)
  | _ => Raise TypeError
  end.

(** A loop that threads a value through its body. *)
Fixpoint for_each {A S : Type} (body : S -> A -> outcome S) (l : list A) (s : S)
  : outcome S :=
  match l with
  | [] => Return s
  | x :: l' => s' ← body s x; for_each body l' s'
  end.

(** [[tuple(x) for x in v]] *)
Definition tuples_of (v : pyval) : outcome (list pyval) :=
  l ← iter v; mapM tuple l.

End Py.

(** ** [shopping_list.py]: the cache *)

Definition _CACHE_KEY : string := "saved_shopping_list".

Definition save_cached_list (db : database)
    (shopping_data ingredient_sources : pyval)
    (start_date end_date : string) (use_pantry : bool) : database :=
  let payload := VDict [("shopping_data", shopping_data);
                        ("ingredient_sources", ingredient_sources);
                        ("start_date", VStr start_date);
                        ("end_date", VStr end_date);
                        ("use_pantry", VBool use_pantry)] in
  set_setting db _CACHE_KEY (JsonText payload).

(** [data["shopping_data"][store] = [tuple(item) for item in data["shopping_data"][store]]] *)
Definition retuple_store (data store : pyval) : outcome pyval :=
  sd ← Py.getitem data (VStr "shopping_data");
  stored ← Py.getitem sd store;
  converted ← Py.tuples_of stored;
  sd' ← Py.setitem sd store (VList converted);
  Py.setitem data (VStr "shopping_data") sd'.

(** The body of [for key, src_list in sources.items()]. *)
Definition keep_source (valid_sources : list (string * pyval))
    (kv : string * pyval) : outcome (list (string * pyval)) :=
  converted ← Py.tuples_of kv.2;
  match converted with
  | [] => Return valid_sources
  | first :: _ =>
      n ← Py.len first;
      if Nat.eqb n 6
      then Return (od_upsert (fun _ => VList converted) kv.1 valid_sources)
      else Return valid_sources
  end.

(** The [try] block of [load_cached_list]. *)
Definition load_body (raw : setting_text) : outcome pyval :=
  data ← Py.json_loads raw;
  shopping ← Py.get data "shopping_data" (VDict []);
  stores ← Py.iter shopping;
  data ← Py.for_each retuple_store stores data;
  sources ← Py.get data "ingredient_sources" (VDict []);
  src_items ← Py.items sources;
  valid_sources ← Py.for_each keep_source src_items [];
  Py.setitem data (VStr "ingredient_sources") (VDict valid_sources).

(** [except (json.JSONDecodeError, KeyError, TypeError): return None] *)
Definition load_cached_list (db : database) : outcome (option pyval) :=
  match get_setting db _CACHE_KEY with
  | None => Return None
  | Some EmptyText => Return None
  | Some raw =>
      match load_body raw with
      | Return data => Return (Some data)
      | Raise AttributeError => Raise AttributeError
      | Raise IndexError => Raise IndexError
      | Raise _ => Return None
      end
  end.

Definition clear_cached_list (db : database) : database :=
  set_setting db _CACHE_KEY EmptyText.

(** The Python values of a result of [generate] and of a trace of
    [get_ingredient_sources]; a source of the trace is a tuple of
    numbers and strings. *)
Inductive scalar := SNum (x : number) | SStr (s : string).

Definition py_number (x : number) : pyval :=
  match x with Int z => VInt z | Float f => VFloat f end.

Definition py_scalar (x : scalar) : pyval :=
  match x with SNum x => py_number x | SStr s => VStr s end.

Definition py_line (l : line) : pyval :=
  let '(name, qty, unit, cost) := l in
  VTuple [VStr name; py_number qty; VStr unit; from_option VFloat VNone cost].

Definition py_shopping_data (d : list (string * list line)) : pyval :=
  VDict (map (fun si => (si.1, VList (map py_line si.2))) d).

Definition py_source (t : list scalar) : pyval := VTuple (map py_scalar t).

Definition py_sources (t : list (string * list (list scalar))) : pyval :=
  VDict (map (fun kv => (kv.1, VList (map py_source kv.2))) t).

(** ** Vocabulary of the properties *)

Definition line_name (l : line) : string := l.1.1.1.
Definition line_qty (l : line) : number := l.1.1.2.
Definition line_unit (l : line) : string := l.1.2.
Definition line_cost (l : line) : option float := l.2.

(** A tuple is listed under a store of a result. *)
Definition listed (store_items : list (string * list line))
    (store : string) (l : line) : Prop :=
  exists items, In (store, items) store_items /\ In l items.

(** The ingredient rows the aggregation loop visits, in iteration order
    (entries first, then the rows of an entry), each with the servings
    of its entry. *)
Definition contributions (db : database) (entries : list MealPlanEntry)
  : list (Z * ingredient_row) :=
  flat_map (fun e => map (fun ing => (entry_servings e, ing)) (entry_ingredients db e))
           entries.

(** The first price that is not null among the visited rows of a key. *)
Fixpoint first_recipe_price (k : key) (cs : list (Z * ingredient_row))
  : option float :=
  match cs with
  | [] => None
  | c :: cs' =>
      if decide (shopping_key c.2 = k) then
        match ing_estimated_price c.2 with
        | Some p => Some p
        | None => first_recipe_price k cs'
        end
      else first_recipe_price k cs'
  end.

(** The tuple the staple pass appends for a staple name. *)
Definition staple_line (db : database) (name : string) : line :=
  (name, Int 0, "", known_prices db !! normalize name).

(** The state of [store_items] when the staple pass starts. *)
Definition recipe_lines (db : database) (use_pantry : bool)
    (required : list (key * float)) (ingredient_prices : gmap key float)
  : list (string * list line) :=
  sort_stores (fold_left (add_line db use_pantry ingredient_prices) required []).

(** The total a key accumulates over the visited rows, summed in
    iteration order from the [0.0] of the [defaultdict], with no rounding;
    [None] when no visited row has the key. *)
Fixpoint demand_total (k : key) (cs : list (Z * ingredient_row)) (acc : option float)
  : option float :=
  match cs with
  | [] => acc
  | c :: cs' =>
      demand_total k cs'
        (if decide (shopping_key c.2 = k)
         then Some (default 0 acc + to_float (times_int (s_qty c.2) c.1))%float
         else acc)
  end.

(** A float with at most two decimal places: one that [round(x, 2)]
    gives back. *)
Definition two_decimals (x : float) : bool := PrimFloat.Leibniz.eqb (round2 x) x.

Definition number_two_decimals (x : number) : bool :=
  match x with
  | Int _ => true
  | Float f => two_decimals f
  end.

(** "Quantity and cost of every emitted line have two decimal places." *)
Definition every_line_rounded (result : list (string * list line)) : Prop :=
  forall store l, listed result store l ->
    number_two_decimals (line_qty l) = true
    /\ forall cost, line_cost l = Some cost -> two_decimals cost = true.

(** A quantity that is not negative, not infinite and not a NaN. *)
Definition quantity_ok (x : number) : bool :=
  match x with
  | Int z => Z.leb 0 z
  | Float f => (0 <=? f)%float && (f <? infinity)%float
  end.

(** "Every aggregated total is strictly positive, so without pantry
    offsetting no line has a quantity of 0 or less." *)
Definition demand_strictly_positive (db : database) (entries : list MealPlanEntry)
  : Prop :=
  (forall k needed, In (k, needed) (aggregate db entries).1 ->
     (0 <? needed)%float = true)
  /\ forall item store l,
       In item (aggregate db entries).1 ->
       line_for db false (aggregate db entries).2 item = Some (store, l) ->
       is_positive (line_qty l) = true.

(** The bundle [load_cached_list] returns. *)
Definition cached_bundle (result : list (string * list line))
    (trace : list (string * list (list scalar)))
    (start_date end_date : string) (use_pantry : bool) : pyval :=
  VDict [("shopping_data", py_shopping_data result);
         ("ingredient_sources", py_sources trace);
         ("start_date", VStr start_date);
         ("end_date", VStr end_date);
         ("use_pantry", VBool use_pantry)].

(** "Trace entries whose arity differs from 6 are dropped for that key." *)
Definition sources_of_arity_6 (trace : list (string * list (list scalar)))
  : list (string * list (list scalar)) :=
  map (fun kv => (kv.1, List.filter (fun t => Nat.eqb (length t) 6) kv.2)) trace.

(** What the loader tests: a key is kept, whole, when its list of
    sources is not empty and the first source has 6 elements. *)
Definition first_source_has_arity_6 (kv : string * list (list scalar)) : bool :=
  match kv.2 with
  | [] => false
  | t :: _ => Nat.eqb (length t) 6
  end.

(** A payload as [json.loads] gives it back: the tuples of the lines
    and of the sources are lists. *)
Definition json_line (l : line) : pyval :=
  let '(name, qty, unit, cost) := l in
  VList [VStr name; py_number qty; VStr unit; from_option VFloat VNone cost].

Definition json_source (t : list scalar) : pyval := VList (map py_scalar t).

Definition json_shopping_entry (si : string * list line) : string * pyval :=
  (si.1, VList (map json_line si.2)).
Definition py_shopping_entry (si : string * list line) : string * pyval :=
  (si.1, VList (map py_line si.2)).
Definition json_source_entry (kv : string * list (list scalar)) : string * pyval :=
  (kv.1, VList (map json_source kv.2)).
Definition py_source_entry (kv : string * list (list scalar)) : string * pyval :=
  (kv.1, VList (map py_source kv.2)).

(** The dictionary [data] of the loader, with its two inner dictionaries. *)
Definition loaded (shopping sources : pyval) (start_date end_date : string)
    (use_pantry : bool) : pyval :=
  VDict [("shopping_data", shopping);
         ("ingredient_sources", sources);
         ("start_date", VStr start_date);
         ("end_date", VStr end_date);
         ("use_pantry", VBool use_pantry)].

(** "Saving then loading gives the bundle back, without the sources
    whose arity is not 6." *)
Definition roundtrip_as_claimed (db : database) (result : list (string * list line))
    (trace : list (string * list (list scalar)))
    (start_date end_date : string) (use_pantry : bool) : Prop :=
  load_cached_list
    (save_cached_list db (py_shopping_data result) (py_sources trace)
                      start_date end_date use_pantry)
  = Return (Some (cached_bundle result (sources_of_arity_6 trace)
                                start_date end_date use_pantry)).

(** "Every staple that needs buying and matches no tuple already
    present when its turn comes is listed in the result, in the bucket of
    its preferred store or in Staples." *)
Definition needed_staples_listed (db : database) (start_date end_date : string)
    (use_pantry : bool) : Prop :=
  let entries := get_meals_in_range db start_date end_date in
  forall rows1 name category st rows2,
    staple_need_rows db = rows1 ++ (name, category, st) :: rows2 ->
    (forall store l,
       listed (fold_left (add_staple db) rows1
                 (recipe_lines db use_pantry (aggregate db entries).1
                               (aggregate db entries).2)) store l ->
       normalize (line_name l) <> normalize name) ->
    listed (generate db start_date end_date use_pantry)
           (or_else st "Staples") (staple_line db name).

(** ** Sample databases *)

Module Sample.

Definition kroger : store_row := {| store_id := 1; store_name := "Kroger" |}.

Definition ingredient (rid : Z) (name : string) (qty : option float)
    (unit : option string) (price : option float) : ingredient_row :=
  {| ing_recipe_id := rid; ing_name := name; ing_quantity := qty; ing_unit := unit;
     ing_estimated_price := price; ing_shopping_name := None;
     ing_shopping_qty := None; ing_shopping_unit := None |}.

Definition meal (date slot : string) (rid : option Z) (servings : Z) : meal_plan_row :=
  {| mp_date := date; mp_meal_slot := slot; mp_recipe_id := rid; mp_servings := servings |}.

Definition staple (name : string) (sid : option Z) (need : Z) : staple_row :=
  {| staple_name := name; staple_category := None;
     staple_preferred_store_id := sid; staple_need_to_buy := need |}.

Definition pantry_item (name : string) (qty price : option float) (sid : option Z)
  : pantry_row :=
  {| pantry_name := name; pantry_quantity := qty; pantry_estimated_price := price;
     pantry_preferred_store_id := sid |}.

(** One dinner of two servings of a recipe with one pound of chicken
    breast; the three price sources all know the ingredient. *)
Definition priced : database :=
  {| db_stores := [kroger];
     db_pantry := [pantry_item "Chicken breast" (Some 0.5%float) (Some 5%float) (Some 1)];
     db_recipe_ingredients :=
       [ingredient 1 "Chicken Breast" (Some 1%float) (Some "lb") (Some 6%float);
        ingredient 1 "chicken breast " (Some 1%float) (Some "LB") (Some 7%float)];
     db_meal_plan := [meal "2026-02-23" "Dinner" (Some 1) 2];
     db_staples := [staple "Salt" None 0; staple "paper towels" (Some 1) 1];
     db_known_prices :=
       [{| kp_item_name := "chicken breast"; kp_unit_price := 4.5 |};
        {| kp_item_name := "Paper Towels"; kp_unit_price := 2.495 |}];
     db_settings := [] |}.

(** A recipe seasoned to taste: salt and pepper carry no quantity; salt
    is a staple on hand, the pantry holds more rice than the recipe
    needs. *)
Definition seasoned : database :=
  {| db_stores := [kroger];
     db_pantry := [pantry_item "Rice" (Some 3%float) None (Some 1)];
     db_recipe_ingredients :=
       [ingredient 2 "Rice" (Some 1%float) (Some "cup") None;
        ingredient 2 "Salt" None None None;
        ingredient 2 "Pepper" None None None];
     db_meal_plan := [meal "2026-02-23" "Dinner" (Some 2) 2];
     db_staples := [staple "salt" None 0];
     db_known_prices := [];
     db_settings := [] |}.

(** A week with a note-only entry, and a staple that needs buying. *)
Definition notes_only : database :=
  {| db_stores := [kroger];
     db_pantry := [];
     db_recipe_ingredients := [ingredient 1 "rice" (Some 1%float) (Some "cup") None];
     db_meal_plan := [meal "2026-02-24" "Lunch" None 1];
     db_staples := [staple "paper towels" (Some 1) 1];
     db_known_prices := [];
     db_settings := [] |}.

(** The pantry row of the milk was typed with a trailing space. *)
Definition padded : database :=
  {| db_stores := [kroger];
     db_pantry := [pantry_item "Milk " (Some 1%float) None (Some 1)];
     db_recipe_ingredients := [ingredient 3 "milk" (Some 3%float) None None];
     db_meal_plan := [meal "2026-02-23" "Breakfast" (Some 3) 1];
     db_staples := [];
     db_known_prices := [];
     db_settings := [] |}.


(** A pound and a quarter of butter at 1.02 a pound. *)
Definition butter : database :=
  {| db_stores := [kroger];
     db_pantry := [];
     db_recipe_ingredients :=
       [ingredient 5 "Butter" (Some 1.25%float) (Some "lb") (Some 1.02%float)];
     db_meal_plan := [meal "2026-02-23" "Dinner" (Some 5) 1];
     db_staples := [];
     db_known_prices := [];
     db_settings := [] |}.

(** A source tuple of the current format and one of the old format. *)
Definition source6 : list scalar :=
  [SNum (Int 1); SStr "Pancakes"; SStr "2026-02-23"; SStr "Breakfast";
   SNum (Float 2); SStr "cup"].
Definition source5 : list scalar :=
  [SNum (Int 1); SStr "Pancakes"; SStr "2026-02-23"; SStr "Breakfast"; SNum (Float 2)].

End Sample.

(** ** [shopping_list.py]: [get_ingredient_sources] *)

(** The recipes table, with the columns the range query joins. *)
Record recipe_row := {
  recipe_id : Z;
  recipe_name : string
}.

(** A source [(recipe_id, recipe_name, date, meal_slot, qty, unit)]. *)
Abbreviation source := (Z * string * string * string * number * string)%type.

Definition source_qty (t : source) : number := t.1.2.
Definition source_unit (t : source) : string := t.2.

(** [LEFT JOIN recipes r ON mp.recipe_id = r.id], column [r.name]: the
    [recipe_name] of an entry. *)
Definition entry_recipe_name (recipes : list recipe_row) (e : MealPlanEntry)
  : option string :=
  match entry_recipe_id e with
  | Some rid => recipe_name <$> List.find (fun r => Z.eqb (recipe_id r) rid) recipes
  | None => None
  end.

(** The tuple appended for an ingredient row of an entry. *)
Definition source_of (recipes : list recipe_row) (e : MealPlanEntry) (rid : Z)
    (ing : ingredient_row) : source :=
  (rid, or_else (entry_recipe_name recipes e) "Unknown Recipe",
   entry_date e, entry_meal_slot e,
   times_int (s_qty ing) (entry_servings e), s_unit ing).

(** [sources[key].append(...)] on a [defaultdict(list)] *)
Definition add_source (recipes : list recipe_row) (e : MealPlanEntry) (rid : Z)
    (sources : list (string * list source)) (ing : ingredient_row)
  : list (string * list source) :=
  od_upsert (fun o => default [] o ++ [source_of recipes e rid ing]) (s_name ing) sources.

(** The body of [for entry in entries]. *)
Definition add_entry_sources (recipes : list recipe_row) (db : database)
    (sources : list (string * list source)) (e : MealPlanEntry)
  : list (string * list source) :=
  match recipe_ref e with
  | Some rid => fold_left (add_source recipes e rid) (ingredients_of db rid) sources
  | None => sources
  end.

Definition get_ingredient_sources (recipes : list recipe_row) (db : database)
    (start_date end_date : string) : list (string * list source) :=
  match get_meals_in_range db start_date end_date with
  | [] => []
  | entries => fold_left (add_entry_sources recipes db) entries []
  end.

(** A source as the tuple of Python values the cache stores. *)
Definition scalars_of_source (t : source) : list scalar :=
  let '(rid, rname, date, slot, qty, unit) := t in
  [SNum (Int rid); SStr rname; SStr date; SStr slot; SNum qty; SStr unit].

Definition scalar_trace (sources : list (string * list source))
  : list (string * list (list scalar)) :=
  map (fun kv => (kv.1, map scalars_of_source kv.2)) sources.

(** The ingredient rows the two aggregation loops visit, in iteration
    order, each with its entry and the recipe of the entry. *)
Definition visits (db : database) (entries : list MealPlanEntry)
  : list (MealPlanEntry * Z * ingredient_row) :=
  flat_map (fun e => match recipe_ref e with
                     | Some rid => map (fun ing => (e, rid, ing)) (ingredients_of db rid)
                     | None => []
                     end)
           entries.

(** The sources of the visited rows shown under a name, in visiting order. *)
Definition sources_named (recipes : list recipe_row) (n : string)
    (vs : list (MealPlanEntry * Z * ingredient_row)) : list source :=
  map (fun v => source_of recipes v.1.1 v.1.2 v.2)
      (List.filter (fun v => String.eqb (s_name v.2) n) vs).

(** The quantities of the sources with a unit, added one after the
    other to [0.0]. *)
Definition sources_total (u : string) (l : list source) : float :=
  fold_left PrimFloat.add
    (map (fun t => to_float (source_qty t))
         (List.filter (fun t => String.eqb (source_unit t) u) l)) 0%float.

(** [d[k].append(v)] on a [defaultdict(list)], for a pair [(k, v)]. *)
Definition group_step {K V : Type} `{EqDecision K}
    (acc : list (K * list V)) (kv : K * V) : list (K * list V) :=
  od_upsert (fun o => default [] o ++ [kv.2]) kv.1 acc.

(** The order of [ORDER BY mp.date, mp.meal_slot], on entries. *)
Definition entry_le (a b : MealPlanEntry) : bool :=
  match String.compare (entry_date a) (entry_date b) with
  | Lt => true
  | Gt => false
  | Eq => String.leb (entry_meal_slot a) (entry_meal_slot b)
  end.

(** A row the aggregation loops do not skip: its recipe id is neither
    null nor 0. *)
Definition recipe_backed (r : meal_plan_row) : bool :=
  match mp_recipe_id r with
  | Some rid => negb (Z.eqb rid 0)
  | None => false
  end.

(** The database with another meal_plan table. *)
Definition with_meal_plan (db : database) (rows : list meal_plan_row) : database :=
  {| db_stores := db_stores db; db_pantry := db_pantry db;
     db_recipe_ingredients := db_recipe_ingredients db;
     db_meal_plan := rows; db_staples := db_staples db;
     db_known_prices := db_known_prices db;
     db_settings := db_settings db |}.

(** ** [shopping_list.py]: [format_shopping_list] *)

Definition newline : string := String "010"%char EmptyString.

(** The dash of the item lines, U+2014, as its three bytes in UTF-8. *)
Definition em_dash : string :=
  String "226"%char (String "128"%char (String "148"%char EmptyString)).

Section Format.

(** The formatting of a number by the format specification [g] and of
    a float by [.2f]. *)
Variable format_g : number -> string.
Variable format_2f : float -> string.

(** [if qty and qty > 0] *)
Definition shows_qty (qty : number) : bool := is_true qty && is_positive qty.

(** ["".join(parts)] for one item *)
Definition item_line (item : line) : string :=
  let '(name, qty, unit, cost) := item in
  ("  [ ] " +:+ name)
  +:+ (if shows_qty qty
       then " " +:+ em_dash +:+ " " +:+ strip (format_g qty +:+ " " +:+ unit)
       else "")
  +:+ match cost with
      | Some c => "  $" +:+ format_2f c
      | None => ""
      end.

(** The body of [for name, qty, unit, cost in items], on
    [(lines, store_subtotal, store_has_priced)]. *)
Definition format_item (st : list string * float * bool) (item : line)
  : list string * float * bool :=
  let '(lines, store_subtotal, store_has_priced) := st in
  match line_cost item with
  | Some c => (lines ++ [item_line item], (store_subtotal + c)%float, true)
  | None => (lines ++ [item_line item], store_subtotal, store_has_priced)
  end.

(** The body of [for store, items in sorted(shopping_list.items())], on
    [(lines, grand_total, grand_total_has_items)]. *)
Definition format_store (st : list string * float * bool) (entry : string * list line)
  : list string * float * bool :=
  let '(lines, grand_total, grand_total_has_items) := st in
  let header := "=== " +:+ entry.1 +:+ " ===" in
  let '(lines, store_subtotal, store_has_priced) :=
    fold_left format_item entry.2 (lines ++ [header], 0%float, false) in
  if store_has_priced
  then (lines ++ ["  Store subtotal: $" +:+ format_2f store_subtotal; ""],
        (grand_total + store_subtotal)%float, true)
  else (lines ++ [""], grand_total, grand_total_has_items).

(** [sorted(shopping_list.items())]; the stores of a [dict] are
    distinct, so the pairs are ordered by their store. *)
Definition store_le (a b : string * list line) : bool := String.leb a.1 b.1.

Definition sorted_stores (shopping_list : list (string * list line))
  : list (string * list line) :=
  stable_sort store_le shopping_list.

(** The state of the loops when all the stores are done. *)
Definition format_totals (shopping_list : list (string * list line))
  : list string * float * bool :=
  fold_left format_store (sorted_stores shopping_list) ([], 0%float, false).

Definition format_shopping_list (shopping_list : list (string * list line))
  : string :=
  match shopping_list with
  | [] => "No items needed."
  | _ =>
      let '(lines, grand_total, grand_total_has_items) :=
        format_totals shopping_list in
      let lines :=
        if grand_total_has_items
        then lines ++ ["Estimated total: $" +:+ format_2f grand_total]
        else lines in
      strip (String.concat newline lines)
  end.

End Format.

(** *** The text, as a reader describes it *)

(** Floats added one after the other, from the left. *)
Definition float_sum (l : list float) (start : float) : float :=
  fold_left PrimFloat.add l start.

(** The costs of the items of a store that have one, in the order of
    the items. *)
Definition store_costs (entry : string * list line) : list float :=
  omap line_cost entry.2.

Definition store_priced (entry : string * list line) : bool :=
  match store_costs entry with
  | [] => false
  | _ => true
  end.

(** The subtotal of a store: its costs added to [0.0]. *)
Definition store_subtotal (entry : string * list line) : float :=
  float_sum (store_costs entry) 0.

(** Some item of some store has a cost. *)
Definition has_cost (shopping_list : list (string * list line)) : bool :=
  existsb store_priced shopping_list.

(** The estimated total: the subtotals of the stores that have a priced
    item, added to [0.0] in the order of the store names. *)
Definition estimated_total (shopping_list : list (string * list line)) : float :=
  float_sum (map store_subtotal (List.filter store_priced (sorted_stores shopping_list))) 0.

Section Text.

Variable format_g : number -> string.
Variable format_2f : float -> string.

(** The lines of a store: its header, a line per item, the subtotal
    when an item has a cost, and an empty line. *)
Definition store_block (entry : string * list line) : list string :=
  ("=== " +:+ entry.1 +:+ " ===") :: map (item_line format_g format_2f) entry.2
  ++ (if store_priced entry
      then ["  Store subtotal: $" +:+ format_2f (store_subtotal entry); ""]
      else [""]).

(** The blocks of the stores, in the order of the store names. *)
Definition store_blocks (shopping_list : list (string * list line)) : list string :=
  flat_map store_block (sorted_stores shopping_list).

Definition total_line (shopping_list : list (string * list line)) : string :=
  "Estimated total: $" +:+ format_2f (estimated_total shopping_list).

End Text.

(** ** [meal_plan.py]: the week and the upsert of a cell *)

(** A [datetime.date] is its proleptic Gregorian ordinal
    ([date.toordinal()]): day 1 is Monday, 1 January of year 1, and a
    [timedelta] of days is a difference of ordinals. *)
Definition weekday (d : Z) : Z := (d + 6) mod 7.

(** [get_week_start(for_date)]; [today] is the value of [date.today()]. *)
Definition get_week_start (for_date : option Z) (today : Z) : Z :=
  let for_date := default today for_date in
  for_date - weekday for_date.

(** A row of the meal_plan table with its [notes] column. *)
Abbreviation plan_row := (meal_plan_row * option string)%type.

(** [WHERE date = ? AND meal_slot = ?] *)
Definition in_cell (entry_date slot : string) (r : plan_row) : bool :=
  String.eqb (mp_date r.1) entry_date && String.eqb (mp_meal_slot r.1) slot.

Definition cell_of (r : plan_row) : string * string :=
  (mp_date r.1, mp_meal_slot r.1).

(** [recipe_id is not None or bool(notes)] *)
Definition has_content (recipe_id : option Z) (notes : option string) : bool :=
  match recipe_id with
  | Some _ => true
  | None => match truthy notes with Some _ => true | None => false end
  end.

(** [PRAGMA foreign_keys = ON] and
    [recipe_id INTEGER REFERENCES recipes(id)]: a statement that writes a
    recipe id absent from the recipes table fails. *)
Definition foreign_key_ok (recipes : list recipe_row) (rid : option Z) : bool :=
  match rid with
  | Some rid => existsb (fun r => Z.eqb (recipe_id r) rid) recipes
  | None => true
  end.

(** [set_meal]. The result is the meal_plan table after the commit;
    [None] is the [sqlite3.IntegrityError] of the UPDATE or the INSERT,
    which leaves the table as it was. *)
Definition set_meal (recipes : list recipe_row) (tbl : list plan_row)
    (entry_date slot : string) (recipe_id : option Z) (servings : Z)
    (notes : option string) : option (list plan_row) :=
  match List.find (in_cell entry_date slot) tbl with
  | Some _ =>
      if has_content recipe_id notes
      then if foreign_key_ok recipes recipe_id
           then Some (map (fun r => if in_cell entry_date slot r
                                    then ({| mp_date := mp_date r.1;
                                             mp_meal_slot := mp_meal_slot r.1;
                                             mp_recipe_id := recipe_id;
                                             mp_servings := servings |}, notes)
                                    else r) tbl)
           else None
      else Some (List.filter (fun r => negb (in_cell entry_date slot r)) tbl)
  | None =>
      if has_content recipe_id notes
      then if foreign_key_ok recipes recipe_id
           then Some (tbl ++ [({| mp_date := entry_date; mp_meal_slot := slot;
                                  mp_recipe_id := recipe_id;
                                  mp_servings := servings |}, notes)])
           else None
      else Some tbl
  end.

(** [set_meal(entry_date, slot, None)], with the defaults [servings=1]
    and [notes=None]. *)
Definition clear_meal (recipes : list recipe_row) (tbl : list plan_row)
    (entry_date slot : string) : option (list plan_row) :=
  set_meal recipes tbl entry_date slot None 1 None.

(** ** More sample data *)

Module More.

Definition recipes : list recipe_row :=
  [{| recipe_id := 1; recipe_name := "Chicken dinner" |};
   {| recipe_id := 2; recipe_name := "" |}].

End More.

(** A [defaultdict(list)] as the code leaves it: distinct keys, and no
    key with an empty list. *)
Definition well_grouped (si : list (string * list line)) : Prop :=
  NoDup (map fst si) /\ forall s items, In (s, items) si -> items <> [].

(** ** Shapes of a double

    A double, seen through [Prim2SF] as a sign, a mantissa and an
    exponent: the shapes the facts about signs are stated on. *)

(** The sign a rounding gives. *)
Definition signed (s : bool) (x : spec_float) : Prop :=
  match x with
  | S754_zero s' | S754_infinity s' | S754_finite s' _ _ => s' = s
  | S754_nan => False
  end.

(** A number of sign [s] that is not zero, at least [2 ^ (D - 1)] in
    absolute value. *)
Definition at_least (s : bool) (D : Z) (x : spec_float) : Prop :=
  match x with
  | S754_infinity s' => s' = s
  | S754_finite s' m e => s' = s /\ (D <= Zpos (digits2_pos m) + e)%Z
  | _ => False
  end.

(** A number that is not an infinity. *)
Definition bounded_sf (x : spec_float) : Prop :=
  match x with S754_infinity _ => False | _ => True end.

(** Not below zero: a zero of either sign, a positive number, or
    [+inf]. *)
Definition nonneg_sf (x : spec_float) : Prop :=
  match x with
  | S754_zero _ => True
  | S754_infinity s | S754_finite s _ _ => s = false
  | S754_nan => False
  end.

(** Above zero, as a valid double is: its magnitude is above [emin]. *)
Definition positive_sf (x : spec_float) : Prop := at_least false (-1073)%Z x.

Definition zero_sf (x : spec_float) : Prop :=
  match x with
  | S754_zero _ => True
  | _ => False
  end.

(** Where [N / D] lies between [m] and [m + 1]. *)
Definition loc_of (m N D : Z) : location :=
  if Z.eqb N (m * D) then loc_Exact
  else loc_Inexact (Z.compare (2 * N) ((2 * m + 1) * D)).

Definition located (r : shr_record) (N D : Z) : Prop :=
  (shr_m r * D <= N < (shr_m r + 1) * D)%Z
  /\ loc_of_shr_record r = loc_of (shr_m r) N D.

(** The normal double of sign [s] with the 53-bit mantissa [m] (or
    [2 ^ 53], after a carry) and the exponent [e]. *)
Definition normal_sf (s : bool) (m e : Z) : spec_float :=
  if Z.eqb m (2 ^ 53) then
    if Z.leb (e + 1) 971 then S754_finite s (Z.to_pos (2 ^ 52)) (e + 1)
    else S754_infinity s
  else if Z.leb e 971 then S754_finite s (Z.to_pos m) e else S754_infinity s.

(** * Properties *)

(** ** Facts about doubles

    The operations of [float] are specified by the functions of
    [SpecFloat] on a sign, a mantissa and an exponent. What is needed of
    them here is the sign of a sum, of a product with an integer and of
    a rounding to hundredths. *)

Section FloatFacts.
Local Open Scope Z_scope.

Local Abbreviation fexp64 := (fexp prec emax).
Local Abbreviation emin64 := (SpecFloat.emin prec emax).

Lemma fexp_spec x : fexp64 x = Z.max (x - 53) (-1074).
Proof. reflexivity. Qed.

Lemma digits_log2 p : Zpos (digits2_pos p) = Z.log2 (Zpos p) + 1.
Proof.
  induction p as [p IH|p IH|]; simpl digits2_pos; [| |reflexivity].
  - rewrite Pos2Z.inj_succ, IH.
    change (Zpos p~1) with (2 * Zpos p + 1). rewrite Z.log2_succ_double by lia. lia.
  - rewrite Pos2Z.inj_succ, IH.
    change (Zpos p~0) with (2 * Zpos p). rewrite Z.log2_double by lia. lia.
Qed.

Lemma Zdigits2_log2 m : 0 < m -> Zdigits2 m = Z.log2 m + 1.
Proof. destruct m; try lia. intros _. apply digits_log2. Qed.

Lemma shr_1_m r : 0 <= shr_m r -> shr_m (shr_1 r) = shr_m r / 2.
Proof.
  destruct r as [m b s]. simpl. intros Hm.
  destruct m as [|[p|p|]|p]; simpl; try lia; try reflexivity.
  - change (Zpos p~1) with (2 * Zpos p + 1).
    rewrite Z.add_comm, Z.mul_comm, Z.div_add by lia. reflexivity.
  - change (Zpos p~0) with (2 * Zpos p).
    rewrite Z.mul_comm, Z.div_mul by lia. reflexivity.
Qed.

Lemma iter_shr_1_m n r :
  0 <= shr_m r -> shr_m (SpecFloat.iter_pos shr_1 n r) = shr_m r / 2 ^ Zpos n.
Proof.
  revert r. induction n as [n IH|n IH|]; intros r Hm; simpl SpecFloat.iter_pos.
  - assert (0 < 2 ^ Zpos n) as Hp by (apply Z.pow_pos_nonneg; lia).
    assert (0 <= shr_m (shr_1 r)) as H1 by (rewrite shr_1_m by lia; apply Z.div_pos; lia).
    assert (0 <= shr_m (SpecFloat.iter_pos shr_1 n (shr_1 r))) as H2
      by (rewrite IH by lia; apply Z.div_pos; lia).
    rewrite IH, IH, shr_1_m by lia.
    rewrite !Z.div_div by lia.
    f_equal.
    replace (Zpos n~1) with (1 + Zpos n + Zpos n) by lia.
    rewrite !Z.pow_add_r by lia. change (2 ^ 1) with 2. lia.
  - assert (0 < 2 ^ Zpos n) as Hp by (apply Z.pow_pos_nonneg; lia).
    assert (0 <= shr_m (SpecFloat.iter_pos shr_1 n r)) as H2
      by (rewrite IH by lia; apply Z.div_pos; lia).
    rewrite IH, IH by lia.
    rewrite !Z.div_div by lia.
    f_equal.
    replace (Zpos n~0) with (Zpos n + Zpos n) by lia.
    rewrite !Z.pow_add_r by lia. lia.
  - rewrite shr_1_m by lia. reflexivity.
Qed.

Lemma shr_record_of_loc_m m l : shr_m (shr_record_of_loc m l) = m.
Proof. destruct l as [|[]]; reflexivity. Qed.

(** What [shr_fexp] does to a mantissa that is not negative. *)
Lemma shr_fexp_spec m e l :
  0 <= m ->
  let n := fexp64 (Zdigits2 m + e) - e in
  shr_m (fst (shr_fexp prec emax m e l)) = (if 0 <? n then m / 2 ^ n else m)
  /\ snd (shr_fexp prec emax m e l) = (if 0 <? n then e + n else e).
Proof.
  intros Hm n. unfold shr_fexp. fold n. unfold shr.
  destruct n as [|p|p]; simpl fst; simpl snd.
  - rewrite shr_record_of_loc_m. split; reflexivity.
  - rewrite iter_shr_1_m by (rewrite shr_record_of_loc_m; lia).
    rewrite shr_record_of_loc_m. split; reflexivity.
  - rewrite shr_record_of_loc_m. split; reflexivity.
Qed.

Lemma round_nearest_even_bounds m l :
  round_nearest_even m l = m \/ round_nearest_even m l = m + 1.
Proof.
  destruct l as [|[]]; simpl; auto. destruct (Z.even m); auto.
Qed.

(** One shift: the mantissa stays positive and the magnitude
    [digits + exponent] is kept, when it is above [emin]. *)
Lemma shr_fexp_magnitude m e l :
  0 < m -> emin64 < Zdigits2 m + e ->
  let m' := shr_m (fst (shr_fexp prec emax m e l)) in
  let e' := snd (shr_fexp prec emax m e l) in
  0 < m' /\ Zdigits2 m' + e' = Zdigits2 m + e
  /\ e' = Z.max e (fexp64 (Zdigits2 m + e)).
Proof.
  intros Hm HD m' e'.
  destruct (shr_fexp_spec m e l) as [Hm' He']; [lia|].
  fold m' in Hm'. fold e' in He'. clearbody m' e'.
  rewrite fexp_spec in *. change emin64 with (-1074) in HD.
  pose proof (Zdigits2_log2 m Hm) as Hdm.
  set (n := Z.max (Zdigits2 m + e - 53) (-1074) - e) in *.
  assert (n = Z.max (Zdigits2 m + e - 53) (-1074) - e) as Hn by reflexivity.
  clearbody n.
  destruct (0 <? n) eqn:E.
  - apply Z.ltb_lt in E.
    assert (n <= Z.log2 m) as Hle by lia.
    assert (m' = Z.shiftr m n) as Hshift by (rewrite Z.shiftr_div_pow2 by lia; exact Hm').
    assert (0 < m') as Hpos.
    { rewrite Hm'. apply Z.div_str_pos. split; [apply Z.pow_pos_nonneg; lia|].
      etransitivity; [apply Z.pow_le_mono_r with (c := Z.log2 m); lia|].
      apply Z.log2_spec. lia. }
    split; [exact Hpos|].
    rewrite (Zdigits2_log2 m') by lia.
    rewrite Hshift, Z.log2_shiftr by lia. lia.
  - apply Z.ltb_ge in E. rewrite Hm', He'. split; [lia|]. split; [reflexivity|lia].
Qed.

Lemma shr_fexp_nonneg m e l :
  0 <= m -> 0 <= shr_m (fst (shr_fexp prec emax m e l)).
Proof.
  intros Hm. destruct (shr_fexp_spec m e l) as [-> _]; [lia|].
  destruct (0 <? _) eqn:E; [|lia]. apply Z.ltb_lt in E.
  apply Z.div_pos; [lia|]. apply Z.pow_pos_nonneg; lia.
Qed.

Lemma binary_round_aux_unfold s m e l :
  binary_round_aux prec emax s m e l
  = let r1 := shr_fexp prec emax m e l in
    let r2 := shr_fexp prec emax
                (round_nearest_even (shr_m (fst r1)) (loc_of_shr_record (fst r1)))
                (snd r1) loc_Exact in
    match shr_m (fst r2) with
    | Z0 => S754_zero s
    | Zpos m' => if snd r2 <=? emax - prec then S754_finite s m' (snd r2)
                 else S754_infinity s
    | Zneg _ => S754_nan
    end.
Proof.
  unfold binary_round_aux.
  destruct (shr_fexp prec emax m e l) as [r1 e1]. simpl.
  destruct (shr_fexp prec emax _ e1 loc_Exact) as [r2 e2]. reflexivity.
Qed.

Lemma binary_round_aux_signed s m e l :
  0 <= m -> signed s (binary_round_aux prec emax s m e l).
Proof.
  intros Hm. rewrite binary_round_aux_unfold. cbv zeta.
  set (r1 := shr_fexp prec emax m e l).
  set (m2 := round_nearest_even _ _).
  assert (0 <= shr_m (fst r1)) as H1 by (apply shr_fexp_nonneg; lia).
  assert (0 <= m2) as H2.
  { unfold m2. destruct (round_nearest_even_bounds (shr_m (fst r1))
                           (loc_of_shr_record (fst r1))) as [-> | ->]; lia. }
  pose proof (shr_fexp_nonneg m2 (snd r1) loc_Exact H2) as H3.
  destruct (shr_m (fst (shr_fexp prec emax m2 (snd r1) loc_Exact))); simpl; try lia.
  - reflexivity.
  - destruct (_ <=? _); reflexivity.
Qed.

Lemma Zdigits2_succ m : 0 < m ->
  Zdigits2 m <= Zdigits2 (m + 1) <= Zdigits2 m + 1.
Proof.
  intros Hm. rewrite !Zdigits2_log2 by lia.
  destruct (Z.log2_succ_or m) as [H|H]; unfold Z.succ in H; lia.
Qed.

Lemma binary_round_aux_at_least s m e l :
  0 < m -> emin64 < Zdigits2 m + e ->
  at_least s (Zdigits2 m + e) (binary_round_aux prec emax s m e l).
Proof.
  intros Hm HD. rewrite binary_round_aux_unfold. cbv zeta.
  destruct (shr_fexp_magnitude m e l Hm HD) as (H1 & HD1 & _).
  set (r1 := shr_fexp prec emax m e l) in *.
  set (m2 := round_nearest_even _ _).
  assert (0 < m2 /\ Zdigits2 (shr_m (fst r1)) <= Zdigits2 m2) as [H2 Hd2].
  { unfold m2. destruct (round_nearest_even_bounds (shr_m (fst r1))
                           (loc_of_shr_record (fst r1))) as [-> | ->].
    - lia.
    - pose proof (Zdigits2_succ _ H1). lia. }
  destruct (shr_fexp_magnitude m2 (snd r1) loc_Exact H2) as (H3 & HD3 & _); [lia|].
  destruct (shr_m (fst (shr_fexp prec emax m2 (snd r1) loc_Exact))) eqn:E; try lia.
  destruct (_ <=? _); simpl; [|reflexivity].
  split; [reflexivity|]. simpl in HD3. lia.
Qed.

Lemma binary_round_aux_bounded s m e l :
  0 < m -> emin64 < Zdigits2 m + e ->
  Zdigits2 m + e < emax -> e <= emax - prec ->
  bounded_sf (binary_round_aux prec emax s m e l).
Proof.
  intros Hm HD Hmax He. rewrite binary_round_aux_unfold. cbv zeta.
  destruct (shr_fexp_magnitude m e l Hm HD) as (H1 & HD1 & He1).
  set (r1 := shr_fexp prec emax m e l) in *.
  set (m2 := round_nearest_even _ _).
  assert (0 < m2 /\ Zdigits2 (shr_m (fst r1)) <= Zdigits2 m2 <= Zdigits2 (shr_m (fst r1)) + 1)
    as [H2 Hd2].
  { unfold m2. destruct (round_nearest_even_bounds (shr_m (fst r1))
                           (loc_of_shr_record (fst r1))) as [-> | ->].
    - lia.
    - pose proof (Zdigits2_succ _ H1). lia. }
  destruct (shr_fexp_magnitude m2 (snd r1) loc_Exact H2) as (H3 & HD3 & He3); [lia|].
  destruct (shr_m (fst (shr_fexp prec emax m2 (snd r1) loc_Exact))) eqn:E; try exact I.
  destruct (_ <=? _) eqn:Ele; [exact I|]. apply Z.leb_gt in Ele.
  rewrite !fexp_spec in *. change (emax - prec) with 971 in *.
  change emax with 1024 in Hmax. lia.
Qed.

(** ** Alignment and rounding of a mantissa *)

Lemma iter_xO m d : Zpos (Pos.iter xO m d) = Zpos m * 2 ^ Zpos d.
Proof.
  induction d as [|d IH] using Pos.peano_ind.
  - simpl. lia.
  - rewrite Pos.iter_succ, Pos2Z.inj_xO, IH, Pos2Z.inj_succ, Z.pow_succ_r by lia. lia.
Qed.

Lemma shl_align_spec m e e' :
  snd (shl_align m e e') = Z.min e e'
  /\ Zpos (fst (shl_align m e e')) = Zpos m * 2 ^ (e - Z.min e e').
Proof.
  unfold shl_align. destruct (e' - e) as [|d|d] eqn:E; cbn [fst snd].
  - replace (Z.min e e') with e by lia. rewrite Z.sub_diag, Z.pow_0_r. lia.
  - replace (Z.min e e') with e by lia. rewrite Z.sub_diag, Z.pow_0_r. lia.
  - replace (Z.min e e') with e' by lia. split; [reflexivity|].
    rewrite iter_xO. replace (e - e') with (Zpos d) by lia. reflexivity.
Qed.

Lemma shl_align_digits m e e' :
  Zdigits2 (Zpos (fst (shl_align m e e'))) + snd (shl_align m e e')
  = Zdigits2 (Zpos m) + e.
Proof.
  destruct (shl_align_spec m e e') as [-> Hm].
  rewrite !Zdigits2_log2 by lia. rewrite Hm.
  rewrite Z.log2_mul_pow2 by lia. lia.
Qed.

Lemma binary_round_unfold s m e :
  binary_round prec emax s m e
  = binary_round_aux prec emax s
      (Zpos (fst (shl_align m e (fexp64 (Zpos (digits2_pos m) + e)))))
      (snd (shl_align m e (fexp64 (Zpos (digits2_pos m) + e)))) loc_Exact.
Proof. unfold binary_round. destruct (shl_align _ _ _). reflexivity. Qed.

Lemma binary_round_signed s m e : signed s (binary_round prec emax s m e).
Proof. rewrite binary_round_unfold. apply binary_round_aux_signed. lia. Qed.

Lemma binary_round_at_least s m e :
  emin64 < Zdigits2 (Zpos m) + e ->
  at_least s (Zdigits2 (Zpos m) + e) (binary_round prec emax s m e).
Proof.
  intros HD. rewrite binary_round_unfold.
  rewrite <- (shl_align_digits m e (fexp64 (Zpos (digits2_pos m) + e))) in *.
  apply binary_round_aux_at_least; [lia|exact HD].
Qed.

Lemma binary_round_bounded s m e :
  emin64 < Zdigits2 (Zpos m) + e -> Zdigits2 (Zpos m) + e < emax ->
  e <= emax - prec ->
  bounded_sf (binary_round prec emax s m e).
Proof.
  intros HD Hmax He. rewrite binary_round_unfold.
  pose proof (shl_align_spec m e (fexp64 (Zpos (digits2_pos m) + e))) as [Hs _].
  rewrite <- (shl_align_digits m e (fexp64 (Zpos (digits2_pos m) + e))) in *.
  apply binary_round_aux_bounded; [lia|exact HD|exact Hmax|lia].
Qed.

(** A rounded mantissa is a valid float. *)
Lemma binary_round_valid s m e :
  emin64 < Zdigits2 (Zpos m) + e ->
  valid_binary (binary_round prec emax s m e) = true.
Proof.
  intros HD. rewrite binary_round_unfold.
  pose proof (shl_align_spec m e (fexp64 (Zpos (digits2_pos m) + e))) as [Hs _].
  pose proof (shl_align_digits m e (fexp64 (Zpos (digits2_pos m) + e))) as Hd.
  set (mz := Zpos (fst (shl_align m e (fexp64 (Zpos (digits2_pos m) + e))))) in *.
  set (ez := snd (shl_align m e (fexp64 (Zpos (digits2_pos m) + e)))) in *.
  assert (0 < mz) as Hmz by (unfold mz; lia).
  change (Zpos (digits2_pos m)) with (Zdigits2 (Zpos m)) in Hs.
  clearbody mz ez.
  rewrite binary_round_aux_unfold. cbv zeta.
  destruct (shr_fexp_magnitude mz ez loc_Exact Hmz) as (H1 & HD1 & He1); [lia|].
  set (r1 := shr_fexp prec emax mz ez loc_Exact) in *.
  set (m2 := round_nearest_even _ _).
  assert (0 < m2 /\ Zdigits2 (shr_m (fst r1)) <= Zdigits2 m2) as [H2 Hd2].
  { unfold m2. destruct (round_nearest_even_bounds (shr_m (fst r1))
                           (loc_of_shr_record (fst r1))) as [-> | ->].
    - lia.
    - pose proof (Zdigits2_succ _ H1). lia. }
  destruct (shr_fexp_magnitude m2 (snd r1) loc_Exact H2) as (H3 & HD3 & He3); [lia|].
  destruct (shr_m (fst (shr_fexp prec emax m2 (snd r1) loc_Exact))) eqn:E; try reflexivity.
  destruct (_ <=? _) eqn:Ele; [|reflexivity].
  cbn [valid_binary]. unfold bounded, canonical_mantissa. rewrite Ele, andb_true_r.
  apply Z.eqb_eq. change (Zdigits2 (Zpos p)) with (Zpos (digits2_pos p)) in HD3.
  rewrite HD3. rewrite !fexp_spec in *. lia.
Qed.

Lemma Zdigits2_pos m : 0 < m -> 0 < Zdigits2 m.
Proof. intros Hm. rewrite Zdigits2_log2 by lia. pose proof (Z.log2_nonneg m). lia. Qed.

Lemma Zdigits2_le a b : 0 < a -> a <= b -> Zdigits2 a <= Zdigits2 b.
Proof.
  intros Ha Hab. rewrite !Zdigits2_log2 by lia.
  pose proof (Z.log2_le_mono a b Hab). lia.
Qed.

Lemma Zdigits2_lt_pow2 a n : 0 < a -> a < 2 ^ n -> Zdigits2 a <= n.
Proof.
  intros Ha Hlt. rewrite Zdigits2_log2 by lia.
  assert (0 <= n) by (destruct (Z.neg_nonneg_cases n) as [Hn|Hn]; [|done];
                      rewrite Z.pow_neg_r in Hlt; lia).
  pose proof (Z.log2_lt_pow2 a n Ha). lia.
Qed.

(** ** The integers as doubles *)

Lemma binary_normalize_valid z :
  valid_binary (binary_normalize prec emax z 0 false) = true.
Proof.
  destruct z as [|p|p]; simpl; [reflexivity| |];
    apply binary_round_valid;
    pose proof (Zdigits2_pos (Zpos p)); change (SpecFloat.emin prec emax) with (-1074); lia.
Qed.

Lemma Prim2SF_float_of_int z :
  Prim2SF (float_of_int z) = binary_normalize prec emax z 0 false.
Proof. unfold float_of_int. apply Prim2SF_SF2Prim, binary_normalize_valid. Qed.

(** ** Signs *)

Lemma at_least_weaken s D D' x : D' <= D -> at_least s D x -> at_least s D' x.
Proof. destruct x; simpl; try tauto. intros ? [? ?]. split; [assumption|lia]. Qed.

Lemma signed_nonneg x : signed false x -> nonneg_sf x.
Proof. destruct x; simpl; auto. Qed.

Lemma positive_nonneg x : positive_sf x -> nonneg_sf x.
Proof. destruct x; simpl; try tauto. Qed.

Lemma binary_normalize_nonneg z e :
  0 <= z -> signed false (binary_normalize prec emax z e false).
Proof.
  destruct z as [|p|p]; try lia; intros _; simpl; [reflexivity|].
  apply binary_round_signed.
Qed.

Lemma binary_normalize_at_least z e :
  0 < z -> -1074 < Zdigits2 z + e ->
  at_least false (Zdigits2 z + e) (binary_normalize prec emax z e false).
Proof.
  destruct z as [|p|p]; try lia; intros _ HD. cbn [binary_normalize].
  apply binary_round_at_least. exact HD.
Qed.

Lemma SFadd_nonneg x y :
  nonneg_sf x -> nonneg_sf y -> nonneg_sf (SFadd prec emax x y).
Proof.
  destruct x as [sx|sx| |sx mx ex], y as [sy|sy| |sy my ey];
    cbn [SFadd nonneg_sf]; try tauto; try (intros; subst; reflexivity).
  - intros _ _. destruct sx, sy; exact I.
  - intros -> ->. apply signed_nonneg. unfold cond_Zopp.
    apply binary_normalize_nonneg. lia.
Qed.

Lemma SFadd_positive_l x y :
  positive_sf x -> nonneg_sf y -> positive_sf (SFadd prec emax x y).
Proof.
  unfold positive_sf.
  destruct x as [sx|sx| |sx mx ex], y as [sy|sy| |sy my ey];
    cbn [SFadd nonneg_sf at_least]; try tauto;
    try (intros; subst; reflexivity); try (intros; subst; tauto).
  intros [-> HD] ->. unfold cond_Zopp.
  pose proof (shl_align_digits mx ex (Z.min ex ey)) as Hx.
  destruct (shl_align_spec mx ex (Z.min ex ey)) as [Hsx _].
  replace (Z.min ex (Z.min ex ey)) with (Z.min ex ey) in Hsx by lia.
  rewrite Hsx in Hx.
  set (ax := fst (shl_align mx ex (Z.min ex ey))) in *.
  set (ay := fst (shl_align my ey (Z.min ex ey))) in *.
  assert (Zdigits2 (Zpos ax) <= Zdigits2 (Zpos ax + Zpos ay)) as Hle
    by (apply Zdigits2_le; lia).
  change (Zdigits2 (Zpos mx)) with (Zpos (digits2_pos mx)) in Hx.
  apply (at_least_weaken false (Zdigits2 (Zpos ax + Zpos ay) + Z.min ex ey)); [lia|].
  apply binary_normalize_at_least; lia.
Qed.

Lemma SFadd_positive_r x y :
  nonneg_sf x -> positive_sf y -> positive_sf (SFadd prec emax x y).
Proof.
  unfold positive_sf.
  destruct x as [sx|sx| |sx mx ex], y as [sy|sy| |sy my ey];
    cbn [SFadd nonneg_sf at_least]; try tauto;
    try (intros; subst; reflexivity); try (intros; subst; tauto).
  intros -> [-> HD]. unfold cond_Zopp.
  pose proof (shl_align_digits my ey (Z.min ex ey)) as Hy.
  destruct (shl_align_spec my ey (Z.min ex ey)) as [Hsy _].
  replace (Z.min ey (Z.min ex ey)) with (Z.min ex ey) in Hsy by lia.
  rewrite Hsy in Hy.
  set (ax := fst (shl_align mx ex (Z.min ex ey))) in *.
  set (ay := fst (shl_align my ey (Z.min ex ey))) in *.
  assert (Zdigits2 (Zpos ay) <= Zdigits2 (Zpos ax + Zpos ay)) as Hle
    by (apply Zdigits2_le; lia).
  change (Zdigits2 (Zpos my)) with (Zpos (digits2_pos my)) in Hy.
  apply (at_least_weaken false (Zdigits2 (Zpos ax + Zpos ay) + Z.min ex ey)); [lia|].
  apply binary_normalize_at_least; lia.
Qed.

(** ** Products *)

Lemma SFmul_nonneg x y :
  nonneg_sf x -> nonneg_sf y -> bounded_sf x -> bounded_sf y ->
  nonneg_sf (SFmul prec emax x y).
Proof.
  destruct x as [sx|sx| |sx mx ex], y as [sy|sy| |sy my ey];
    cbn [SFmul nonneg_sf bounded_sf]; try tauto.
  intros -> -> _ _. apply signed_nonneg. apply binary_round_aux_signed. lia.
Qed.

Lemma Zdigits2_mul a b :
  0 < a -> 0 < b -> Zdigits2 a + Zdigits2 b - 1 <= Zdigits2 (a * b).
Proof.
  intros Ha Hb. rewrite !Zdigits2_log2 by lia.
  pose proof (Z.log2_mul_below a b Ha Hb). lia.
Qed.

(** A positive number times a number that is at least 1. *)
Lemma SFmul_positive x y :
  positive_sf x -> at_least false 1 y -> positive_sf (SFmul prec emax x y).
Proof.
  unfold positive_sf.
  destruct x as [sx|sx| |sx mx ex], y as [sy|sy| |sy my ey];
    cbn [SFmul at_least]; try tauto; try (intros; subst; reflexivity);
    try (intros ? [? ?]; subst; reflexivity); try (intros [? ?] ?; subst; reflexivity).
  intros [-> Hx] [-> Hy]. cbn [xorb].
  pose proof (Zdigits2_mul (Zpos mx) (Zpos my)) as Hmul.
  change (Zdigits2 (Zpos mx)) with (Zpos (digits2_pos mx)) in Hmul.
  change (Zdigits2 (Zpos my)) with (Zpos (digits2_pos my)) in Hmul.
  apply (at_least_weaken false (Zdigits2 (Zpos (mx * my)) + (ex + ey))).
  - rewrite Pos2Z.inj_mul. lia.
  - apply binary_round_aux_at_least; [lia|].
    change (SpecFloat.emin prec emax) with (-1074). rewrite Pos2Z.inj_mul. lia.
Qed.

(** ** The comparisons with zero, on doubles *)

Lemma leb_zero_spec f : (0 <=? f)%float = true <-> nonneg_sf (Prim2SF f).
Proof.
  rewrite FloatAxioms.leb_spec. change (Prim2SF 0) with (S754_zero false).
  destruct (Prim2SF f) as [s|[]| |[] m e]; cbn; intuition congruence.
Qed.

Lemma ltb_zero_spec f : (0 <? f)%float = true <-> positive_sf (Prim2SF f).
Proof.
  rewrite FloatAxioms.ltb_spec. change (Prim2SF 0) with (S754_zero false).
  pose proof (Prim2SF_valid f) as Hvalid.
  destruct (Prim2SF f) as [s|[]| |[] m e]; unfold positive_sf, SFltb;
    cbn [SFcompare at_least]; try intuition congruence.
  split; [intros _|reflexivity]. split; [reflexivity|].
  cbn [valid_binary] in Hvalid. unfold bounded, canonical_mantissa in Hvalid.
  apply andb_true_iff in Hvalid as [Hc _]. apply Z.eqb_eq in Hc.
  rewrite fexp_spec in Hc. pose proof (Zdigits2_pos (Zpos m)).
  change (Zdigits2 (Zpos m)) with (Zpos (digits2_pos m)) in *. lia.
Qed.

Lemma ltb_infinity_bounded f :
  (0 <=? f)%float = true -> (f <? infinity)%float = true -> bounded_sf (Prim2SF f).
Proof.
  rewrite leb_zero_spec, FloatAxioms.ltb_spec. change (Prim2SF infinity) with (S754_infinity false).
  destruct (Prim2SF f) as [s|[]| |[] m e]; cbn; intuition congruence.
Qed.

Lemma float_of_int_nonneg n : 0 <= n -> nonneg_sf (Prim2SF (float_of_int n)).
Proof.
  intros Hn. rewrite Prim2SF_float_of_int. apply signed_nonneg, binary_normalize_nonneg; exact Hn.
Qed.

Lemma float_of_int_at_least n : 1 <= n -> at_least false 1 (Prim2SF (float_of_int n)).
Proof.
  intros Hn. rewrite Prim2SF_float_of_int.
  pose proof (Zdigits2_pos n).
  apply (at_least_weaken false (Zdigits2 n + 0)); [lia|].
  apply binary_normalize_at_least; lia.
Qed.

Lemma float_of_int_bounded n : 0 <= n < 2 ^ 63 -> bounded_sf (Prim2SF (float_of_int n)).
Proof.
  intros [Hn Hlt]. rewrite Prim2SF_float_of_int.
  destruct n as [|p|p]; try lia; [exact I|]. cbn [binary_normalize].
  pose proof (Zdigits2_pos (Zpos p)).
  pose proof (Zdigits2_lt_pow2 (Zpos p) 63).
  apply binary_round_bounded; change (SpecFloat.emin prec emax) with (-1074);
    change emax with 1024; change prec with 53; lia.
Qed.

(** ** Sums and products of doubles *)

Lemma add_nonneg x y :
  (0 <=? x)%float = true -> (0 <=? y)%float = true -> (0 <=? x + y)%float = true.
Proof. rewrite !leb_zero_spec, FloatAxioms.add_spec. apply SFadd_nonneg. Qed.

Lemma add_positive_l x y :
  (0 <? x)%float = true -> (0 <=? y)%float = true -> (0 <? x + y)%float = true.
Proof. rewrite !ltb_zero_spec, leb_zero_spec, FloatAxioms.add_spec. apply SFadd_positive_l. Qed.

Lemma add_positive_r x y :
  (0 <=? x)%float = true -> (0 <? y)%float = true -> (0 <? x + y)%float = true.
Proof. rewrite !ltb_zero_spec, leb_zero_spec, FloatAxioms.add_spec. apply SFadd_positive_r. Qed.

Lemma positive_is_nonneg x : (0 <? x)%float = true -> (0 <=? x)%float = true.
Proof. rewrite ltb_zero_spec, leb_zero_spec. apply positive_nonneg. Qed.

Lemma mul_float_of_int_nonneg x n :
  (0 <=? x)%float = true -> (x <? infinity)%float = true -> 0 <= n < 2 ^ 63 ->
  (0 <=? x * float_of_int n)%float = true.
Proof.
  intros Hx Hfin Hn. pose proof (ltb_infinity_bounded x Hx Hfin) as Hb.
  revert Hx. rewrite !leb_zero_spec, FloatAxioms.mul_spec. intros Hx.
  apply SFmul_nonneg; [exact Hx|apply float_of_int_nonneg; lia|exact Hb|apply float_of_int_bounded; exact Hn].
Qed.

Lemma mul_float_of_int_positive x n :
  (0 <? x)%float = true -> 1 <= n -> (0 <? x * float_of_int n)%float = true.
Proof.
  rewrite !ltb_zero_spec, FloatAxioms.mul_spec. intros Hx Hn.
  apply SFmul_positive; [exact Hx|apply float_of_int_at_least; exact Hn].
Qed.

(** ** Rounding to hundredths keeps the sign *)

Lemma SFldexp_nonneg x k : nonneg_sf x -> nonneg_sf (SFldexp prec emax x k).
Proof.
  destruct x as [s|s| |s m e]; cbn [SFldexp nonneg_sf]; try tauto.
  intros ->. apply signed_nonneg, binary_round_signed.
Qed.

Lemma of_uint63_nonneg i : nonneg_sf (Prim2SF (of_uint63 i)).
Proof.
  rewrite FloatAxioms.of_uint63_spec. apply signed_nonneg, binary_normalize_nonneg.
  apply Uint63.to_Z_bounded.
Qed.

Lemma SF2Prim_nonneg y : nonneg_sf y -> nonneg_sf (Prim2SF (SF2Prim y)).
Proof.
  destruct y as [[]|[]| |[] m e]; cbn [nonneg_sf]; try discriminate; try tauto;
    intros _; try exact I; try reflexivity.
  cbn [SF2Prim]. unfold Z.ldexp. rewrite FloatAxioms.ldshiftexp_spec.
  apply SFldexp_nonneg, of_uint63_nonneg.
Qed.

Lemma SFdiv_nonneg k d :
  nonneg_sf (SFdiv prec emax (S754_finite false k 0) (S754_finite false d 0)).
Proof.
  cbn [SFdiv]. unfold SFdiv_core_binary.
  set (m' := match _ - _ with Zpos _ => _ | Z0 => _ | Zneg _ => _ end).
  assert (0 <= m') as Hm'.
  { unfold m'. destruct (_ - _) as [|p|p]; try lia.
    rewrite Z.shiftl_mul_pow2 by lia.
    apply Z.mul_nonneg_nonneg; [lia|]. apply Z.pow_nonneg. lia. }
  pose proof (Z.div_eucl_eq m' (Zpos d)) as Heq.
  pose proof (Z.mod_pos_bound m' (Zpos d)) as Hmod.
  unfold Z.modulo in Hmod.
  assert (0 <= fst (Z.div_eucl m' (Zpos d))) as Hq.
  { change (0 <= m' / Zpos d). apply Z.div_pos; lia. }
  destruct (Z.div_eucl m' (Zpos d)) as [q r]. cbn [fst] in Hq.
  cbn [xorb]. apply signed_nonneg, binary_round_aux_signed. exact Hq.
Qed.

Lemma round2_nonneg x : (0 <=? x)%float = true -> (0 <=? round2 x)%float = true.
Proof.
  rewrite !leb_zero_spec. unfold round2.
  destruct (Prim2SF x) as [s|s| |s m e] eqn:E; try (rewrite E; tauto).
  cbn [nonneg_sf]. intros ->.
  match goal with |- context [match ?h with Z0 => _ | Zpos _ => _ | Zneg _ => _ end] =>
    destruct h as [|k|k] end.
  - apply SF2Prim_nonneg. exact I.
  - apply SF2Prim_nonneg, SFdiv_nonneg.
  - apply SF2Prim_nonneg. exact I.
Qed.

(** ** Zeros *)

Lemma zero_not_positive x : zero_sf x -> ~ positive_sf x.
Proof. destruct x; simpl; tauto. Qed.

Lemma SFadd_zero x y : zero_sf x -> zero_sf y -> zero_sf (SFadd prec emax x y).
Proof.
  destruct x as [sx|sx| |sx mx ex], y as [sy|sy| |sy my ey];
    cbn [SFadd zero_sf]; try tauto.
  intros _ _. destruct sx, sy; exact I.
Qed.

Lemma SFmul_zero_l x y :
  zero_sf x -> nonneg_sf y -> bounded_sf y -> zero_sf (SFmul prec emax x y).
Proof.
  destruct x as [sx|sx| |sx mx ex], y as [sy|sy| |sy my ey];
    cbn [SFmul zero_sf nonneg_sf bounded_sf]; tauto.
Qed.

Lemma SFmul_zero_r x y :
  nonneg_sf x -> bounded_sf x -> zero_sf y -> zero_sf (SFmul prec emax x y).
Proof.
  destruct x as [sx|sx| |sx mx ex], y as [sy|sy| |sy my ey];
    cbn [SFmul zero_sf nonneg_sf bounded_sf]; tauto.
Qed.

(** A double that is not below zero is above zero, or a zero. *)
Lemma nonneg_cases x :
  (0 <=? x)%float = true -> (0 <? x)%float = true \/ zero_sf (Prim2SF x).
Proof.
  rewrite leb_zero_spec, FloatAxioms.ltb_spec.
  change (Prim2SF 0) with (S754_zero false).
  destruct (Prim2SF x) as [s|[]| |[] m e]; cbn; intuition congruence.
Qed.

Lemma zero_ltb x : zero_sf (Prim2SF x) -> (0 <? x)%float = false.
Proof.
  intros Hz. apply not_true_is_false. rewrite ltb_zero_spec.
  by apply zero_not_positive.
Qed.

Lemma add_positive_iff x y :
  (0 <=? x)%float = true -> (0 <=? y)%float = true ->
  (0 <? x + y)%float = true <-> (0 <? x)%float = true \/ (0 <? y)%float = true.
Proof.
  intros Hx Hy. split.
  - intros Hsum.
    destruct (nonneg_cases x Hx) as [?|Hzx]; [by left|].
    destruct (nonneg_cases y Hy) as [?|Hzy]; [by right|].
    rewrite zero_ltb in Hsum; [done|].
    rewrite FloatAxioms.add_spec. by apply SFadd_zero.
  - intros [?|?]; [by apply add_positive_l|by apply add_positive_r].
Qed.

(** Floats that are not below zero, added from the left. *)
Lemma fold_add_nonneg l a :
  (forall x, In x l -> (0 <=? x)%float = true) -> (0 <=? a)%float = true ->
  (0 <=? fold_left PrimFloat.add l a)%float = true.
Proof.
  revert a. induction l as [|x l IH]; intros a Hl Ha; simpl; [done|].
  apply IH; [intros; apply Hl; by right|].
  apply add_nonneg; [done|]. apply Hl. by left.
Qed.

Lemma fold_add_positive_iff l a :
  (forall x, In x l -> (0 <=? x)%float = true) -> (0 <=? a)%float = true ->
  (0 <? fold_left PrimFloat.add l a)%float = true
  <-> (0 <? a)%float = true \/ exists x, In x l /\ (0 <? x)%float = true.
Proof.
  revert a. induction l as [|x l IH]; intros a Hl Ha; simpl.
  - split; [by left|]. by intros [?|(? & [] & _)].
  - assert ((0 <=? x)%float = true) as Hx by (apply Hl; by left).
    rewrite IH; [|intros; apply Hl; by right|by apply add_nonneg].
    rewrite add_positive_iff by done. split.
    + intros [[?|?]|(y & ? & ?)]; [by left|right; exists x; auto|right; exists y; auto].
    + intros [?|(y & [<-|?] & ?)]; [by left; left|by left; right|right; exists y; auto].
Qed.

(** Rounding a zero gives it back. *)
Lemma round2_zero x : zero_sf (Prim2SF x) -> round2 x = x.
Proof. unfold round2. by destruct (Prim2SF x). Qed.

(** ** The sign of a product with an integer *)

Lemma float_of_int_zero : Prim2SF (float_of_int 0) = S754_zero false.
Proof. reflexivity. Qed.

Lemma mul_float_of_int_sign q n :
  (0 <=? q)%float = true -> (q <? infinity)%float = true -> 0 <= n < 2 ^ 63 ->
  (0 <=? q * float_of_int n)%float = true
  /\ ((0 <? q * float_of_int n)%float = true <-> (0 <? q)%float = true /\ 1 <= n).
Proof.
  intros Hq Hfin Hn. split; [by apply mul_float_of_int_nonneg|]. split.
  - intros Hpos. split.
    + destruct (nonneg_cases q Hq) as [?|Hz]; [done|].
      rewrite zero_ltb in Hpos; [done|]. rewrite FloatAxioms.mul_spec.
      apply SFmul_zero_l; [done|apply float_of_int_nonneg; lia|by apply float_of_int_bounded].
    + destruct (decide (1 <= n)) as [?|Hlt]; [done|].
      assert (n = 0) as -> by lia.
      rewrite zero_ltb in Hpos; [done|]. rewrite FloatAxioms.mul_spec.
      apply SFmul_zero_r; [by apply leb_zero_spec|by apply ltb_infinity_bounded|].
      by rewrite float_of_int_zero.
  - intros [? ?]. by apply mul_float_of_int_positive.
Qed.

Lemma float_of_int_sign z :
  0 <= z ->
  (0 <=? float_of_int z)%float = true
  /\ ((0 <? float_of_int z)%float = true <-> 1 <= z).
Proof.
  intros Hz. split; [by apply leb_zero_spec, float_of_int_nonneg|]. split.
  - intros Hpos. destruct (decide (1 <= z)) as [?|Hlt]; [done|].
    assert (z = 0) as -> by lia. by rewrite zero_ltb in Hpos.
  - intros Hz1. apply ltb_zero_spec. unfold positive_sf.
    eapply at_least_weaken; [|by apply float_of_int_at_least]. lia.
Qed.

End FloatFacts.

(** ** Rounding to the nearest, on integers

    The rounding of [SpecFloat] keeps, next to a truncated mantissa, the
    place of the exact value between it and the next integer; here that
    place is tied to a fraction [N / D], and the rounding to
    [round_half_even]. *)

Section RoundFacts.
Local Open Scope Z_scope.

Lemma round_half_even_floor n d :
  0 < d -> n / d <= round_half_even n d <= n / d + 1.
Proof.
  intros Hd. unfold round_half_even.
  destruct (2 * (n mod d) ?= d); [destruct (Z.even _)| |]; lia.
Qed.

Lemma round_half_even_bound n d :
  0 < d -> 2 * Z.abs (round_half_even n d * d - n) <= d.
Proof.
  intros Hd. unfold round_half_even.
  pose proof (Z.div_mod n d ltac:(lia)) as Hn.
  pose proof (Z.mod_pos_bound n d Hd) as Hr.
  destruct (Z.compare_spec (2 * (n mod d)) d) as [H|H|H];
    [destruct (Z.even _)| |]; nia.
Qed.

Lemma round_half_even_unique n d k :
  0 < d -> 2 * Z.abs (k * d - n) < d -> round_half_even n d = k.
Proof.
  intros Hd Hk. unfold round_half_even.
  pose proof (Z.div_mod n d ltac:(lia)) as Hn.
  pose proof (Z.mod_pos_bound n d Hd) as Hr.
  set (q := n / d) in *. set (r := n mod d) in *. clearbody q r.
  assert (k = q \/ k = q + 1) as Hcases by nia.
  destruct (Z.compare_spec (2 * r) d) as [H|H|H];
    [destruct (Z.even _)| |]; nia.
Qed.

Lemma round_half_even_scale c n d :
  0 < c -> 0 < d -> round_half_even (c * n) (c * d) = round_half_even n d.
Proof.
  intros Hc Hd. unfold round_half_even.
  rewrite Z.div_mul_cancel_l by lia.
  rewrite Z.mul_mod_distr_l by lia.
  replace (2 * (c * (n mod d))) with (c * (2 * (n mod d))) by lia.
  rewrite <- Zmult_compare_compat_l by lia. reflexivity.
Qed.

Lemma round_half_even_exact m d : 0 < d -> round_half_even (m * d) d = m.
Proof. intros Hd. apply round_half_even_unique; [done|]. lia. Qed.


Lemma loc_of_shr_record_of_loc m l :
  loc_of_shr_record (shr_record_of_loc m l) = l /\ shr_m (shr_record_of_loc m l) = m.
Proof. by destruct l as [|[]]. Qed.

Lemma shr_1_located r N D :
  0 < D -> 0 <= shr_m r -> located r N D -> located (shr_1 r) N (2 * D).
Proof.
  intros HD Hm [Hrange Hloc]. destruct r as [m rb sb]. simpl in Hm, Hrange, Hloc.
  unfold located, loc_of in *.
  destruct m as [|[p|p|]|p]; [| | | |lia]; destruct rb, sb; simpl;
    repeat match goal with
    | H : context [Z.eqb ?a ?b] |- _ => destruct (Z.eqb_spec a b)
    | |- context [Z.eqb ?a ?b] => destruct (Z.eqb_spec a b)
    | H : context [Z.compare ?a ?b] |- _ => destruct (Z.compare_spec a b)
    | |- context [Z.compare ?a ?b] => destruct (Z.compare_spec a b)
    end; try discriminate; try (split; [lia|reflexivity]); try lia.
Qed.

Lemma shr_1_nonneg r : 0 <= shr_m r -> 0 <= shr_m (shr_1 r).
Proof. intros H. rewrite shr_1_m by done. by apply Z.div_pos. Qed.

Lemma iter_shr_1_located n r N D :
  0 < D -> 0 <= shr_m r -> located r N D ->
  located (SpecFloat.iter_pos shr_1 n r) N (D * 2 ^ Zpos n)
  /\ 0 <= shr_m (SpecFloat.iter_pos shr_1 n r).
Proof.
  revert r D. induction n as [n IH|n IH|]; intros r D HD Hm Hloc; simpl SpecFloat.iter_pos.
  - apply shr_1_located in Hloc as H1; [|done..].
    destruct (IH _ (2 * D) ltac:(lia) (shr_1_nonneg r Hm) H1) as [H2 Hm2].
    destruct (IH _ (2 * D * 2 ^ Zpos n) ltac:(lia) Hm2 H2) as [H3 Hm3].
    split; [|done]. 
    replace (D * 2 ^ Zpos n~1) with (2 * D * 2 ^ Zpos n * 2 ^ Zpos n); [done|].
    replace (Zpos n~1) with (1 + Zpos n + Zpos n) by lia.
    rewrite !Z.pow_add_r by lia. lia.
  - destruct (IH _ D HD Hm Hloc) as [H2 Hm2].
    destruct (IH _ (D * 2 ^ Zpos n) ltac:(lia) Hm2 H2) as [H3 Hm3].
    split; [|done].
    replace (D * 2 ^ Zpos n~0) with (D * 2 ^ Zpos n * 2 ^ Zpos n); [done|].
    replace (Zpos n~0) with (Zpos n + Zpos n) by lia.
    rewrite !Z.pow_add_r by lia. lia.
  - split; [|by apply shr_1_nonneg].
    replace (D * 2 ^ 1) with (2 * D) by lia. by apply shr_1_located.
Qed.

Lemma shr_fexp_located m e l N D :
  0 < D -> 0 <= m -> located (shr_record_of_loc m l) N D ->
  let n := fexp prec emax (Zdigits2 m + e) - e in
  located (fst (shr_fexp prec emax m e l)) N (D * 2 ^ Z.max n 0).
Proof.
  intros HD Hm Hloc n. unfold shr_fexp, shr. fold n.
  destruct (loc_of_shr_record_of_loc m l) as [_ Hsm].
  destruct n as [|p|p]; simpl fst.
  - by rewrite Z.mul_1_r.
  - rewrite Z.max_l by lia. apply iter_shr_1_located; [done|by rewrite Hsm|done].
  - by rewrite Z.mul_1_r.
Qed.

Lemma round_nearest_even_located r N D :
  0 < D -> located r N D ->
  round_nearest_even (shr_m r) (loc_of_shr_record r) = round_half_even N D.
Proof.
  intros HD [Hrange Hloc]. rewrite Hloc. unfold loc_of, round_half_even.
  set (m := shr_m r) in *. clearbody m.
  assert (N / D = m) as Hq by (symmetry; apply Z.div_unique with (N - m * D); lia).
  assert (N mod D = N - m * D) as Hr
    by (symmetry; apply Z.mod_unique with m; lia).
  rewrite Hq, Hr.
  destruct (Z.eqb_spec N (m * D)) as [->|Hne]; cbn [round_nearest_even].
  - replace (2 * (m * D - m * D)) with 0 by lia.
    destruct (Z.compare_spec 0 D); [lia|done|lia].
  - destruct (Z.compare_spec (2 * N) ((2 * m + 1) * D));
      destruct (Z.compare_spec (2 * (N - m * D)) D); try lia; reflexivity.
Qed.

Lemma new_location_located q r :
  0 <= r < 100 ->
  located (shr_record_of_loc q (new_location 100 r)) (q * 100 + r) 100.
Proof.
  intros Hr. destruct (loc_of_shr_record_of_loc q (new_location 100 r)) as [Hl Hm].
  unfold located. rewrite Hl, Hm. split; [lia|].
  assert (new_location 100 r
          = if Z.eqb r 0 then loc_Exact else loc_Inexact (Z.compare (2 * r) 100)) as ->
    by reflexivity.
  unfold loc_of.
  destruct (Z.eqb_spec r 0) as [->|Hne].
  - rewrite Z.add_0_r, Z.eqb_refl. done.
  - destruct (Z.eqb_spec (q * 100 + r) (q * 100)); [lia|].
    f_equal. destruct (Z.compare_spec (2 * r) 100);
      destruct (Z.compare_spec (2 * (q * 100 + r)) ((2 * q + 1) * 100)); try lia; reflexivity.
Qed.

End RoundFacts.

(** ** The division by 100 of [round(x, 2)] *)

Section DivFacts.
Local Open Scope Z_scope.

Lemma Zdigits2_bounds m d : 0 < m -> Zdigits2 m = d -> 2 ^ (d - 1) <= m < 2 ^ d.
Proof.
  intros Hm <-. rewrite Zdigits2_log2 by done.
  replace (Z.log2 m + 1 - 1) with (Z.log2 m) by lia.
  replace (Z.log2 m + 1) with (Z.succ (Z.log2 m)) by lia.
  by apply Z.log2_spec.
Qed.

Lemma Zdigits2_unique m d : 2 ^ (d - 1) <= m < 2 ^ d -> 0 < d -> Zdigits2 m = d.
Proof.
  intros Hm Hd. assert (0 < m) by (pose proof (Z.pow_pos_nonneg 2 (d - 1)); lia).
  rewrite Zdigits2_log2 by done.
  rewrite (Z.log2_unique m (d - 1)); [lia|lia|].
  by replace (Z.succ (d - 1)) with d by lia.
Qed.

Lemma binary_round_aux_normal s q e0 l N D :
  0 < D -> 2 ^ 52 <= q -> -1074 <= e0 ->
  located (shr_record_of_loc q l) N D ->
  let n1 := Zdigits2 q - 53 in
  0 <= n1
  /\ 2 ^ 52 <= N / (D * 2 ^ n1) < 2 ^ 53
  /\ binary_round_aux prec emax s q e0 l
     = normal_sf s (round_half_even N (D * 2 ^ n1)) (e0 + n1).
Proof.
  intros HD Hq He0 Hloc n1.
  assert (0 < q) as Hq0 by (pose proof (Z.pow_pos_nonneg 2 52); lia).
  assert (53 <= Zdigits2 q) as Hdq.
  { replace 53 with (Zdigits2 (2 ^ 52)) by reflexivity. apply Zdigits2_le; [done|lia]. }
  assert (0 <= n1) as Hn1 by (unfold n1; lia).
  pose proof (Zdigits2_bounds q _ Hq0 eq_refl) as Hqb.
  assert (fexp prec emax (Zdigits2 q + e0) - e0 = n1) as Hn.
  { rewrite fexp_spec. unfold n1. lia. }
  pose proof (shr_fexp_spec q e0 l ltac:(lia)) as [Hm1 He1]. cbv zeta in Hm1, He1.
  pose proof (shr_fexp_located q e0 l N D HD ltac:(lia) Hloc) as Hloc1. cbv zeta in Hloc1.
  rewrite Hn in Hm1, He1, Hloc1. rewrite Z.max_l in Hloc1 by lia.
  set (r1 := shr_fexp prec emax q e0 l) in *.
  assert (snd r1 = e0 + n1) as He1' by (destruct (Z.ltb_spec 0 n1); lia).
  assert (shr_m (fst r1) = q / 2 ^ n1) as Hm1'.
  { destruct (Z.ltb_spec 0 n1); [done|]. replace n1 with 0 by lia.
    by rewrite Z.div_1_r. }
  clear Hm1 He1.
  pose proof (Z.pow_pos_nonneg 2 n1 ltac:(lia) Hn1) as Hpow.
  assert (2 ^ 52 <= q / 2 ^ n1 < 2 ^ 53) as Hm1b.
  { replace (Zdigits2 q - 1) with (52 + n1) in Hqb by (unfold n1; lia).
    replace (Zdigits2 q) with (53 + n1) in Hqb by (unfold n1; lia).
    rewrite !Z.pow_add_r in Hqb by lia. split.
    - apply Z.div_le_lower_bound; lia.
    - apply Z.div_lt_upper_bound; lia. }
  assert (N / (D * 2 ^ n1) = q / 2 ^ n1) as Hfloor.
  { destruct Hloc1 as [Hrange _]. rewrite Hm1' in Hrange.
    symmetry. apply Z.div_unique with (N - q / 2 ^ n1 * (D * 2 ^ n1)); nia. }
  split; [done|]. split; [by rewrite Hfloor|].
  rewrite binary_round_aux_unfold. cbv zeta. fold r1.
  rewrite (round_nearest_even_located (fst r1) N (D * 2 ^ n1)) by (done || nia).
  set (m2 := round_half_even N (D * 2 ^ n1)).
  pose proof (round_half_even_floor N (D * 2 ^ n1) ltac:(nia)) as Hm2. fold m2 in Hm2.
  rewrite Hfloor in Hm2. rewrite He1'.
  pose proof (shr_fexp_spec m2 (e0 + n1) loc_Exact ltac:(lia)) as [Hm3 He3].
  cbv zeta in Hm3, He3. rewrite Hm3, He3. clear Hm3 He3.
  unfold normal_sf. change (emax - prec) with 971.
  destruct (Z.eqb_spec m2 (2 ^ 53)) as [->|Hne].
  - change (Zdigits2 (2 ^ 53)) with 54. rewrite fexp_spec.
    replace (Z.max (54 + (e0 + n1) - 53) (-1074) - (e0 + n1)) with 1 by lia.
    change (0 <? 1) with true. cbv iota.
    change (2 ^ 53 / 2 ^ 1) with (Zpos (Z.to_pos (2 ^ 52))). reflexivity.
  - assert (Zdigits2 m2 = 53) as -> by (apply Zdigits2_unique; lia).
    rewrite fexp_spec.
    replace (Z.max (53 + (e0 + n1) - 53) (-1074) - (e0 + n1)) with 0 by lia.
    change (0 <? 0) with false. cbv iota.
    destruct m2 as [|p|p]; [lia| |lia]. reflexivity.
Qed.


Lemma SFdiv_hundred_unfold s k :
  let a := Z.max (60 - Zdigits2 (Zpos k)) 0 in
  let m' := Zpos k * 2 ^ a in
  SFdiv prec emax (S754_finite s k 0) (S754_finite false 100 0)
  = binary_round_aux prec emax s (m' / 100) (- a) (new_location 100 (m' mod 100)).
Proof.
  intros a m'. unfold SFdiv, SFdiv_core_binary.
  change (Zdigits2 100) with 7. rewrite xorb_false_r.
  pose proof (Zdigits2_pos (Zpos k) ltac:(lia)) as Hd.
  assert (Z.min (fexp prec emax (Zdigits2 (Zpos k) + 0 - (7 + 0))) (0 - 0) = - a) as ->.
  { rewrite fexp_spec. unfold a. lia. }
  replace (0 - 0 - - a) with a by lia.
  assert (match a with
          | 0 => Zpos k
          | Zpos _ => Z.shiftl (Zpos k) a
          | Zneg _ => 0
          end = m') as ->.
  { unfold m'. assert (0 <= a) as Ha by (unfold a; lia).
    destruct a as [|p|p]; [lia| |lia]. by rewrite Z.shiftl_mul_pow2. }
  unfold Z.div, Z.modulo. by destruct (Z.div_eucl m' 100).
Qed.

Lemma SFdiv_hundred_spec s k :
  exists e1, -59 <= e1
    /\ 2 ^ 52 <= (Zpos k * 2 ^ 60) / (100 * 2 ^ (e1 + 60)) < 2 ^ 53
    /\ SFdiv prec emax (S754_finite s k 0) (S754_finite false 100 0)
       = normal_sf s (round_half_even (Zpos k * 2 ^ 60) (100 * 2 ^ (e1 + 60))) e1.
Proof.
  rewrite SFdiv_hundred_unfold. cbv zeta.
  set (d1 := Zdigits2 (Zpos k)). set (a := Z.max (60 - d1) 0).
  set (m' := Zpos k * 2 ^ a).
  pose proof (Zdigits2_pos (Zpos k) ltac:(lia)) as Hd. fold d1 in Hd.
  pose proof (Zdigits2_bounds (Zpos k) d1 ltac:(lia) eq_refl) as Hk.
  assert (0 <= a <= 59) as Ha by (unfold a; lia).
  assert (2 ^ 59 <= m') as Hm'.
  { unfold m'. destruct (Z.le_gt_cases d1 60) as [Hle|Hgt].
    - replace a with (60 - d1) by (unfold a; lia).
      replace 59 with ((d1 - 1) + (60 - d1)) by lia.
      rewrite Z.pow_add_r by lia.
      apply Z.mul_le_mono_nonneg_r; [apply Z.pow_nonneg|]; lia.
    - replace a with 0 by (unfold a; lia). rewrite Z.mul_1_r.
      etransitivity; [|apply Hk]. apply Z.pow_le_mono_r; lia. }
  pose proof (Z.div_mod m' 100 ltac:(lia)) as Hdm.
  pose proof (Z.mod_pos_bound m' 100 ltac:(lia)) as Hr.
  assert (2 ^ 52 <= m' / 100) as Hq.
  { apply Z.div_le_lower_bound; [lia|]. etransitivity; [|exact Hm']. done. }
  pose proof (new_location_located (m' / 100) (m' mod 100) Hr) as Hloc.
  replace (m' / 100 * 100 + m' mod 100) with m' in Hloc by lia.
  destruct (binary_round_aux_normal s (m' / 100) (- a) _ m' 100
              ltac:(lia) Hq ltac:(lia) Hloc) as (Hn1 & Hfl & ->).
  set (n1 := Zdigits2 (m' / 100) - 53) in *.
  exists (- a + n1). split; [lia|].
  assert (0 < 2 ^ (60 - a)) as Hc by (apply Z.pow_pos_nonneg; lia).
  assert (Zpos k * 2 ^ 60 = 2 ^ (60 - a) * m') as ->.
  { unfold m'. replace 60 with ((60 - a) + a) at 1 by lia.
    rewrite Z.pow_add_r by lia. lia. }
  assert (100 * 2 ^ (- a + n1 + 60) = 2 ^ (60 - a) * (100 * 2 ^ n1)) as ->.
  { replace (- a + n1 + 60) with ((60 - a) + n1) by lia.
    rewrite Z.pow_add_r by lia. lia. }
  pose proof (Z.pow_pos_nonneg 2 n1 ltac:(lia) Hn1).
  rewrite Z.div_mul_cancel_l by lia.
  rewrite round_half_even_scale by lia. done.
Qed.

End DivFacts.

(** ** A rounded double has two decimal places *)

Section HundredthFacts.
Local Open Scope Z_scope.

Lemma scaled_negative m p :
  scaled m (Zneg p) 2 = round_half_even (Zpos m * 100) (2 ^ Zpos p).
Proof. reflexivity. Qed.

Lemma scaled_nonnegative m e :
  0 <= e -> scaled m e 2 = Zpos m * 2 ^ e * 100.
Proof.
  intros He. unfold scaled.
  assert (round_half_even (Zpos m * 2 ^ e * 10 ^ 2) 1 = Zpos m * 2 ^ e * 100) as H.
  { change (10 ^ 2) with 100.
    rewrite <- (Z.mul_1_r (Zpos m * 2 ^ e * 100)) at 1.
    apply round_half_even_exact. lia. }
  destruct e as [|p|p]; [exact H|exact H|lia].
Qed.

(** Below [2 ^ 46] the hundredths a double was rounded from are read
    back from it. *)
Lemma small_regime s k e1 s' m3 e3 :
  -59 <= e1 ->
  2 ^ 52 <= (Zpos k * 2 ^ 60) / (100 * 2 ^ (e1 + 60)) ->
  normal_sf s (round_half_even (Zpos k * 2 ^ 60) (100 * 2 ^ (e1 + 60))) e1
  = S754_finite s' m3 e3 ->
  e3 <= -7 ->
  scaled m3 e3 2 = Zpos k.
Proof.
  intros He1 Hfl Hsf He3.
  set (m2 := round_half_even (Zpos k * 2 ^ 60) (100 * 2 ^ (e1 + 60))) in *.
  assert (0 < 2 ^ (e1 + 60)) as HT by (apply Z.pow_pos_nonneg; lia).
  pose proof (round_half_even_floor (Zpos k * 2 ^ 60) (100 * 2 ^ (e1 + 60)) ltac:(lia))
    as Hm2. fold m2 in Hm2.
  assert (0 < m2) as Hpos by (pose proof (Z.pow_pos_nonneg 2 52); lia).
  assert (e1 <= -7) as He1'.
  { unfold normal_sf in Hsf.
    destruct (Z.eqb m2 (2 ^ 53)), (Z.leb (e1 + 1) 971), (Z.leb e1 971);
      try discriminate; injection Hsf as _ _ <-; lia. }
  set (p1 := - e1).
  assert (m2 = round_half_even (Zpos k * 2 ^ p1) 100) as Hm2'.
  { unfold m2.
    replace (Zpos k * 2 ^ 60) with (2 ^ (e1 + 60) * (Zpos k * 2 ^ p1)).
    - replace (100 * 2 ^ (e1 + 60)) with (2 ^ (e1 + 60) * 100) by lia.
      apply round_half_even_scale; lia.
    - assert (2 ^ 60 = 2 ^ (e1 + 60) * 2 ^ p1) as ->; [|lia].
      rewrite <- Z.pow_add_r by (unfold p1; lia). f_equal. unfold p1. lia. }
  pose proof (round_half_even_bound (Zpos k * 2 ^ p1) 100 ltac:(lia)) as Hb.
  rewrite <- Hm2' in Hb.
  unfold normal_sf in Hsf.
  destruct (Z.eqb_spec m2 (2 ^ 53)) as [Hc|Hc].
  - destruct (Z.leb (e1 + 1) 971); [|discriminate].
    injection Hsf as _ <- <-.
    assert (exists p, e1 + 1 = Zneg p /\ Zpos p = p1 - 1) as (p & -> & Hp).
    { destruct (e1 + 1) as [|p|p] eqn:E; [lia|lia|]. exists p. split; [done|]. lia. }
    rewrite scaled_negative, Hp.
    assert (128 <= 2 ^ (p1 - 1)) as Hpow.
    { change 128 with (2 ^ 7). apply Z.pow_le_mono_r; lia. }
    assert (2 ^ p1 = 2 * 2 ^ (p1 - 1)) as Hp1.
    { replace p1 with (1 + (p1 - 1)) at 1 by lia. rewrite Z.pow_add_r by lia. done. }
    rewrite Hp1 in Hb. rewrite Hc in Hb.
    change (Zpos (Z.to_pos (2 ^ 52))) with (2 ^ 52).
    change (2 ^ 53 * 100) with (2 * (2 ^ 52 * 100)) in Hb.
    apply round_half_even_unique; [lia|].
    set (P := 2 ^ (p1 - 1)) in *. clearbody P. lia.
  - destruct (Z.leb e1 971); [|discriminate].
    injection Hsf as _ <- <-.
    assert (exists p, e1 = Zneg p /\ Zpos p = p1) as (p & -> & Hp).
    { unfold p1. destruct e1 as [|p|p]; [lia|lia|]. exists p. split; [done|]. lia. }
    rewrite scaled_negative, Hp. rewrite Z2Pos.id by lia.
    assert (128 <= 2 ^ p1) as Hpow.
    { change 128 with (2 ^ 7). apply Z.pow_le_mono_r; lia. }
    apply round_half_even_unique; [lia|].
    set (P := 2 ^ p1) in *. clearbody P. lia.
Qed.

Lemma floor_pow_lt a x y :
  0 <= a -> 0 <= x < y -> a / (100 * 2 ^ y) <= a / (100 * 2 ^ x) / 2.
Proof.
  intros Ha Hxy.
  assert (0 < 2 ^ x) by (apply Z.pow_pos_nonneg; lia).
  assert (2 <= 2 ^ (y - x)).
  { change 2 with (2 ^ 1) at 1. apply Z.pow_le_mono_r; lia. }
  replace (100 * 2 ^ y) with (100 * 2 ^ x * 2 ^ (y - x)).
  - rewrite <- Z.div_div by lia.
    apply Z.div_le_compat_l; [apply Z.div_pos; lia|lia].
  - replace y with (x + (y - x)) at 2 by lia. rewrite Z.pow_add_r by lia. lia.
Qed.

(** From [2 ^ 46] on a double is the nearest double to its own
    hundredths. *)
Lemma big_regime s m e :
  2 ^ 52 <= Zpos m < 2 ^ 53 -> -6 <= e <= 971 ->
  exists k, scaled m e 2 = Zpos k
    /\ SFdiv prec emax (S754_finite s k 0) (S754_finite false 100 0)
       = S754_finite s m e.
Proof.
  intros Hm He.
  set (T := 2 ^ (e + 60)). set (K := scaled m e 2).
  assert (0 < T) as HT by (apply Z.pow_pos_nonneg; lia).
  assert (2 * Z.abs (K * 2 ^ 60 - 100 * Zpos m * T) <= 64 * T
          /\ (Zpos m = 2 ^ 52 -> K * 2 ^ 60 = 100 * Zpos m * T)) as [HK Hexact].
  { destruct (Z.le_gt_cases 0 e) as [Hpos|Hneg].
    - assert (K * 2 ^ 60 = 100 * Zpos m * T) as ->; [|split; [lia|done]].
      unfold K, T. rewrite scaled_nonnegative, Z.pow_add_r by lia. lia.
    - assert (exists p, e = Zneg p) as [p ->]
        by (destruct e as [|p|p]; [lia|lia|by exists p]).
      set (p' := Zpos p). assert (1 <= p' <= 6) as Hp by (unfold p'; lia).
      assert (2 ^ 60 = 2 ^ p' * T) as H60.
      { unfold T. rewrite <- Z.pow_add_r by (unfold p'; lia). f_equal. unfold p'. lia. }
      assert (0 < 2 ^ p' <= 64) as Hpow.
      { split; [apply Z.pow_pos_nonneg; lia|].
        change 64 with (2 ^ 6). apply Z.pow_le_mono_r; lia. }
      unfold K. rewrite scaled_negative. fold p'. split.
      + pose proof (round_half_even_bound (Zpos m * 100) (2 ^ p') ltac:(lia)) as Hb.
        set (R := round_half_even (Zpos m * 100) (2 ^ p')) in *. clearbody R.
        rewrite H60. set (P := 2 ^ p') in *. clearbody P. nia.
      + intros ->. rewrite H60.
        replace (2 ^ 52 * 100) with (100 * 2 ^ (52 - p') * 2 ^ p').
        * rewrite round_half_even_exact by lia.
          replace (100 * 2 ^ 52 * T) with (100 * (2 ^ (52 - p') * 2 ^ p') * T); [lia|].
          rewrite <- Z.pow_add_r by lia. do 2 f_equal. f_equal. lia.
        * rewrite <- Z.mul_assoc, <- Z.pow_add_r by lia.
          replace (52 - p' + p') with 52 by lia. lia. }
  assert (0 < K) as HKpos.
  { assert (0 < K * 2 ^ 60); [|lia]. pose proof (Z.pow_pos_nonneg 2 52). nia. }
  destruct K as [|k|k] eqn:EK; [lia| |lia].
  exists k. split; [done|].
  assert (round_half_even (Zpos k * 2 ^ 60) (100 * T) = Zpos m) as Hrn.
  { apply round_half_even_unique; [lia|]. nia. }
  assert (2 ^ 52 <= Zpos k * 2 ^ 60 / (100 * T) < 2 ^ 53) as Hfl.
  { split.
    - apply Z.div_le_lower_bound; [lia|].
      destruct (Z.eq_dec (Zpos m) (2 ^ 52)) as [Heq|Hne].
      + rewrite (Hexact Heq), Heq. lia.
      + nia.
    - apply Z.div_lt_upper_bound; [lia|]. nia. }
  destruct (SFdiv_hundred_spec s k) as (e1 & He1 & Hfl1 & ->).
  assert (e1 = e) as ->.
  { destruct (Z.lt_trichotomy e1 e) as [Hlt|[Heq|Hgt]]; [|done|]; exfalso.
    - pose proof (floor_pow_lt (Zpos k * 2 ^ 60) (e1 + 60) (e + 60) ltac:(lia) ltac:(lia))
        as Hmono. fold T in Hmono.
      assert (Zpos k * 2 ^ 60 / (100 * 2 ^ (e1 + 60)) / 2 < 2 ^ 52); [|lia].
      apply Z.div_lt_upper_bound; lia.
    - pose proof (floor_pow_lt (Zpos k * 2 ^ 60) (e + 60) (e1 + 60) ltac:(lia) ltac:(lia))
        as Hmono. fold T in Hmono.
      assert (Zpos k * 2 ^ 60 / (100 * T) / 2 < 2 ^ 52); [|lia].
      apply Z.div_lt_upper_bound; lia. }
  fold T. rewrite Hrn. unfold normal_sf.
  destruct (Z.eqb_spec (Zpos m) (2 ^ 53)); [lia|].
  destruct (Z.leb_spec e 971); [|lia]. reflexivity.
Qed.

Lemma normal_sf_valid s m2 e1 :
  -59 <= e1 -> 2 ^ 52 <= m2 <= 2 ^ 53 ->
  valid_binary (normal_sf s m2 e1) = true
  /\ match normal_sf s m2 e1 with
     | S754_finite s' m e => s' = s /\ 2 ^ 52 <= Zpos m < 2 ^ 53 /\ -59 <= e <= 971
     | S754_infinity _ => True
     | _ => False
     end.
Proof.
  intros He Hm. unfold normal_sf.
  destruct (Z.eqb_spec m2 (2 ^ 53)) as [->|Hne].
  - destruct (Z.leb_spec (e1 + 1) 971); [|done].
    split; [|split; [done|split; [done|lia]]].
    unfold valid_binary, bounded, canonical_mantissa.
    change (Zpos (digits2_pos (Z.to_pos (2 ^ 52)))) with 53.
    rewrite fexp_spec. change (emax - prec) with 971.
    apply andb_true_iff. split; [apply Z.eqb_eq|apply Z.leb_le]; lia.
  - destruct (Z.leb_spec e1 971); [|done].
    destruct m2 as [|p|p]; [lia| |lia]. simpl Z.to_pos.
    split; [|split; [done|split; lia]].
    unfold valid_binary, bounded, canonical_mantissa.
    assert (Zpos (digits2_pos p) = 53) as ->.
    { change (Zpos (digits2_pos p)) with (Zdigits2 (Zpos p)).
      apply Zdigits2_unique; lia. }
    rewrite fexp_spec. change (emax - prec) with 971.
    apply andb_true_iff. split; [apply Z.eqb_eq|apply Z.leb_le]; lia.
Qed.

(** The double nearest to a number of hundredths is rounded to
    itself. *)
Lemma round2_hundredths s k :
  round2 (SF2Prim (SFdiv prec emax (S754_finite s k 0) (S754_finite false 100 0)))
  = SF2Prim (SFdiv prec emax (S754_finite s k 0) (S754_finite false 100 0)).
Proof.
  destruct (SFdiv_hundred_spec s k) as (e1 & He1 & Hfl & Hdiv).
  set (m2 := round_half_even (Zpos k * 2 ^ 60) (100 * 2 ^ (e1 + 60))) in *.
  assert (0 < 2 ^ (e1 + 60)) as HT by (apply Z.pow_pos_nonneg; lia).
  pose proof (round_half_even_floor (Zpos k * 2 ^ 60) (100 * 2 ^ (e1 + 60)) ltac:(lia))
    as Hm2. fold m2 in Hm2.
  destruct (normal_sf_valid s m2 e1 He1 ltac:(lia)) as [Hvalid Hshape].
  unfold round2 at 1. rewrite Hdiv at 1.
  rewrite FloatAxioms.Prim2SF_SF2Prim by exact Hvalid.
  destruct (normal_sf s m2 e1) as [| | |s' m3 e3] eqn:E; [done|by rewrite Hdiv|done|].
  destruct Hshape as (-> & Hm3 & He3).
  destruct (Z.le_gt_cases e3 (-7)) as [Hsmall|Hbig].
  - rewrite (small_regime s k e1 s m3 e3 He1 ltac:(lia) E Hsmall). reflexivity.
  - destruct (big_regime s m3 e3 Hm3 ltac:(lia)) as (k' & -> & Hk').
    by rewrite Hk', Hdiv.
Qed.

(** [round(round(x, 2), 2) == round(x, 2)]: a rounded double has two
    decimal places. *)
Lemma round2_idempotent x : round2 (round2 x) = round2 x.
Proof.
  unfold round2 at 2 3.
  destruct (Prim2SF x) as [s|s| |s m e] eqn:E.
  - unfold round2. by rewrite E.
  - unfold round2. by rewrite E.
  - unfold round2. by rewrite E.
  - destruct (scaled m e 2) as [|k|k].
    + unfold round2. by rewrite FloatAxioms.Prim2SF_SF2Prim.
    + apply round2_hundredths.
    + unfold round2. by rewrite FloatAxioms.Prim2SF_SF2Prim.
Qed.

Lemma two_decimals_round2 x : two_decimals (round2 x) = true.
Proof. apply Leibniz.eqb_spec, round2_idempotent. Qed.

End HundredthFacts.

(** ** Facts about the string methods *)

Section StringFacts.


















End StringFacts.

(** ** Sorting keeps the elements *)

Section SortFacts.
Context {A : Type} (le : A -> A -> bool).

Lemma insert_sorted_perm x l : Permutation (insert_sorted le x l) (x :: l).
Proof.
  induction l as [|y l IH]; simpl; [done|].
  destruct (le x y); [done|].
  rewrite IH. apply perm_swap.
Qed.

Lemma stable_sort_perm l : Permutation (stable_sort le l) l.
Proof.
  induction l as [|x l IH]; simpl; [done|].
  rewrite insert_sorted_perm. by constructor.
Qed.

Lemma stable_sort_In x l : In x (stable_sort le l) <-> In x l.
Proof.
  split; apply Permutation_in;
    [apply stable_sort_perm | symmetry; apply stable_sort_perm].
Qed.

End SortFacts.

(** ** Ordered dictionaries *)

Section OrderedDictFacts.
Context {K V : Type} `{EqDecision K}.
Implicit Types (d : list (K * V)) (f : option V -> V).

Lemma od_upsert_keys f k d k' :
  In k' (map fst (od_upsert f k d)) <-> k' = k \/ In k' (map fst d).
Proof.
  induction d as [|[k0 v0] d IH]; simpl; [intuition congruence|].
  destruct (decide (k = k0)) as [->|Hne]; simpl; [intuition congruence|].
  rewrite IH. intuition congruence.
Qed.

Lemma od_upsert_NoDup f k d :
  NoDup (map fst d) -> NoDup (map fst (od_upsert f k d)).
Proof.
  induction d as [|[k0 v0] d IH]; simpl.
  - intros _. apply NoDup_singleton.
  - rewrite NoDup_cons. intros [Hk0 Hd].
    destruct (decide (k = k0)) as [->|Hne]; simpl; rewrite NoDup_cons.
    + done.
    + split; [|auto]. rewrite list_elem_of_In, od_upsert_keys.
      rewrite list_elem_of_In in Hk0. intuition congruence.
Qed.

(** Where a binding of the dictionary after [d[k] = f(d.get(k))]
    comes from. *)
Lemma od_upsert_In_inv f k d k' v' :
  In (k', v') (od_upsert f k d) ->
  In (k', v') d
  \/ (k' = k /\ (v' = f None \/ exists v, In (k, v) d /\ v' = f (Some v))).
Proof.
  induction d as [|[k0 v0] d IH]; simpl.
  - intros [[= <- <-]|[]]. right; split; [done|by left].
  - destruct (decide (k = k0)) as [->|Hne]; simpl.
    + intros [[= <- <-]|Hin]; [|by left; right].
      right; split; [done|]. right. exists v0. split; [by left|done].
    + intros [E|Hin]; [by left; left|].
      destruct (IH Hin) as [?|[-> [->|(v & ? & ->)]]].
      * by left; right.
      * right; split; [done|by left].
      * right; split; [done|]. right. exists v. split; [by right|done].
Qed.

Lemma od_upsert_not_nil f k d : od_upsert f k d <> [].
Proof. destruct d as [|[k' v'] d]; simpl; [done|]. by destruct (decide _). Qed.
End OrderedDictFacts.

(** ** Where the tuples of a result come from *)

Section ListedFacts.
Implicit Types (si : list (string * list line)) (l : line).

Lemma listed_nil s l : ~ listed [] s l.
Proof. by intros (items & [] & _). Qed.

Lemma listed_cons k items si s l :
  listed ((k, items) :: si) s l <-> (s = k /\ In l items) \/ listed si s l.
Proof.
  unfold listed; simpl. split.
  - intros (its & [[= -> ->]|Hin] & Hl); [by left|right; eauto].
  - intros [[-> Hl]|(its & Hin & Hl)]; eauto.
Qed.

Lemma listed_store_append s l si s' l' :
  listed (store_append s l si) s' l' <-> listed si s' l' \/ (s' = s /\ l' = l).
Proof.
  unfold store_append.
  induction si as [|[k items] si IH]; simpl.
  - rewrite listed_cons. simpl. pose proof (listed_nil s' l'). intuition.
  - destruct (decide (s = k)) as [->|Hne]; rewrite !listed_cons.
    + simpl. rewrite in_app_iff. simpl. intuition.
    + rewrite IH. intuition.
Qed.

Lemma listed_sort_stores si s l : listed (sort_stores si) s l <-> listed si s l.
Proof.
  unfold sort_stores.
  induction si as [|[k items] si IH]; simpl; [done|].
  rewrite !listed_cons, IH. simpl. by rewrite stable_sort_In.
Qed.

Lemma listed_add_lines db up ip required si s l :
  listed (fold_left (add_line db up ip) required si) s l <->
  listed si s l
  \/ exists item, In item required /\ line_for db up ip item = Some (s, l).
Proof.
  revert si. induction required as [|item required IH]; intros si; simpl.
  - split; [by left|]. by intros [?|(? & [] & _)].
  - rewrite IH. unfold add_line.
    destruct (line_for db up ip item) as [[s0 l0]|] eqn:E.
    + rewrite listed_store_append. split.
      * intros [[?|[-> ->]]|(it & ? & ?)]; [by left| |right; eauto].
        right. exists item. eauto.
      * intros [?|(it & [<-|?] & Hit)]; [by left; left| |right; eauto].
        rewrite E in Hit. injection Hit as <- <-. left; by right.
    + split.
      * intros [?|(it & ? & ?)]; [by left|right; eauto].
      * intros [?|(it & [<-|?] & Hit)]; [by left|congruence|right; eauto].
Qed.

Lemma listed_add_staple db si row s l :
  listed (add_staple db si row) s l ->
  listed si s l
  \/ (s = or_else row.2 "Staples" /\ l = staple_line db row.1.1).
Proof.
  destruct row as [[name cat] st]. unfold add_staple. simpl.
  destruct (already_listed si (normalize name)); [by left|].
  rewrite listed_store_append. intuition.
Qed.

Lemma listed_add_staples db rows si s l :
  listed (fold_left (add_staple db) rows si) s l ->
  listed si s l
  \/ exists row, In row rows
      /\ s = or_else row.2 "Staples" /\ l = staple_line db row.1.1.
Proof.
  revert si. induction rows as [|row rows IH]; intros si; simpl; [by left|].
  intros [H|(r & ? & ?)]%IH; [|right; eauto].
  apply listed_add_staple in H as [?|?]; [by left|right; eauto].
Qed.

(** A tuple listed before a step of the staple pass stays listed. *)
Lemma listed_add_staple_mono db si row s l :
  listed si s l -> listed (add_staple db si row) s l.
Proof.
  destruct row as [[name cat] st]. unfold add_staple.
  destruct (already_listed si (normalize name)); [done|].
  rewrite listed_store_append. by left.
Qed.

Lemma listed_add_staples_mono db rows si s l :
  listed si s l -> listed (fold_left (add_staple db) rows si) s l.
Proof.
  revert si. induction rows as [|row rows IH]; intros si; simpl; [done|].
  intros. by apply IH, listed_add_staple_mono.
Qed.

(** Every tuple of the list built is a recipe-driven tuple of a key or
    the tuple of a staple that needs buying. *)
Lemma listed_build_list db up required ip s l :
  listed (build_list db up required ip) s l ->
  (exists item, In item required /\ line_for db up ip item = Some (s, l))
  \/ (exists row, In row (staple_need_rows db)
        /\ s = or_else row.2 "Staples" /\ l = staple_line db row.1.1).
Proof.
  unfold build_list. rewrite listed_sort_stores.
  intros [H|H]%listed_add_staples; [left|by right].
  rewrite listed_sort_stores, listed_add_lines in H.
  destruct H as [H|H]; [by apply listed_nil in H|done].
Qed.

(** A recipe-driven tuple of a key is in the list built. *)
Lemma line_for_listed db up required ip item s l :
  In item required -> line_for db up ip item = Some (s, l) ->
  listed (build_list db up required ip) s l.
Proof.
  intros Hin Hl. unfold build_list.
  rewrite listed_sort_stores. apply listed_add_staples_mono.
  rewrite listed_sort_stores, listed_add_lines. right; eauto.
Qed.

Lemma already_listed_spec si x :
  already_listed si x = true <->
  exists s l, listed si s l /\ normalize (line_name l) = x.
Proof.
  unfold already_listed. rewrite existsb_exists. split.
  - intros ([s items] & Hin & (l & Hl & E%String.eqb_eq)%existsb_exists).
    exists s, l. split; [by exists items|done].
  - intros (s & l & (items & Hin & Hl) & E).
    exists (s, items). split; [done|]. apply existsb_exists.
    exists l. split; [done|]. by apply String.eqb_eq.
Qed.
End ListedFacts.

(** ** The aggregation loop *)

Section AggregateFacts.
Variable db : database.
Implicit Types (entries : list MealPlanEntry) (cs : list (Z * ingredient_row))
  (acc : list (key * float) * gmap key float).

(** The two nested loops visit the contributions one after the other. *)
Lemma fold_add_entry entries acc :
  fold_left (add_entry db) entries acc
  = fold_left (fun acc c => add_ingredient c.1 acc c.2) (contributions db entries) acc.
Proof.
  revert acc. induction entries as [|e entries IH]; intros acc; simpl; [done|].
  rewrite fold_left_app, <- IH. f_equal.
  unfold add_entry. generalize (entry_ingredients db e). clear.
  intros ings. revert acc. induction ings as [|i ings IH]; intros acc; simpl; auto.
Qed.

Lemma fold_add_ingredient_required cs acc :
  (fold_left (fun acc c => add_ingredient c.1 acc c.2) cs acc).1
  = fold_left (fun r c => required_add (shopping_key c.2) (times_int (s_qty c.2) c.1) r)
              cs acc.1.
Proof. revert acc. induction cs as [|c cs IH]; intros acc; simpl; [done|]. by rewrite IH. Qed.

Lemma fold_add_ingredient_prices cs acc :
  (fold_left (fun acc c => add_ingredient c.1 acc c.2) cs acc).2
  = fold_left (fun p c => record_price (shopping_key c.2) (ing_estimated_price c.2) p)
              cs acc.2.
Proof. revert acc. induction cs as [|c cs IH]; intros acc; simpl; [done|]. by rewrite IH. Qed.

Lemma aggregate_required entries :
  (aggregate db entries).1
  = fold_left (fun r c => required_add (shopping_key c.2) (times_int (s_qty c.2) c.1) r)
              (contributions db entries) [].
Proof. unfold aggregate. by rewrite fold_add_entry, fold_add_ingredient_required. Qed.

Lemma aggregate_prices entries :
  (aggregate db entries).2
  = fold_left (fun p c => record_price (shopping_key c.2) (ing_estimated_price c.2) p)
              (contributions db entries) ∅.
Proof. unfold aggregate. by rewrite fold_add_entry, fold_add_ingredient_prices. Qed.

Lemma contributions_app entries more :
  contributions db (entries ++ more)
  = contributions db entries ++ contributions db more.
Proof. unfold contributions. apply flat_map_app. Qed.

(** A key that already has a price keeps it; a key without one gets
    the first price the remaining rows carry for it. *)
Lemma fold_record_price cs (p : gmap key float) k :
  fold_left (fun p c => record_price (shopping_key c.2) (ing_estimated_price c.2) p) cs p !! k
  = match p !! k with
    | Some v => Some v
    | None => first_recipe_price k cs
    end.
Proof.
  revert p. induction cs as [|c cs IH]; intros p; simpl.
  - by destruct (p !! k).
  - rewrite IH. unfold record_price.
    destruct (decide (shopping_key c.2 = k)) as [Hk|Hne].
    + rewrite Hk. destruct (ing_estimated_price c.2) as [v|]; [|done].
      destruct (p !! k) eqn:E; [by rewrite E|].
      by rewrite lookup_insert_eq.
    + destruct (ing_estimated_price c.2) as [v|]; [|done].
      destruct (p !! shopping_key c.2) eqn:E; [done|].
      by rewrite lookup_insert_ne.
Qed.

Lemma first_recipe_price_app k cs cs' :
  first_recipe_price k (cs ++ cs')
  = match first_recipe_price k cs with
    | Some v => Some v
    | None => first_recipe_price k cs'
    end.
Proof.
  induction cs as [|c cs IH]; simpl; [by destruct (first_recipe_price k cs')|].
  destruct (decide _); [|done]. by destruct (ing_estimated_price c.2).
Qed.

(** Invariants of [required]. *)
Lemma fold_required_NoDup cs (r : list (key * float)) :
  NoDup (map fst r) ->
  NoDup (map fst (fold_left (fun r c => required_add (shopping_key c.2)
                               (times_int (s_qty c.2) c.1) r) cs r)).
Proof.
  revert r. induction cs as [|c cs IH]; intros r Hr; simpl; [done|].
  apply IH. by apply od_upsert_NoDup.
Qed.

Lemma required_keys_NoDup entries : NoDup (map fst (aggregate db entries).1).
Proof. rewrite aggregate_required. apply fold_required_NoDup. constructor. Qed.




(** [required] is empty exactly when no row was visited. *)
Lemma required_nil_iff entries :
  (aggregate db entries).1 = [] <-> contributions db entries = [].
Proof.
  rewrite aggregate_required. split; [|by intros ->].
  destruct (contributions db entries) as [|c cs]; [done|]. simpl.
  assert (forall cs (r : list (key * float)), r <> [] ->
    fold_left (fun r c => required_add (shopping_key c.2)
                 (times_int (s_qty c.2) c.1) r) cs r <> []) as Hgen.
  { clear cs. induction cs as [|c' cs IH]; intros r Hr; simpl; [done|].
    apply IH, od_upsert_not_nil. }
  intros E. exfalso. revert E. apply Hgen, od_upsert_not_nil.
Qed.
End AggregateFacts.

(** ** [generate] as a whole *)

Section GenerateFacts.
Variable db : database.
Variables start_date end_date : string.
Variable use_pantry : bool.

Let entries := get_meals_in_range db start_date end_date.
Let required := (aggregate db entries).1.
Let ingredient_prices := (aggregate db entries).2.

Lemma generate_eq :
  generate db start_date end_date use_pantry
  = match required with
    | [] => []
    | _ => build_list db use_pantry required ingredient_prices
    end.
Proof.
  unfold generate, required, ingredient_prices, entries.
  destruct (get_meals_in_range db start_date end_date) as [|e es] eqn:E; [done|].
  by destruct (aggregate db (e :: es)) as [r p].
Qed.

Lemma generate_nonempty :
  required <> [] ->
  generate db start_date end_date use_pantry
  = build_list db use_pantry required ingredient_prices.
Proof. rewrite generate_eq. by destruct required. Qed.

(** Every tuple of the result is the recipe-driven tuple of a key of
    [required], or the tuple of a staple that needs buying. *)
Lemma listed_generate s l :
  listed (generate db start_date end_date use_pantry) s l ->
  (exists item, In item required
      /\ line_for db use_pantry ingredient_prices item = Some (s, l))
  \/ (exists row, In row (staple_need_rows db)
        /\ s = or_else row.2 "Staples" /\ l = staple_line db row.1.1).
Proof.
  rewrite generate_eq. destruct required as [|item r] eqn:E.
  - by intros ?%listed_nil.
  - apply listed_build_list.
Qed.

Lemma line_for_generate item s l :
  In item required ->
  line_for db use_pantry ingredient_prices item = Some (s, l) ->
  listed (generate db start_date end_date use_pantry) s l.
Proof.
  intros Hin Hl. rewrite generate_nonempty; [by eapply line_for_listed|].
  intros E. rewrite E in Hin. destruct Hin.
Qed.

End GenerateFacts.

(** ** Snapshot dictionaries and the rows they are built from *)

Section SnapshotFacts.
Context {A V : Type} (kf : A -> string) (vf : A -> V).

Lemma fold_insert_is_Some rows (m : gmap string V) k :
  is_Some (m !! k) \/ (exists r, In r rows /\ kf r = k) ->
  is_Some (fold_left (fun m r => <[kf r := vf r]> m) rows m !! k).
Proof.
  revert m. induction rows as [|r rows IH]; intros m; simpl.
  - by intros [?|(? & [] & _)].
  - intros H. apply IH.
    destruct (decide (kf r = k)) as [<-|Hne]; [left; by rewrite lookup_insert_eq|].
    rewrite lookup_insert_ne by done.
    destruct H as [?|(r' & [<-|?] & ?)]; [by left|done|right; eauto].
Qed.

Lemma fold_insert_Some rows (m : gmap string V) k v :
  fold_left (fun m r => <[kf r := vf r]> m) rows m !! k = Some v ->
  m !! k = Some v \/ (exists r, In r rows /\ kf r = k /\ vf r = v).
Proof.
  revert m. induction rows as [|r rows IH]; intros m; simpl; [by left|].
  intros [H|(r' & ? & ?)]%IH; [|right; eauto].
  destruct (decide (kf r = k)) as [<-|Hne].
  - rewrite lookup_insert_eq in H. injection H as <-. right; eauto.
  - rewrite lookup_insert_ne in H by done. by left.
Qed.
End SnapshotFacts.

Lemma known_prices_present db r :
  In r (db_known_prices db) -> is_Some (known_prices db !! normalize (kp_item_name r)).
Proof.
  intros Hr. unfold known_prices.
  apply (fold_insert_is_Some (fun r => normalize (kp_item_name r)) kp_unit_price).
  right; eauto.
Qed.

Lemma known_prices_row db n v :
  known_prices db !! n = Some v ->
  exists r, In r (db_known_prices db) /\ normalize (kp_item_name r) = n
    /\ kp_unit_price r = v.
Proof.
  unfold known_prices.
  intros [H|H]%(fold_insert_Some (fun r => normalize (kp_item_name r)) kp_unit_price);
    [by rewrite lookup_empty in H|done].
Qed.

(** ** The reconciliation of one key *)

Lemma line_for_inv db use_pantry ip n u needed s l :
  line_for db use_pantry ip ((n, u), needed) = Some (s, l) ->
  (n ∉ staple_names db)
  /\ exists buy_qty,
       buy_qty_for db use_pantry n needed = Some buy_qty
       /\ s = store_name_for db n
       /\ l = (title n, Float (round2 buy_qty), u,
               (fun p => round2 (p * buy_qty)%float) <$> unit_price_for db ip (n, u)).
Proof.
  unfold line_for. destruct (decide (n ∈ staple_names db)); [done|].
  destruct (buy_qty_for db use_pantry n needed) as [buy_qty|]; [|done].
  intros [= <- <-]. eauto.
Qed.






(** * The properties of the specification *)

(** C10. If no meal-plan entry of the inclusive date range carries a
    recipe reference -- in particular when the range has no entry at
    all -- or when the aggregated demand mapping is empty, [generate]
    returns the empty mapping; it returns before the staple pass, so no
    staple that needs buying is listed in that case. *)
Theorem generate_empty_without_demand db start_date end_date use_pantry :
  let entries := get_meals_in_range db start_date end_date in
  entries = []
  \/ (forall e, In e entries -> entry_recipe_id e = None)
  \/ (aggregate db entries).1 = [] ->
  generate db start_date end_date use_pantry = []
  /\ forall row, In row (staple_need_rows db) ->
       forall store, ~ listed (generate db start_date end_date use_pantry)
                        store (staple_line db row.1.1).
Proof.
  intros entries H.
  assert ((aggregate db entries).1 = []) as Hreq.
  { destruct H as [->|[H|H]]; [done| |done].
    apply required_nil_iff. unfold contributions.
    induction entries as [|e es IH]; simpl; [done|].
    rewrite IH by (intros; apply H; by right).
    unfold entry_ingredients, recipe_ref.
    by rewrite (H e (or_introl eq_refl)). }
  assert (generate db start_date end_date use_pantry = []) as ->.
  { rewrite generate_eq. fold entries. by rewrite Hreq. }
  split; [done|]. intros row _ store. apply listed_nil.
Qed.

Lemma generate_empty_without_demand_witness :
  (forall e, In e (get_meals_in_range Sample.notes_only "2026-02-23" "2026-03-01") ->
             entry_recipe_id e = None)
  /\ In ("paper towels", None, Some "Kroger") (staple_need_rows Sample.notes_only)
  /\ generate Sample.notes_only "2026-02-23" "2026-03-01" true = [].
Proof.
  assert (forall e, In e (get_meals_in_range Sample.notes_only "2026-02-23" "2026-03-01") ->
                    entry_recipe_id e = None) as H.
  { intros e [<-|[]]. reflexivity. }
  split; [exact H|]. split; [by left|].
  apply (generate_empty_without_demand Sample.notes_only "2026-02-23" "2026-03-01" true).
  right; left. exact H.
Defined.

(** C1. For every generation input and every surviving line item: when
    the normalised name of the item is present in the known-price
    snapshot (looked up by name only, whatever the unit), the resolved
    unit price is that known price, even when a recipe price for the
    (name, unit) key and a pantry price for the name exist too; the
    recipe price is used only without a known price, the pantry price
    only without the two others. The cost of the line is computed from
    the price resolved that way. *)
Theorem price_cascade_precedence db start_date end_date use_pantry n u needed store l :
  let entries := get_meals_in_range db start_date end_date in
  let ingredient_prices := (aggregate db entries).2 in
  let unit_price := unit_price_for db ingredient_prices (n, u) in
  In ((n, u), needed) (aggregate db entries).1 ->
  line_for db use_pantry ingredient_prices ((n, u), needed) = Some (store, l) ->
  listed (generate db start_date end_date use_pantry) store l
  /\ (exists buy_qty,
        buy_qty_for db use_pantry n needed = Some buy_qty
        /\ line_cost l = (fun p => round2 (p * buy_qty)%float) <$> unit_price)
  /\ (forall r, In r (db_known_prices db) -> normalize (kp_item_name r) = n ->
        is_Some (known_prices db !! n))
  /\ (forall known, known_prices db !! n = Some known ->
        unit_price = Some known
        /\ exists r, In r (db_known_prices db) /\ normalize (kp_item_name r) = n
             /\ kp_unit_price r = known)
  /\ (known_prices db !! n = None ->
      forall recipe_price, ingredient_prices !! (n, u) = Some recipe_price ->
        unit_price = Some recipe_price)
  /\ (known_prices db !! n = None -> ingredient_prices !! (n, u) = None ->
      unit_price = pantry_prices db !! n).
Proof.
  intros entries ingredient_prices unit_price Hin Hline.
  split; [by eapply line_for_generate|].
  split.
  { unfold line_for in Hline.
    destruct (decide (n ∈ staple_names db)); [done|].
    destruct (buy_qty_for db use_pantry n needed) as [buy_qty|]; [|done].
    exists buy_qty. split; [done|]. by injection Hline as <- <-. }
  split.
  { intros r Hr <-. by apply known_prices_present. }
  unfold unit_price, unit_price_for. simpl.
  split; [intros known Hknown; split; [by rewrite Hknown|by apply known_prices_row]|].
  split; [by intros -> recipe_price ->|].
  by intros -> ->.
Qed.

Lemma price_cascade_precedence_witness :
  let ingredient_prices :=
    (aggregate Sample.priced
       (get_meals_in_range Sample.priced "2026-02-23" "2026-02-23")).2 in
  ingredient_prices !! ("chicken breast", "lb") = Some 6%float
  /\ pantry_prices Sample.priced !! "chicken breast" = Some 5%float
  /\ unit_price_for Sample.priced ingredient_prices ("chicken breast", "lb")
     = Some 4.5%float
  /\ listed (generate Sample.priced "2026-02-23" "2026-02-23" true) "Kroger"
       ("Chicken Breast", Float 3.5, "lb", Some 15.75%float).
Proof.
  intros ingredient_prices.
  destruct (price_cascade_precedence Sample.priced "2026-02-23" "2026-02-23" true
              "chicken breast" "lb" 4%float "Kroger"
              ("Chicken Breast", Float 3.5, "lb", Some 15.75%float))
    as (Hlisted & _ & _ & Hknown & _).
  - vm_compute. by left.
  - vm_compute. reflexivity.
  - split; [vm_compute; reflexivity|].
    split; [vm_compute; reflexivity|].
    split; [apply (Hknown 4.5%float); vm_compute; reflexivity|exact Hlisted].
Defined.





(** C8. During demand aggregation the recipe price recorded for a
    normalised (name, unit) key is the first estimated price that is
    not null among the rows visited in entry-then-ingredient order; a
    later price of the same key never overwrites it. *)
Theorem first_recipe_price_wins db entries k :
  (aggregate db entries).2 !! k = first_recipe_price k (contributions db entries)
  /\ forall price more,
       (aggregate db entries).2 !! k = Some price ->
       (aggregate db (entries ++ more)).2 !! k = Some price.
Proof.
  assert (forall es, (aggregate db es).2 !! k = first_recipe_price k (contributions db es))
    as Hfirst.
  { intros es. rewrite aggregate_prices, fold_record_price. by rewrite lookup_empty. }
  split; [apply Hfirst|]. intros price more.
  rewrite !Hfirst, contributions_app, first_recipe_price_app. by intros ->.
Qed.

Lemma first_recipe_price_wins_witness :
  let entries := get_meals_in_range Sample.priced "2026-02-23" "2026-02-23" in
  map (fun c => (shopping_key c.2, ing_estimated_price c.2))
      (contributions Sample.priced entries)
  = [(("chicken breast", "lb"), Some 6%float); (("chicken breast", "lb"), Some 7%float)]
  /\ (aggregate Sample.priced entries).2 !! ("chicken breast", "lb") = Some 6%float
  /\ (aggregate Sample.priced (entries ++ entries)).2 !! ("chicken breast", "lb")
     = Some 6%float.
Proof.
  intros entries.
  destruct (first_recipe_price_wins Sample.priced entries ("chicken breast", "lb"))
    as [Hfirst Hkeep].
  assert ((aggregate Sample.priced entries).2 !! ("chicken breast", "lb") = Some 6%float)
    as Hprice by (rewrite Hfirst; vm_compute; reflexivity).
  split; [vm_compute; reflexivity|]. split; [exact Hprice|].
  apply (Hkeep 6%float entries Hprice).
Defined.

(** ** Totals of [required] and the rows behind them *)

Section TotalFacts.
Context {K V : Type} `{EqDecision K}.

Lemma od_lookup_upsert (f : option V -> V) k k' (d : list (K * V)) :
  od_lookup k' (od_upsert f k d)
  = if decide (k' = k) then Some (f (od_lookup k d)) else od_lookup k' d.
Proof.
  induction d as [|[k0 v0] d IH]; simpl.
  - by destruct (decide (k' = k)).
  - destruct (decide (k = k0)) as [->|Hne]; simpl.
    + destruct (decide (k' = k0)) as [->|]; [done|]. done.
    + rewrite IH. destruct (decide (k' = k0)) as [->|].
      * destruct (decide (k0 = k)); [congruence|done].
      * done.
Qed.

Lemma In_od_lookup k v (d : list (K * V)) :
  NoDup (map fst d) -> In (k, v) d -> od_lookup k d = Some v.
Proof.
  induction d as [|[k0 v0] d IH]; simpl; [done|].
  rewrite NoDup_cons, list_elem_of_In. intros [Hk0 Hnd] [[= -> ->]|Hin].
  - by destruct (decide (k = k)).
  - destruct (decide (k = k0)) as [->|]; [|auto].
    destruct Hk0. apply in_map_iff. by exists (k0, v).
Qed.
End TotalFacts.

Lemma fold_required_lookup k cs (r : list (key * float)) :
  od_lookup k (fold_left (fun r c => required_add (shopping_key c.2)
                            (times_int (s_qty c.2) c.1) r) cs r)
  = demand_total k cs (od_lookup k r).
Proof.
  revert r. induction cs as [|c cs IH]; intros r; simpl; [done|].
  rewrite IH. f_equal. unfold required_add. rewrite od_lookup_upsert.
  destruct (decide (k = shopping_key c.2)) as [->|Hne].
  - by destruct (decide (shopping_key c.2 = shopping_key c.2)).
  - by destruct (decide (shopping_key c.2 = k)).
Qed.

(** The value of a key of [required] is its full-precision total. *)
Lemma required_total db entries k needed :
  In (k, needed) (aggregate db entries).1 ->
  demand_total k (contributions db entries) None = Some needed.
Proof.
  intros Hin. apply In_od_lookup in Hin; [|apply required_keys_NoDup].
  by rewrite aggregate_required, fold_required_lookup in Hin.
Qed.

Lemma contributions_origin db entries c :
  In c (contributions db entries) ->
  In c.2 (db_recipe_ingredients db)
  /\ exists e, In e entries /\ c.1 = entry_servings e.
Proof.
  unfold contributions. rewrite in_flat_map.
  intros (e & He & (ing & <- & Hing)%in_map_iff). simpl. split; [|eauto].
  unfold entry_ingredients in Hing. destruct (recipe_ref e); [|done].
  by apply filter_In in Hing as [? _].
Qed.

Lemma get_meals_in_range_origin db start_date end_date e :
  In e (get_meals_in_range db start_date end_date) ->
  exists r, In r (db_meal_plan db) /\ e = entry_of_row r.
Proof.
  unfold get_meals_in_range.
  intros (r & <- & Hr%stable_sort_In%filter_In)%in_map_iff.
  exists r. by destruct Hr.
Qed.

Lemma demand_total_fold k cs acc :
  demand_total k cs acc
  = match map (fun c => to_float (times_int (s_qty c.2) c.1))
              (List.filter (fun c => bool_decide (shopping_key c.2 = k)) cs) with
    | [] => acc
    | qs => Some (fold_left PrimFloat.add qs (default 0%float acc))
    end.
Proof.
  revert acc. induction cs as [|c cs IH]; intros acc; simpl; [done|].
  rewrite IH. destruct (decide (shopping_key c.2 = k)) as [Hk|Hk].
  - rewrite bool_decide_eq_true_2 by done. simpl.
    by destruct (map _ _).
  - by rewrite bool_decide_eq_false_2.
Qed.

(** C4, as stated, fails: a staple that needs buying is listed with its
    known unit price as stored, here 2.495, which [round(x, 2)] would
    turn into 2.5. *)
Lemma every_line_rounded_counterexample :
  ~ every_line_rounded (generate Sample.priced "2026-02-23" "2026-02-23" true).
Proof.
  intros Hall.
  destruct (Hall "Kroger" ("paper towels", Int 0, "", Some 2.495%float)) as [_ Hcost].
  - eexists. split; [vm_compute; left; reflexivity|]. right; by left.
  - specialize (Hcost _ eq_refl). vm_compute in Hcost. discriminate.
Qed.

(** C4, amended. Every tuple of the result is either a recipe-driven
    tuple or the tuple of a staple that needs buying. In a recipe-driven
    tuple the quantity is [round(buy_qty, 2)] and the cost, when there is
    one, [round(unit_price * buy_qty, 2)], for the rounding of Python on
    doubles; the rounding is applied once, when the tuple is built:
    [buy_qty] is the total of the key as accumulated, without any
    rounding, or that total minus the pantry quantity. Both numbers have
    two decimal places: rounding them again gives them back. The tuple of
    a staple has the integer quantity 0 and, in the place of the cost,
    the known unit price as stored, not rounded. *)
Theorem emitted_lines_rounded db start_date end_date use_pantry store l :
  let entries := get_meals_in_range db start_date end_date in
  let ingredient_prices := (aggregate db entries).2 in
  listed (generate db start_date end_date use_pantry) store l ->
  (exists n u needed buy_qty,
      demand_total (n, u) (contributions db entries) None = Some needed
      /\ buy_qty = (if use_pantry
                    then (needed - to_float (default (Int 0) (pantry_qty db !! n)))%float
                    else needed)
      /\ line_qty l = Float (round2 buy_qty)
      /\ line_cost l = (fun p => round2 (p * buy_qty)%float)
                         <$> unit_price_for db ingredient_prices (n, u)
      /\ line_name l = title n /\ line_unit l = u
      /\ number_two_decimals (line_qty l) = true
      /\ (forall cost, line_cost l = Some cost -> two_decimals cost = true))
  \/ (exists row, In row (staple_need_rows db)
        /\ line_name l = row.1.1
        /\ line_qty l = Int 0
        /\ line_unit l = ""
        /\ line_cost l = known_prices db !! normalize row.1.1).
Proof.
  intros entries ingredient_prices
    [([[n u] needed] & Hin & Hline)|(row & Hrow & _ & ->)]%listed_generate.
  - left. apply line_for_inv in Hline as (_ & buy_qty & Hbuy & _ & ->).
    exists n, u, needed, buy_qty.
    split_and!; [by apply required_total| |done..|apply two_decimals_round2|].
    + unfold buy_qty_for in Hbuy. destruct use_pantry; [|congruence].
      destruct (_ <=? _)%float; congruence.
    + unfold line_cost. simpl. intros cost Hcost.
      destruct (unit_price_for _ _ _); [|done].
      injection Hcost as <-. apply two_decimals_round2.
  - right. exists row. by split_and!.
Qed.

Lemma emitted_lines_rounded_witness :
  listed (generate Sample.butter "2026-02-23" "2026-02-23" true) "No Store Assigned"
    ("Butter", Float 1.25, "lb", Some 1.27%float)
  /\ demand_total ("butter", "lb")
       (contributions Sample.butter
          (get_meals_in_range Sample.butter "2026-02-23" "2026-02-23")) None
     = Some 1.25%float
  /\ round2 (1.02 * 1.25) = 1.27%float
  /\ two_decimals 1.27 = true
  /\ exists n u needed buy_qty,
       demand_total (n, u)
         (contributions Sample.butter
            (get_meals_in_range Sample.butter "2026-02-23" "2026-02-23")) None
       = Some needed
       /\ Float 1.25 = Float (round2 buy_qty).
Proof.
  assert (listed (generate Sample.butter "2026-02-23" "2026-02-23" true)
            "No Store Assigned" ("Butter", Float 1.25, "lb", Some 1.27%float)) as Hl.
  { eexists. split; [vm_compute; left; reflexivity|]. by left. }
  split; [exact Hl|]. split; [vm_compute; reflexivity|]. split; [vm_compute; reflexivity|].
  destruct (emitted_lines_rounded Sample.butter "2026-02-23" "2026-02-23" true _ _ Hl)
    as [(n & u & needed & buy_qty & Hd & _ & Hq & _ & _ & _ & _ & Hcost)|(row & [] & _)].
  split; [exact (Hcost _ eq_refl)|].
  exists n, u, needed, buy_qty. by split.
Defined.

(** C6, as stated, fails: an ingredient without a quantity enters the
    demand mapping with a total of 0. *)
Lemma demand_strictly_positive_counterexample :
  ~ demand_strictly_positive Sample.seasoned
      (get_meals_in_range Sample.seasoned "2026-02-23" "2026-02-23").
Proof.
  intros [Hpos _].
  specialize (Hpos ("pepper", "") 0%float).
  assert ((0 <? 0)%float = true) as Habs; [|done].
  apply Hpos. vm_compute. right; right; by left.
Qed.

(** The contribution of a visited row, as a double. *)
Lemma contribution_sign (x : number) n :
  quantity_ok x = true -> 0 <= n < 2 ^ 63 ->
  (0 <=? to_float (times_int x n))%float = true
  /\ ((0 <? to_float (times_int x n))%float = true
      <-> is_positive x = true /\ 1 <= n).
Proof.
  destruct x as [z|q]; simpl; intros Hx Hn.
  - apply Z.leb_le in Hx.
    destruct (float_of_int_sign (z * n)) as [Hnonneg Hpos]; [nia|].
    split; [done|]. rewrite Hpos, Z.ltb_lt. nia.
  - apply andb_true_iff in Hx as [Hq Hfin]. by apply mul_float_of_int_sign.
Qed.

(** C6, amended. Provided no effective ingredient quantity is negative,
    infinite or a NaN and no servings count is negative, the total of
    every key of the aggregated demand is at least 0, and it is strictly
    positive exactly when one of the rows summed under the key has a
    positive quantity and at least one serving: a key whose rows all have
    a quantity that is missing or 0, or no serving, has the total 0.
    Consequently, without pantry offsetting, the unconditional branch
    lists every key that is no staple on hand with its total rounded to
    two places, a quantity that is never negative and that is the zero
    total itself when the total is not positive. *)
Theorem demand_positive_unless_zero db start_date end_date :
  let entries := get_meals_in_range db start_date end_date in
  (forall i, In i (db_recipe_ingredients db) -> quantity_ok (s_qty i) = true) ->
  (forall m, In m (db_meal_plan db) -> 0 <= mp_servings m < 2 ^ 63) ->
  (forall k needed, In (k, needed) (aggregate db entries).1 ->
     (0 <=? needed)%float = true
     /\ ((0 <? needed)%float = true
         <-> exists c, In c (contributions db entries) /\ shopping_key c.2 = k
               /\ is_positive (s_qty c.2) = true /\ 1 <= c.1))
  /\ forall n u needed,
       In ((n, u), needed) (aggregate db entries).1 -> n ∉ staple_names db ->
       exists l,
         listed (generate db start_date end_date false) (store_name_for db n) l
         /\ line_name l = title n /\ line_unit l = u
         /\ line_qty l = Float (round2 needed)
         /\ (0 <=? round2 needed)%float = true
         /\ ((0 <? needed)%float = false -> round2 needed = needed).
Proof.
  intros entries Hqty Hserv.
  assert (forall c, In c (contributions db entries) ->
            quantity_ok (s_qty c.2) = true /\ 0 <= c.1 < 2 ^ 63) as Hok.
  { intros c (Hing & e & (r & Hr & ->)%get_meals_in_range_origin & Hs)%contributions_origin.
    split; [by apply Hqty|]. rewrite Hs. simpl. by apply Hserv. }
  assert (forall k needed, In (k, needed) (aggregate db entries).1 ->
     (0 <=? needed)%float = true
     /\ ((0 <? needed)%float = true
         <-> exists c, In c (contributions db entries) /\ shopping_key c.2 = k
               /\ is_positive (s_qty c.2) = true /\ 1 <= c.1)) as Hsign.
  { intros k needed Hin%required_total. rewrite demand_total_fold in Hin.
    set (cs := List.filter (fun c => bool_decide (shopping_key c.2 = k))
                 (contributions db entries)) in Hin.
    assert (forall x, In x (map (fun c => to_float (times_int (s_qty c.2) c.1)) cs) ->
              (0 <=? x)%float = true) as Hnonneg.
    { intros x (c & <- & [Hc _]%filter_In)%in_map_iff.
      destruct (Hok c Hc) as [? ?]. by apply contribution_sign. }
    remember (map (fun c => to_float (times_int (s_qty c.2) c.1)) cs) as qs eqn:E.
    destruct qs as [|q qs]; [done|]. injection Hin as <-.
    split; [exact (fold_add_nonneg (q :: qs) 0%float Hnonneg eq_refl)|].
    etransitivity; [exact (fold_add_positive_iff (q :: qs) 0%float Hnonneg eq_refl)|].
    split.
    - intros [?|(x & Hx & Hpos)]; [done|]. rewrite E in Hx.
      apply in_map_iff in Hx as (c & <- & [Hc Hk%bool_decide_eq_true]%filter_In).
      destruct (Hok c Hc) as [? ?].
      apply contribution_sign in Hpos as [? ?]; [|done..]. by exists c.
    - intros (c & Hc & Hk & Hpos & Hn). right.
      exists (to_float (times_int (s_qty c.2) c.1)). split.
      + rewrite E. apply in_map_iff. exists c. split; [done|]. apply filter_In.
        split; [done|]. by apply bool_decide_eq_true.
      + destruct (Hok c Hc) as [? ?]. by apply contribution_sign. }
  split; [exact Hsign|].
  intros n u needed Hin Hns. eexists. split.
  - eapply line_for_generate; [exact Hin|].
    unfold line_for. destruct (decide _); [done|]. reflexivity.
  - destruct (Hsign _ _ Hin) as [Hnonneg _].
    split_and!; [done..|by apply round2_nonneg|].
    intros Hzero. apply round2_zero.
    destruct (nonneg_cases needed Hnonneg) as [?|?]; [congruence|done].
Qed.

Lemma demand_positive_unless_zero_witness :
  In (("pepper", ""), 0%float)
     (aggregate Sample.seasoned
        (get_meals_in_range Sample.seasoned "2026-02-23" "2026-02-23")).1
  /\ In (("rice", "cup"), 2%float)
       (aggregate Sample.seasoned
          (get_meals_in_range Sample.seasoned "2026-02-23" "2026-02-23")).1
  /\ (0 <? 2)%float = true
  /\ exists l,
       listed (generate Sample.seasoned "2026-02-23" "2026-02-23" false)
         "No Store Assigned" l
       /\ line_name l = "Pepper" /\ line_qty l = Float 0.
Proof.
  assert (In (("pepper", ""), 0%float)
            (aggregate Sample.seasoned
               (get_meals_in_range Sample.seasoned "2026-02-23" "2026-02-23")).1) as Hin.
  { vm_compute. right; right; by left. }
  assert (In (("rice", "cup"), 2%float)
            (aggregate Sample.seasoned
               (get_meals_in_range Sample.seasoned "2026-02-23" "2026-02-23")).1) as Hrice.
  { vm_compute. by left. }
  destruct (demand_positive_unless_zero Sample.seasoned "2026-02-23" "2026-02-23")
    as [Hsign Hemit].
  - intros i [<-|[<-|[<-|[]]]]; reflexivity.
  - intros m [<-|[]]. simpl. lia.
  - split; [exact Hin|]. split; [exact Hrice|].
    split.
    + apply (Hsign _ _ Hrice).
      exists (2, Sample.ingredient 2 "Rice" (Some 1%float) (Some "cup") None).
      split; [by left|]. split; [reflexivity|]. split; [reflexivity|simpl; lia].
    + destruct (Hemit "pepper" "" 0%float Hin) as (l & Hl & Hname & _ & Hq & _).
      { apply (bool_decide_unpack _). vm_compute. exact I. }
      exists l. by split_and!.
Defined.

(** ** The staple pass *)

Lemma staple_need_rows_spec db row :
  In row (staple_need_rows db) <->
  exists r, In r (db_staples db) /\ staple_need_to_buy r = 1
    /\ row = (staple_name r, staple_category r,
              joined_store_name db (staple_preferred_store_id r)).
Proof.
  unfold staple_need_rows. rewrite in_map_iff. split.
  - intros (r & <- & [Hr E]%filter_In). exists r. split_and!; [done|lia|done].
  - intros (r & Hr & E & ->). exists r. split; [done|].
    apply filter_In. split; [done|]. lia.
Qed.

Lemma build_list_staple_pass db use_pantry required ingredient_prices rows1 row rows2 :
  staple_need_rows db = rows1 ++ row :: rows2 ->
  build_list db use_pantry required ingredient_prices
  = sort_stores
      (fold_left (add_staple db) rows2
         (add_staple db
            (fold_left (add_staple db) rows1
               (recipe_lines db use_pantry required ingredient_prices))
            row)).
Proof. intros E. unfold build_list, recipe_lines. by rewrite E, fold_left_app. Qed.

(** C9, as stated, fails: without recipe demand [generate] returns
    before the staple pass, and a staple that needs buying and matches
    no tuple is not listed. *)
Lemma needed_staples_listed_counterexample :
  ~ needed_staples_listed Sample.notes_only "2026-02-23" "2026-03-01" true.
Proof.
  intros Hall.
  specialize (Hall [] "paper towels" None (Some "Kroger") [] eq_refl).
  apply (listed_nil "Kroger" (staple_line Sample.notes_only "paper towels")).
  apply Hall. intros store l Hl. by apply listed_nil in Hl.
Qed.

(** C9, amended. When the aggregated demand is not empty, so that
    [generate] reaches the staple pass, take a staple flagged as needing
    purchase and the state of the lists when its turn comes ([before]).
    If its normalised name matches the normalised display name of no
    tuple already present in any store's list, the tuple (name verbatim,
    quantity 0, unit empty, known price of the normalised name or none)
    is appended to the bucket named after the preferred store of the
    staple, or to "Staples" when no store is set, and is listed there in
    the result; if its name matches a tuple already present, nothing is
    added. *)
Theorem needed_staple_injected db start_date end_date use_pantry
    rows1 name category st rows2 :
  let entries := get_meals_in_range db start_date end_date in
  let required := (aggregate db entries).1 in
  let before :=
    fold_left (add_staple db) rows1
      (recipe_lines db use_pantry required (aggregate db entries).2) in
  let bucket := or_else st "Staples" in
  let tuple : line := (name, Int 0, "", known_prices db !! normalize name) in
  required <> [] ->
  staple_need_rows db = rows1 ++ (name, category, st) :: rows2 ->
  (exists r, In r (db_staples db) /\ staple_need_to_buy r = 1
     /\ staple_name r = name
     /\ joined_store_name db (staple_preferred_store_id r) = st)
  /\ (forall s, st = Some s -> s <> "" -> bucket = s)
  /\ (st = None -> bucket = "Staples")
  /\ ((forall store l, listed before store l ->
         normalize (line_name l) <> normalize name) ->
      add_staple db before (name, category, st) = store_append bucket tuple before
      /\ listed (generate db start_date end_date use_pantry) bucket tuple)
  /\ ((exists store l, listed before store l
         /\ normalize (line_name l) = normalize name) ->
      add_staple db before (name, category, st) = before).
Proof.
  intros entries required before bucket tuple Hreq Hrows. split_and!.
  - assert (In (name, category, st) (staple_need_rows db)) as Hin.
    { rewrite Hrows. apply in_elt. }
    apply staple_need_rows_spec in Hin as (r & Hr & Hneed & [= -> -> ->]).
    exists r. by split_and!.
  - intros s -> Hs. unfold bucket, or_else. simpl. by destruct s.
  - by intros ->.
  - intros Hfresh.
    assert (already_listed before (normalize name) = false) as Hno.
    { destruct (already_listed before (normalize name)) eqn:E; [|done].
      apply already_listed_spec in E as (s & l & Hl & Hn).
      by destruct (Hfresh s l Hl). }
    assert (add_staple db before (name, category, st) = store_append bucket tuple before)
      as Hstep.
    { unfold add_staple. by rewrite Hno. }
    split; [exact Hstep|].
    rewrite generate_nonempty by exact Hreq.
    rewrite (build_list_staple_pass _ _ _ _ _ _ _ Hrows).
    apply listed_sort_stores, listed_add_staples_mono.
    fold entries required before. rewrite Hstep.
    apply listed_store_append. by right.
  - intros Hdup%already_listed_spec. unfold add_staple. by rewrite Hdup.
Qed.

Lemma needed_staple_injected_witness :
  staple_need_rows Sample.priced = [("paper towels", None, Some "Kroger")]
  /\ recipe_lines Sample.priced true
       (aggregate Sample.priced
          (get_meals_in_range Sample.priced "2026-02-23" "2026-02-23")).1
       (aggregate Sample.priced
          (get_meals_in_range Sample.priced "2026-02-23" "2026-02-23")).2
     = [("Kroger", [("Chicken Breast", Float 3.5, "lb", Some 15.75%float)])]
  /\ listed (generate Sample.priced "2026-02-23" "2026-02-23" true) "Kroger"
       ("paper towels", Int 0, "", Some 2.495%float).
Proof.
  assert (recipe_lines Sample.priced true
            (aggregate Sample.priced
               (get_meals_in_range Sample.priced "2026-02-23" "2026-02-23")).1
            (aggregate Sample.priced
               (get_meals_in_range Sample.priced "2026-02-23" "2026-02-23")).2
          = [("Kroger", [("Chicken Breast", Float 3.5, "lb", Some 15.75%float)])])
    as Hbefore by (vm_compute; reflexivity).
  split; [vm_compute; reflexivity|]. split; [exact Hbefore|].
  destruct (needed_staple_injected Sample.priced "2026-02-23" "2026-02-23" true
              [] "paper towels" None (Some "Kroger") [])
    as (_ & _ & _ & Hfresh & _).
  - vm_compute. discriminate.
  - vm_compute. reflexivity.
  - destruct Hfresh as [_ Hlisted]; [|exact Hlisted].
    intros store l Hl.
    assert (listed [("Kroger", [("Chicken Breast", Float 3.5, "lb",
                                 Some 15.75%float)])] store l) as Hl'
      by (rewrite <- Hbefore; exact Hl).
    destruct Hl' as (items & [[= <- <-]|[]] & [<-|[]]). vm_compute. discriminate.
Defined.

(** C2 fails on the store lookup: the pantry row "Milk " (typed with a
    trailing space) is matched for the quantity on hand, where both
    sides are lower-cased and trimmed, but not for the preferred store,
    where the pantry name is only lower-cased: one unit is subtracted
    and the line goes to "No Store Assigned" instead of "Kroger". *)
Theorem store_lookup_skips_trim :
  pantry_qty Sample.padded !! "milk" = Some (Float 1)
  /\ joined_store_name Sample.padded (Some 1) = Some "Kroger"
  /\ store_row_for Sample.padded "milk" = None
  /\ generate Sample.padded "2026-02-23" "2026-02-23" true
     = [("No Store Assigned", [("Milk", Float 2, "", None)])].
Proof. vm_compute. by split_and!. Qed.

(** ** Saving and loading the cache *)

Lemma json_value_py_line l : Py.json_value (py_line l) = json_line l.
Proof. destruct l as [[[name [z|f]] unit] [cost|]]; reflexivity. Qed.

Lemma json_value_py_source t : Py.json_value (py_source t) = json_source t.
Proof.
  unfold py_source, json_source. simpl. f_equal.
  rewrite map_map. apply map_ext. by intros [[]|].
Qed.

Lemma json_value_shopping result :
  Py.json_value (py_shopping_data result) = VDict (map json_shopping_entry result).
Proof.
  unfold py_shopping_data. simpl. f_equal. rewrite map_map. apply map_ext.
  intros [s items]. unfold json_shopping_entry. simpl. do 2 f_equal.
  rewrite map_map. apply map_ext, json_value_py_line.
Qed.

Lemma json_value_sources trace :
  Py.json_value (py_sources trace) = VDict (map json_source_entry trace).
Proof.
  unfold py_sources. simpl. f_equal. rewrite map_map. apply map_ext.
  intros [s items]. unfold json_source_entry. simpl. do 2 f_equal.
  rewrite map_map. apply map_ext, json_value_py_source.
Qed.

Lemma mapM_cons {A B} (f : A -> outcome B) x l :
  mapM f (x :: l) = y ← f x; k ← mapM f l; mret (y :: k).
Proof. done. Qed.

Lemma mapM_tuple_json_lines items :
  mapM Py.tuple (map json_line items) = Return (map py_line items).
Proof.
  induction items as [|[[[name qty] unit] cost] items IH]; [done|].
  rewrite !map_cons, mapM_cons, IH. done.
Qed.

Lemma tuples_of_json_lines items :
  Py.tuples_of (VList (map json_line items)) = Return (map py_line items).
Proof. unfold Py.tuples_of. simpl. apply mapM_tuple_json_lines. Qed.

Lemma mapM_tuple_json_sources l :
  mapM Py.tuple (map json_source l) = Return (map py_source l).
Proof.
  induction l as [|t l IH]; [done|].
  rewrite !map_cons, mapM_cons, IH. done.
Qed.

Lemma tuples_of_json_sources l :
  Py.tuples_of (VList (map json_source l)) = Return (map py_source l).
Proof. unfold Py.tuples_of. simpl. apply mapM_tuple_json_sources. Qed.

Section DictMid.
Context {K V : Type} `{EqDecision K}.

Lemma od_lookup_mid k v (pre post : list (K * V)) :
  ~ In k (map fst pre) -> od_lookup k (pre ++ (k, v) :: post) = Some v.
Proof.
  induction pre as [|[k0 v0] pre IH]; simpl.
  - intros _. by destruct (decide (k = k)).
  - intros Hn. destruct (decide (k = k0)) as [->|]; [tauto|]. apply IH. tauto.
Qed.

Lemma od_upsert_mid (f : option V -> V) k v (pre post : list (K * V)) :
  ~ In k (map fst pre) ->
  od_upsert f k (pre ++ (k, v) :: post) = pre ++ (k, f (Some v)) :: post.
Proof.
  induction pre as [|[k0 v0] pre IH]; simpl.
  - intros _. by destruct (decide (k = k)).
  - intros Hn. destruct (decide (k = k0)) as [->|]; [tauto|]. rewrite IH; tauto.
Qed.

Lemma od_upsert_fresh (f : option V -> V) k (d : list (K * V)) :
  ~ In k (map fst d) -> od_upsert f k d = d ++ [(k, f None)].
Proof.
  induction d as [|[k0 v0] d IH]; simpl; [done|].
  intros Hn. destruct (decide (k = k0)) as [->|]; [tauto|]. rewrite IH; tauto.
Qed.
End DictMid.

Lemma retuple_store_step pre s items post sources sd ed up :
  ~ In s (map fst pre) ->
  retuple_store
    (loaded (VDict (pre ++ json_shopping_entry (s, items) :: post)) sources sd ed up)
    (VStr s)
  = Return (loaded (VDict (pre ++ py_shopping_entry (s, items) :: post)) sources sd ed up).
Proof.
  intros Hs. unfold retuple_store, loaded. simpl.
  unfold json_shopping_entry. simpl.
  rewrite od_lookup_mid by done. simpl.
  rewrite tuples_of_json_lines. simpl.
  by rewrite od_upsert_mid.
Qed.

Lemma map_fst_py_shopping l : map fst (map py_shopping_entry l) = map fst l.
Proof. rewrite map_map. by apply map_ext. Qed.

Lemma map_fst_py_source l : map fst (map py_source_entry l) = map fst l.
Proof. rewrite map_map. by apply map_ext. Qed.

Lemma NoDup_app_mid_notin {A} (pre : list A) x post :
  NoDup (pre ++ x :: post) -> ~ In x pre.
Proof.
  intros (_ & Hnd & _)%NoDup_app Hin.
  apply (Hnd x); [by apply list_elem_of_In|]. apply elem_of_cons. by left.
Qed.

Lemma retuple_all pre post sources sd ed up :
  NoDup (map fst (pre ++ post)) ->
  Py.for_each retuple_store
    (map (fun kv : string * pyval => VStr kv.1) (map json_shopping_entry post))
    (loaded (VDict (map py_shopping_entry pre ++ map json_shopping_entry post))
            sources sd ed up)
  = Return (loaded (VDict (map py_shopping_entry (pre ++ post))) sources sd ed up).
Proof.
  revert pre. induction post as [|[s items] post IH]; intros pre Hnd; simpl.
  - by rewrite !app_nil_r.
  - assert (pre ++ (s, items) :: post = (pre ++ [(s, items)]) ++ post) as Hassoc
      by (by rewrite <- app_assoc).
    rewrite retuple_store_step.
    + simpl. rewrite Hassoc in Hnd |- *. rewrite <- (IH _ Hnd).
      by rewrite map_app, <- app_assoc.
    + rewrite map_fst_py_shopping. rewrite map_app in Hnd. simpl in Hnd.
      by apply NoDup_app_mid_notin in Hnd.
Qed.

Lemma keep_source_step valid k l :
  ~ In k (map fst valid) ->
  keep_source valid (json_source_entry (k, l))
  = Return (if first_source_has_arity_6 (k, l)
            then valid ++ [py_source_entry (k, l)] else valid).
Proof.
  intros Hk. unfold keep_source, json_source_entry. simpl.
  rewrite tuples_of_json_sources. simpl.
  destruct l as [|t l]; simpl; [done|].
  unfold first_source_has_arity_6. simpl. rewrite length_map.
  destruct (Nat.eqb (length t) 6); [|done].
  by rewrite od_upsert_fresh.
Qed.

Lemma keep_sources_all pre post :
  NoDup (map fst (pre ++ post)) ->
  Py.for_each keep_source (map json_source_entry post)
    (map py_source_entry (List.filter first_source_has_arity_6 pre))
  = Return (map py_source_entry (List.filter first_source_has_arity_6 (pre ++ post))).
Proof.
  revert pre. induction post as [|[k l] post IH]; intros pre Hnd; simpl.
  - by rewrite app_nil_r.
  - assert (pre ++ (k, l) :: post = (pre ++ [(k, l)]) ++ post) as Hassoc
      by (by rewrite <- app_assoc).
    rewrite keep_source_step.
    + simpl. rewrite Hassoc in Hnd |- *. rewrite <- (IH _ Hnd).
      f_equal. rewrite List.filter_app. simpl.
      destruct (first_source_has_arity_6 (k, l)).
      * by rewrite map_app.
      * by rewrite app_nil_r.
    + rewrite map_fst_py_source. rewrite map_app in Hnd. simpl in Hnd.
      apply NoDup_app_mid_notin in Hnd. intros Hin. apply Hnd.
      apply in_map_iff in Hin as ([k' l'] & <- & Hin%filter_In).
      apply in_map_iff. exists (k', l'). by destruct Hin.
Qed.

Lemma bind_Return {A B} (a : A) (f : A -> outcome B) : (Return a ≫= f) = f a.
Proof. done. Qed.

Lemma get_loaded_shopping shopping sources sd ed up dflt :
  Py.get (loaded shopping sources sd ed up) "shopping_data" dflt = Return shopping.
Proof. done. Qed.

Lemma get_loaded_sources shopping sources sd ed up dflt :
  Py.get (loaded shopping sources sd ed up) "ingredient_sources" dflt = Return sources.
Proof. done. Qed.

Lemma setitem_loaded_sources shopping sources sd ed up v :
  Py.setitem (loaded shopping sources sd ed up) (VStr "ingredient_sources") v
  = Return (loaded shopping v sd ed up).
Proof. done. Qed.

Lemma load_body_saved result trace sd ed up :
  NoDup (map fst result) -> NoDup (map fst trace) ->
  load_body (JsonText (cached_bundle result trace sd ed up))
  = Return (cached_bundle result (List.filter first_source_has_arity_6 trace) sd ed up).
Proof.
  intros Hres Htrace. unfold load_body.
  assert (Py.json_loads (JsonText (cached_bundle result trace sd ed up))
          = Return (loaded (VDict (map json_shopping_entry result))
                           (VDict (map json_source_entry trace)) sd ed up)) as ->.
  { unfold Py.json_loads, cached_bundle, loaded.
    cbn [Py.json_value map]. by rewrite json_value_shopping, json_value_sources. }
  rewrite bind_Return, get_loaded_shopping, bind_Return.
  cbn [Py.iter]. rewrite bind_Return.
  pose proof (retuple_all [] result (VDict (map json_source_entry trace)) sd ed up Hres)
    as Hloop1.
  pose proof (keep_sources_all [] trace Htrace) as Hloop2.
  cbn [map List.filter app] in Hloop1, Hloop2.
  rewrite Hloop1, bind_Return.
  rewrite get_loaded_sources, bind_Return. cbn [Py.items]. rewrite bind_Return.
  rewrite Hloop2, bind_Return.
  by rewrite setitem_loaded_sources.
Qed.

Lemma od_lookup_upsert_same {K V} `{EqDecision K} (v : V) k (d : list (K * V)) :
  od_lookup k (od_upsert (fun _ => v) k d) = Some v.
Proof. rewrite od_lookup_upsert. by destruct (decide (k = k)). Qed.

(** C7, as stated, fails: a key whose first source has 6 elements
    keeps all its sources, the one of 5 elements too. *)
Lemma roundtrip_as_claimed_counterexample :
  ~ roundtrip_as_claimed Sample.priced []
      [("flour", [Sample.source6; Sample.source5])] "2026-02-23" "2026-03-01" true.
Proof. unfold roundtrip_as_claimed. vm_compute. congruence. Qed.

(** C7, amended. For every result, trace, date range and pantry flag,
    [save_cached_list] followed by [load_cached_list] gives back an
    equal bundle: the same per-store shopping data with its tuples
    restored, the same start date, end date and pantry flag; of the
    trace, a key keeps its whole list of sources when the list is not
    empty and its first source has 6 elements, and is dropped with all
    its sources otherwise. *)
Theorem cache_roundtrip db result trace start_date end_date use_pantry :
  NoDup (map fst result) -> NoDup (map fst trace) ->
  load_cached_list
    (save_cached_list db (py_shopping_data result) (py_sources trace)
                      start_date end_date use_pantry)
  = Return (Some (cached_bundle result (List.filter first_source_has_arity_6 trace)
                                start_date end_date use_pantry)).
Proof.
  intros Hres Htrace. unfold load_cached_list, save_cached_list, get_setting.
  cbn [db_settings set_setting]. rewrite od_lookup_upsert_same.
  fold (cached_bundle result trace start_date end_date use_pantry).
  by rewrite load_body_saved.
Qed.

Lemma cache_roundtrip_witness :
  let result := generate Sample.priced "2026-02-23" "2026-02-23" true in
  let trace := [("chicken breast", [Sample.source6]);
                ("rice", [Sample.source5; Sample.source6]);
                ("salt", [])] in
  load_cached_list
    (save_cached_list Sample.priced (py_shopping_data result) (py_sources trace)
                      "2026-02-23" "2026-02-23" true)
  = Return (Some (cached_bundle result [("chicken breast", [Sample.source6])]
                                "2026-02-23" "2026-02-23" true)).
Proof.
  intros result trace.
  apply (cache_roundtrip Sample.priced result trace "2026-02-23" "2026-02-23" true).
  - apply (bool_decide_unpack _). vm_compute. exact I.
  - apply (bool_decide_unpack _). vm_compute. exact I.
Defined.

(** * Further properties of the code *)

(** ** Grouping into a [defaultdict(list)] *)

Section GroupFacts.
Context {K V : Type} `{EqDecision K}.
Implicit Types (kvs : list (K * V)) (acc : list (K * list V)).

Lemma group_lookup k kvs acc :
  od_lookup k (fold_left group_step kvs acc)
  = match od_lookup k acc,
          map snd (List.filter (fun kv => bool_decide (kv.1 = k)) kvs) with
    | None, [] => None
    | o, vs => Some (default [] o ++ vs)
    end.
Proof.
  revert acc. induction kvs as [|[k' v] kvs IH]; intros acc; simpl.
  - destruct (od_lookup k acc); simpl; [by rewrite app_nil_r|done].
  - rewrite IH. unfold group_step. simpl. rewrite od_lookup_upsert.
    destruct (decide (k = k')) as [->|Hne].
    + rewrite bool_decide_eq_true_2 by done. simpl.
      rewrite <- app_assoc. simpl.
      by destruct (od_lookup k' acc), (map snd _).
    + rewrite bool_decide_eq_false_2 by congruence. done.
Qed.

Lemma group_keys k kvs acc :
  In k (map fst (fold_left group_step kvs acc))
  <-> In k (map fst acc) \/ In k (map fst kvs).
Proof.
  revert acc. induction kvs as [|[k' v] kvs IH]; intros acc; simpl; [tauto|].
  rewrite IH. unfold group_step. rewrite od_upsert_keys. simpl.
  intuition congruence.
Qed.

Lemma group_NoDup kvs acc :
  NoDup (map fst acc) -> NoDup (map fst (fold_left group_step kvs acc)).
Proof.
  revert acc. induction kvs as [|kv kvs IH]; intros acc Hnd; simpl; [done|].
  apply IH. by apply od_upsert_NoDup.
Qed.

Lemma group_nonempty kvs acc k l :
  (forall k l, In (k, l) acc -> l <> []) ->
  In (k, l) (fold_left group_step kvs acc) -> l <> [].
Proof.
  revert acc. induction kvs as [|kv kvs IH]; intros acc Hacc; simpl; [apply Hacc|].
  apply IH. intros k' l' Hin. unfold group_step in Hin.
  apply od_upsert_In_inv in Hin as [?|[_ [->|(l0 & _ & ->)]]]; [by eapply Hacc|..].
  - done.
  - by destruct l0.
Qed.
End GroupFacts.

(** ** The trace of [get_ingredient_sources] *)

Section SourcesFacts.
Variable recipes : list recipe_row.
Variable db : database.
Implicit Types (entries : list MealPlanEntry).

Lemma visits_spec entries e rid ing :
  In (e, rid, ing) (visits db entries)
  <-> In e entries /\ recipe_ref e = Some rid
      /\ In ing (db_recipe_ingredients db) /\ ing_recipe_id ing = rid.
Proof.
  unfold visits. rewrite in_flat_map. split.
  - intros (e' & He' & Hin). destruct (recipe_ref e') as [rid'|] eqn:E; [|done].
    apply in_map_iff in Hin as (ing' & [= <- <- <-] & [Hing Hrid%Z.eqb_eq]%filter_In).
    done.
  - intros (He & Href & Hing & Hrid). exists e. split; [done|]. rewrite Href.
    apply in_map_iff. exists ing. split; [done|].
    apply filter_In. split; [done|]. by apply Z.eqb_eq.
Qed.

Lemma contributions_visits entries :
  contributions db entries
  = map (fun v => (entry_servings v.1.1, v.2)) (visits db entries).
Proof.
  unfold contributions, visits.
  induction entries as [|e entries IH]; simpl; [done|].
  rewrite map_app, IH. f_equal. unfold entry_ingredients.
  destruct (recipe_ref e); [|done]. by rewrite map_map.
Qed.

Lemma fold_add_entry_sources entries (acc : list (string * list source)) :
  fold_left (add_entry_sources recipes db) entries acc
  = fold_left group_step
      (map (fun v => (s_name v.2, source_of recipes v.1.1 v.1.2 v.2)) (visits db entries))
      acc.
Proof.
  revert acc. induction entries as [|e entries IH]; intros acc; simpl; [done|].
  rewrite map_app, fold_left_app, <- IH. f_equal.
  unfold add_entry_sources. destruct (recipe_ref e) as [rid|]; [|done].
  generalize (ingredients_of db rid). intros ings. revert acc.
  induction ings as [|ing ings IHi]; intros acc; simpl; [done|]. by rewrite IHi.
Qed.

Lemma get_ingredient_sources_fold start_date end_date :
  get_ingredient_sources recipes db start_date end_date
  = fold_left group_step
      (map (fun v => (s_name v.2, source_of recipes v.1.1 v.1.2 v.2))
           (visits db (get_meals_in_range db start_date end_date)))
      [].
Proof.
  unfold get_ingredient_sources.
  destruct (get_meals_in_range db start_date end_date) as [|e es] eqn:E; [done|].
  apply fold_add_entry_sources.
Qed.

Lemma filter_map_comm {A B} (f : A -> B) (p : B -> bool) (l : list A) :
  List.filter p (map f l) = map f (List.filter (fun x => p (f x)) l).
Proof.
  induction l as [|x l IH]; simpl; [done|]. rewrite IH. by destruct (p (f x)).
Qed.

Lemma bool_decide_string_eqb (a b : string) : bool_decide (a = b) = String.eqb a b.
Proof.
  destruct (String.eqb_spec a b) as [->|Hne].
  - by apply bool_decide_eq_true_2.
  - by apply bool_decide_eq_false_2.
Qed.

Lemma get_ingredient_sources_NoDup start_date end_date :
  NoDup (map fst (get_ingredient_sources recipes db start_date end_date)).
Proof. rewrite get_ingredient_sources_fold. apply group_NoDup. constructor. Qed.

Lemma get_ingredient_sources_nonempty start_date end_date n l :
  In (n, l) (get_ingredient_sources recipes db start_date end_date) -> l <> [].
Proof.
  rewrite get_ingredient_sources_fold. apply group_nonempty. by intros ? ? [].
Qed.

Lemma get_ingredient_sources_lookup start_date end_date n :
  od_lookup n (get_ingredient_sources recipes db start_date end_date)
  = match sources_named recipes n
            (visits db (get_meals_in_range db start_date end_date)) with
    | [] => None
    | l => Some l
    end.
Proof.
  rewrite get_ingredient_sources_fold, group_lookup. simpl.
  unfold sources_named.
  rewrite filter_map_comm, map_map. simpl.
  erewrite (List.filter_ext _ (fun v => String.eqb (s_name v.2) n));
    [|intros v; apply bool_decide_string_eqb].
  done.
Qed.

End SourcesFacts.

(** X1. The trace maps a name to the sources of exactly the ingredient
    rows visited under that normalised name, one 6-tuple per row, in
    visiting order (entries of the range in date and slot order, then
    the rows of the recipe); a name no visited row has is absent. A
    visited row is an ingredient row of the recipe of a recipe-backed
    entry of the range. *)
Theorem sources_by_name recipes db start_date end_date n :
  let entries := get_meals_in_range db start_date end_date in
  od_lookup n (get_ingredient_sources recipes db start_date end_date)
  = match sources_named recipes n (visits db entries) with
    | [] => None
    | l => Some l
    end
  /\ forall e rid ing,
       In (e, rid, ing) (visits db entries)
       <-> In e entries /\ recipe_ref e = Some rid
           /\ In ing (db_recipe_ingredients db) /\ ing_recipe_id ing = rid.
Proof.
  intros entries. split; [|intros; apply visits_spec].
  apply get_ingredient_sources_lookup.
Qed.

Lemma sources_by_name_witness :
  od_lookup "chicken breast"
    (get_ingredient_sources More.recipes Sample.priced "2026-02-23" "2026-02-23")
  = Some [(1, "Chicken dinner", "2026-02-23", "Dinner", Float 2, "lb");
          (1, "Chicken dinner", "2026-02-23", "Dinner", Float 2, "lb")]
  /\ od_lookup "rice"
       (get_ingredient_sources More.recipes Sample.priced "2026-02-23" "2026-02-23")
     = None.
Proof.
  split.
  - destruct (sources_by_name More.recipes Sample.priced "2026-02-23" "2026-02-23"
                "chicken breast") as [-> _].
    vm_compute. reflexivity.
  - destruct (sources_by_name More.recipes Sample.priced "2026-02-23" "2026-02-23"
                "rice") as [-> _].
    vm_compute. reflexivity.
Defined.

(** ** The trace and the demand of [generate] *)

Lemma required_keys_contributions db entries k :
  In k (map fst (aggregate db entries).1)
  <-> In k (map (fun c => shopping_key c.2) (contributions db entries)).
Proof.
  rewrite aggregate_required.
  assert (forall cs (r : list (key * float)),
    In k (map fst (fold_left (fun r c => required_add (shopping_key c.2)
                                (times_int (s_qty c.2) c.1) r) cs r))
    <-> In k (map fst r) \/ In k (map (fun c => shopping_key c.2) cs)) as Hgen.
  { induction cs as [|c cs IH]; intros r; simpl; [tauto|].
    rewrite IH. unfold required_add. rewrite od_upsert_keys. intuition congruence. }
  rewrite Hgen. simpl. tauto.
Qed.

(** X2. The trace and the demand of [generate] name the same
    ingredients: a name is a key of the trace exactly when some (name,
    unit) key is in the aggregated demand. *)
Theorem sources_cover_demand recipes db start_date end_date n :
  In n (map fst (get_ingredient_sources recipes db start_date end_date))
  <-> exists u needed,
        In ((n, u), needed)
           (aggregate db (get_meals_in_range db start_date end_date)).1.
Proof.
  rewrite get_ingredient_sources_fold, group_keys, map_map. simpl.
  set (entries := get_meals_in_range db start_date end_date).
  split.
  - intros [[]|(v & <- & Hv)%in_map_iff].
    assert (In (shopping_key v.2) (map fst (aggregate db entries).1)) as Hk.
    { apply required_keys_contributions. rewrite contributions_visits, map_map.
      apply in_map_iff. by exists v. }
    apply in_map_iff in Hk as ([[n' u'] needed] & Hkey & Hin).
    simpl in Hkey. injection Hkey as -> ->. eauto.
  - intros (u & needed & Hin). right.
    assert (In (n, u) (map fst (aggregate db entries).1)) as Hk
      by (apply in_map_iff; by exists ((n, u), needed)).
    apply required_keys_contributions in Hk.
    rewrite contributions_visits, map_map in Hk.
    apply in_map_iff in Hk as (v & [= <- _] & Hv).
    apply in_map_iff. by exists v.
Qed.

Lemma sources_cover_demand_witness :
  In "chicken breast"
     (map fst (get_ingredient_sources More.recipes Sample.priced
                 "2026-02-23" "2026-02-23"))
  /\ In (("chicken breast", "lb"), 4%float)
        (aggregate Sample.priced
           (get_meals_in_range Sample.priced "2026-02-23" "2026-02-23")).1.
Proof.
  assert (In (("chicken breast", "lb"), 4%float)
            (aggregate Sample.priced
               (get_meals_in_range Sample.priced "2026-02-23" "2026-02-23")).1) as Hin
    by (vm_compute; by left).
  split; [|exact Hin].
  apply (sources_cover_demand More.recipes Sample.priced "2026-02-23" "2026-02-23").
  eauto.
Defined.

(** X3. The total [generate] needs of a (name, unit) key is the sum, in
    trace order, of the quantities of the sources recorded under that
    name with that unit, added one after the other to 0.0 in double
    precision: the trace accounts for the whole demand. *)
Theorem sources_account_for_demand recipes db start_date end_date n u needed :
  In ((n, u), needed) (aggregate db (get_meals_in_range db start_date end_date)).1 ->
  exists l,
    od_lookup n (get_ingredient_sources recipes db start_date end_date) = Some l
    /\ needed = sources_total u l.
Proof.
  set (entries := get_meals_in_range db start_date end_date).
  intros Hin%required_total.
  rewrite demand_total_fold, contributions_visits in Hin.
  rewrite filter_map_comm, map_map in Hin. simpl in Hin.
  exists (sources_named recipes n (visits db entries)).
  assert (map (fun v => to_float (times_int (s_qty v.2) (entry_servings v.1.1)))
              (List.filter (fun v => bool_decide (shopping_key v.2 = (n, u)))
                           (visits db entries))
          = map (fun t => to_float (source_qty t))
              (List.filter (fun t => String.eqb (source_unit t) u)
                           (sources_named recipes n (visits db entries)))) as Hqs.
  { unfold sources_named. rewrite filter_map_comm, map_map. simpl.
    generalize (visits db entries). intros vs.
    induction vs as [|v vs IH]; simpl; [done|].
    unfold shopping_key at 1.
    destruct (String.eqb_spec (s_name v.2) n) as [Hn|Hn]; simpl.
    - destruct (String.eqb_spec (s_unit v.2) u) as [Hu|Hu]; simpl.
      + rewrite bool_decide_eq_true_2 by congruence. simpl. by rewrite IH.
      + rewrite bool_decide_eq_false_2 by congruence. done.
    - rewrite bool_decide_eq_false_2 by congruence. done. }
  rewrite Hqs in Hin. unfold sources_total.
  destruct (map (fun t => to_float (source_qty t)) _) as [|q qs] eqn:E; [done|].
  injection Hin as <-. split; [|done].
  rewrite get_ingredient_sources_lookup. fold entries.
  destruct (sources_named recipes n (visits db entries)); [done|done].
Qed.

Lemma sources_account_for_demand_witness :
  exists l,
    od_lookup "chicken breast"
      (get_ingredient_sources More.recipes Sample.priced "2026-02-23" "2026-02-23")
    = Some l
    /\ 4%float = sources_total "lb" l.
Proof.
  apply (sources_account_for_demand More.recipes Sample.priced
           "2026-02-23" "2026-02-23" "chicken breast" "lb" 4%float).
  vm_compute. by left.
Defined.

(** ** Sorting with a total preorder *)

Section SortedFacts.
Context {A : Type} (le : A -> A -> bool).
Hypothesis le_total : forall a b, le a b = true \/ le b a = true.
Hypothesis le_trans : forall a b c, le a b = true -> le b c = true -> le a c = true.

Let R (a b : A) : Prop := le a b = true.

Lemma insert_sorted_sorted x l :
  StronglySorted R l -> StronglySorted R (insert_sorted le x l).
Proof.
  induction l as [|y l IH]; simpl; intros Hl.
  - repeat constructor.
  - apply StronglySorted_inv in Hl as [Hl Hy].
    destruct (le x y) eqn:E.
    + constructor; [by constructor|].
      constructor; [done|]. eapply Forall_impl; [exact Hy|].
      intros z Hz. by eapply le_trans.
    + constructor; [by apply IH|].
      eapply Permutation_Forall; [symmetry; apply insert_sorted_perm|].
      constructor; [|done]. destruct (le_total x y); [congruence|done].
Qed.

Lemma stable_sort_sorted l : StronglySorted R (stable_sort le l).
Proof.
  induction l as [|x l IH]; simpl; [constructor|]. by apply insert_sorted_sorted.
Qed.

Lemma insert_sorted_least x l :
  Forall (R x) l -> insert_sorted le x l = x :: l.
Proof. destruct l as [|y l]; simpl; [done|]. by intros [-> _]%Forall_cons. Qed.

Lemma Forall_filter_keep (P : A -> Prop) (p : A -> bool) l :
  Forall P l -> Forall P (List.filter p l).
Proof.
  rewrite !Forall_forall. intros Hall z [Hz _]%list_elem_of_In%filter_In.
  by apply Hall, list_elem_of_In.
Qed.

Lemma insert_sorted_filter (p : A -> bool) x l :
  StronglySorted R l ->
  List.filter p (insert_sorted le x l)
  = if p x then insert_sorted le x (List.filter p l) else List.filter p l.
Proof.
  induction l as [|y l IH]; simpl; intros Hl; [by destruct (p x)|].
  apply StronglySorted_inv in Hl as [Hl Hy].
  destruct (le x y) eqn:E; simpl.
  - destruct (p x) eqn:Ex; [|done].
    rewrite insert_sorted_least; [done|].
    assert (Forall (R x) (y :: l)) as Hall.
    { constructor; [done|]. eapply Forall_impl; [exact Hy|].
      intros z Hz. by eapply le_trans. }
    exact (Forall_filter_keep _ p (y :: l) Hall).
  - rewrite IH by done. destruct (p y) eqn:Ey; simpl.
    + destruct (p x); [|done]. simpl. by rewrite E.
    + done.
Qed.

Lemma stable_sort_filter (p : A -> bool) l :
  List.filter p (stable_sort le l) = stable_sort le (List.filter p l).
Proof.
  induction l as [|x l IH]; simpl; [done|].
  rewrite insert_sorted_filter by apply stable_sort_sorted.
  rewrite IH. by destruct (p x).
Qed.
End SortedFacts.

Lemma String_leb_trans a b c :
  String.leb a b = true -> String.leb b c = true -> String.leb a c = true.
Proof.
  intros Hab%Is_true_true Hbc%Is_true_true. apply Is_true_true.
  change (String.le a c). by etrans.
Qed.

Lemma String_leb_refl a : String.leb a a = true.
Proof. apply Is_true_true. change (String.le a a). done. Qed.

Lemma line_le_total (a b : line) : line_le a b = true \/ line_le b a = true.
Proof. apply String.leb_total. Qed.

Lemma line_le_trans (a b c : line) :
  line_le a b = true -> line_le b c = true -> line_le a c = true.
Proof. apply String_leb_trans. Qed.

(** ** Invariants of the lists [generate] builds *)

Section WellGrouped.
Implicit Types (si : list (string * list line)).

Lemma well_grouped_nil : well_grouped [].
Proof. split; [constructor|by intros ? ? []]. Qed.

Lemma well_grouped_store_append s l si :
  well_grouped si -> well_grouped (store_append s l si).
Proof.
  intros [Hnd Hne]. split; [by apply od_upsert_NoDup|].
  intros s' items Hin. unfold store_append in Hin.
  apply od_upsert_In_inv in Hin as [?|[_ [->|(l0 & _ & ->)]]]; [by eapply Hne|done|].
  by destruct l0.
Qed.

Lemma sort_stores_keys si : map fst (sort_stores si) = map fst si.
Proof. unfold sort_stores. rewrite map_map. by apply map_ext. Qed.

Lemma sort_stores_In s items si :
  In (s, items) (sort_stores si)
  <-> exists items0, In (s, items0) si /\ items = stable_sort line_le items0.
Proof.
  unfold sort_stores. rewrite in_map_iff. split.
  - intros ([s0 items0] & [= <- <-] & Hin). eauto.
  - intros (items0 & Hin & ->). by exists (s, items0).
Qed.

Lemma well_grouped_sort_stores si : well_grouped si -> well_grouped (sort_stores si).
Proof.
  intros [Hnd Hne]. split; [by rewrite sort_stores_keys|].
  intros s items (items0 & Hin & ->)%sort_stores_In Hnil.
  apply (Hne s items0 Hin). apply Permutation_nil. rewrite <- Hnil.
  apply stable_sort_perm.
Qed.

Lemma well_grouped_add_lines db up ip required si :
  well_grouped si -> well_grouped (fold_left (add_line db up ip) required si).
Proof.
  revert si. induction required as [|item required IH]; intros si Hsi; simpl; [done|].
  apply IH. unfold add_line. destruct (line_for db up ip item) as [[s l]|]; [|done].
  by apply well_grouped_store_append.
Qed.

Lemma well_grouped_add_staples db rows si :
  well_grouped si -> well_grouped (fold_left (add_staple db) rows si).
Proof.
  revert si. induction rows as [|[[name cat] st] rows IH]; intros si Hsi; simpl; [done|].
  apply IH. destruct (already_listed si (normalize name)); [done|].
  by apply well_grouped_store_append.
Qed.

Lemma well_grouped_generate db start_date end_date use_pantry :
  well_grouped (generate db start_date end_date use_pantry).
Proof.
  rewrite generate_eq. destruct (aggregate _ _).1; [apply well_grouped_nil|].
  unfold build_list.
  apply well_grouped_sort_stores, well_grouped_add_staples,
    well_grouped_sort_stores, well_grouped_add_lines, well_grouped_nil.
Qed.

Lemma or_else_cases a b : or_else a b = b \/ (a = Some (or_else a b) /\ or_else a b <> "").
Proof. destruct a as [[|c s]|]; simpl; [by left|right|by left]. done. Qed.

Lemma joined_store_name_In db sid s :
  joined_store_name db sid = Some s ->
  exists r, In r (db_stores db) /\ store_name r = s.
Proof.
  destruct sid as [i|]; simpl; [|done].
  destruct (List.find _ _) as [r|] eqn:E; simpl; [|done].
  intros [= <-]. apply find_some in E as [Hr _]. eauto.
Qed.

Lemma store_name_for_cases db n :
  store_name_for db n = "No Store Assigned"
  \/ exists r, In r (db_stores db) /\ store_name r = store_name_for db n.
Proof.
  unfold store_name_for, store_row_for.
  destruct (List.find _ (db_pantry db)) as [p|]; simpl; [|by left].
  destruct (or_else_cases (joined_store_name db (pantry_preferred_store_id p))
              "No Store Assigned") as [->|[E _]]; [by left|].
  right. by apply joined_store_name_In in E.
Qed.

Lemma store_name_for_nonempty db n : store_name_for db n <> "".
Proof.
  unfold store_name_for. destruct (store_row_for db n) as [sn|]; [|done].
  destruct (or_else_cases sn "No Store Assigned") as [->|[_ ?]]; done.
Qed.

End WellGrouped.

(** X4. The mapping [generate] returns has no empty bucket, and every
    bucket is named after a store of the stores table or is one of the two
    sentinels "No Store Assigned" and "Staples"; it is never named with the
    empty string. *)
Theorem generate_buckets db start_date end_date use_pantry store items :
  In (store, items) (generate db start_date end_date use_pantry) ->
  items <> []
  /\ store <> ""
  /\ (store = "No Store Assigned" \/ store = "Staples"
      \/ exists r, In r (db_stores db) /\ store_name r = store).
Proof.
  intros Hin.
  destruct (well_grouped_generate db start_date end_date use_pantry) as [_ Hne].
  pose proof (Hne _ _ Hin) as Hitems. split; [done|].
  destruct items as [|l items]; [done|].
  assert (listed (generate db start_date end_date use_pantry) store l) as Hl
    by (exists (l :: items); split; [done|by left]).
  apply listed_generate in Hl as [([[n u] needed] & _ & Hline)|(row & Hrow & -> & _)].
  - apply line_for_inv in Hline as (_ & _ & _ & -> & _).
    split; [apply store_name_for_nonempty|].
    destruct (store_name_for_cases db n) as [E|(r & Hr & E)];
      [by left|right; right; eauto].
  - destruct (or_else_cases row.2 "Staples") as [E|[E Hne']].
    + rewrite E. split; [done|right; by left].
    + split; [done|]. right; right.
      apply staple_need_rows_spec in Hrow as (r & _ & _ & ->). simpl in E.
      by apply joined_store_name_In in E.
Qed.

Lemma generate_buckets_witness :
  In ("Kroger", [("Chicken Breast", Float 3.5, "lb", Some 15.75%float);
                 ("paper towels", Int 0, "", Some 2.495%float)])
     (generate Sample.priced "2026-02-23" "2026-02-23" true)
  /\ exists r, In r (db_stores Sample.priced) /\ store_name r = "Kroger".
Proof.
  assert (In ("Kroger", [("Chicken Breast", Float 3.5, "lb", Some 15.75%float);
                         ("paper towels", Int 0, "", Some 2.495%float)])
            (generate Sample.priced "2026-02-23" "2026-02-23" true)) as Hin
    by (vm_compute; by left).
  split; [exact Hin|].
  destruct (generate_buckets _ _ _ _ _ _ Hin) as (_ & _ & [E|[E|Hr]]);
    [discriminate E|discriminate E|exact Hr].
Defined.

(** X5. In the mapping [generate] returns, the tuples of every store
    are sorted by display name (in code-point order, upper case before
    lower case), the staples appended by the second pass included. *)
Theorem generate_sorted db start_date end_date use_pantry store items :
  In (store, items) (generate db start_date end_date use_pantry) ->
  StronglySorted (fun a b => String.leb (line_name a) (line_name b) = true) items.
Proof.
  rewrite generate_eq. destruct (aggregate _ _).1; [done|].
  unfold build_list. intros (items0 & _ & ->)%sort_stores_In.
  apply (stable_sort_sorted line_le line_le_total line_le_trans).
Qed.

Lemma generate_sorted_witness :
  In ("Kroger", [("Chicken Breast", Float 3.5, "lb", Some 15.75%float);
                 ("paper towels", Int 0, "", Some 2.495%float)])
     (generate Sample.priced "2026-02-23" "2026-02-23" true)
  /\ String.leb "Chicken Breast" "paper towels" = true.
Proof.
  assert (In ("Kroger", [("Chicken Breast", Float 3.5, "lb", Some 15.75%float);
                         ("paper towels", Int 0, "", Some 2.495%float)])
            (generate Sample.priced "2026-02-23" "2026-02-23" true)) as Hin
    by (vm_compute; by left).
  split; [exact Hin|].
  pose proof (generate_sorted _ _ _ _ _ _ Hin) as Hs.
  apply StronglySorted_inv in Hs as [_ Hs].
  apply Forall_cons in Hs as [Hs _]. exact Hs.
Defined.

(** ** Saving what was generated *)

Lemma scalar_trace_keys sources : map fst (scalar_trace sources) = map fst sources.
Proof. unfold scalar_trace. rewrite map_map. by apply map_ext. Qed.

Lemma scalars_of_source_length t : length (scalars_of_source t) = 6%nat.
Proof. by destruct t as [[[[[rid rname] date] slot] qty] unit]. Qed.

Lemma scalar_trace_kept sources :
  (forall n l, In (n, l) sources -> l <> []) ->
  List.filter first_source_has_arity_6 (scalar_trace sources) = scalar_trace sources.
Proof.
  induction sources as [|[n l] sources IH]; intros Hne; simpl; [done|].
  rewrite IH by (intros; eapply Hne; by right).
  unfold first_source_has_arity_6. simpl.
  destruct l as [|t l]; [by destruct (Hne n [] (or_introl eq_refl))|].
  simpl. by rewrite scalars_of_source_length.
Qed.

(** X6. Saving the list [generate] returns together with the trace
    [get_ingredient_sources] returns for the same range, then loading,
    gives everything back: every store with its tuples, every
    ingredient of the trace with all its sources, the dates and the
    flag; the loader discards nothing of a trace of the current
    format. *)
Theorem saved_list_loads_whole recipes db start_date end_date use_pantry :
  let result := generate db start_date end_date use_pantry in
  let trace := scalar_trace (get_ingredient_sources recipes db start_date end_date) in
  load_cached_list
    (save_cached_list db (py_shopping_data result) (py_sources trace)
                      start_date end_date use_pantry)
  = Return (Some (cached_bundle result trace start_date end_date use_pantry)).
Proof.
  intros result trace.
  unfold load_cached_list, save_cached_list, get_setting.
  cbn [db_settings set_setting]. rewrite od_lookup_upsert_same.
  fold (cached_bundle result trace start_date end_date use_pantry).
  rewrite load_body_saved.
  - unfold trace. rewrite scalar_trace_kept; [done|].
    apply get_ingredient_sources_nonempty.
  - apply well_grouped_generate.
  - unfold trace. rewrite scalar_trace_keys. apply get_ingredient_sources_NoDup.
Qed.

(** ** The range query *)

Section RangeFacts.

Lemma String_compare_refl a : String.compare a a = Eq.
Proof.
  pose proof (String.compare_antisym a a) as H.
  destruct (String.compare a a); simpl in H; congruence.
Qed.

Lemma String_compare_Eq a b : String.compare a b = Eq <-> a = b.
Proof. split; [apply String.compare_eq_iff|intros ->; apply String_compare_refl]. Qed.

Lemma String_compare_Lt a b :
  String.compare a b = Lt <-> String.leb a b = true /\ a <> b.
Proof.
  unfold String.leb. split.
  - intros E. rewrite E. split; [done|]. intros ->.
    by rewrite String_compare_refl in E.
  - intros [Hle Hne]. destruct (String.compare a b) eqn:E; [|done|done].
    by apply String_compare_Eq in E.
Qed.

Lemma String_compare_Gt a b : String.compare a b = Gt <-> String.leb a b = false.
Proof. unfold String.leb. by destruct (String.compare a b). Qed.

Lemma row_le_spec a b :
  row_le a b = true
  <-> (String.leb (mp_date a) (mp_date b) = true /\ mp_date a <> mp_date b)
      \/ (mp_date a = mp_date b
          /\ String.leb (mp_meal_slot a) (mp_meal_slot b) = true).
Proof.
  unfold row_le. destruct (String.compare (mp_date a) (mp_date b)) eqn:E.
  - apply String_compare_Eq in E. intuition.
  - apply String_compare_Lt in E. intuition.
  - apply String_compare_Gt in E. split; [done|].
    intros [[Hle _]|[Heq _]]; [congruence|].
    rewrite Heq, String_leb_refl in E. done.
Qed.

Lemma row_le_total a b : row_le a b = true \/ row_le b a = true.
Proof.
  rewrite !row_le_spec.
  destruct (decide (mp_date a = mp_date b)) as [E|Hne].
  - destruct (String.leb_total (mp_meal_slot a) (mp_meal_slot b)); [left|right];
      right; split; done.
  - destruct (String.leb_total (mp_date a) (mp_date b)); [left|right];
      left; split; done.
Qed.

Lemma row_le_trans a b c :
  row_le a b = true -> row_le b c = true -> row_le a c = true.
Proof.
  rewrite !row_le_spec.
  intros [[Hab Nab]|[Eab Sab]] [[Hbc Nbc]|[Ebc Sbc]].
  - left. split; [by eapply String_leb_trans|]. intros E. rewrite E in Hab.
    apply Nbc. by apply String.leb_antisym.
  - left. rewrite <- Ebc. done.
  - left. rewrite Eab. done.
  - right. split; [congruence|by eapply String_leb_trans].
Qed.

Lemma date_in_range_ordered start_date end_date r :
  date_in_range start_date end_date r = true -> String.leb start_date end_date = true.
Proof.
  unfold date_in_range. intros [H1 H2]%andb_true_iff. by eapply String_leb_trans.
Qed.

Lemma StronglySorted_map {A B} (f : A -> B) (R : B -> B -> Prop) l :
  StronglySorted (fun a b => R (f a) (f b)) l -> StronglySorted R (map f l).
Proof.
  induction l as [|x l IH]; simpl; intros Hl; [constructor|].
  apply StronglySorted_inv in Hl as [Hl Hx].
  constructor; [by apply IH|].
  rewrite Forall_forall in Hx. rewrite Forall_forall.
  intros y (x' & <- & Hin)%list_elem_of_In%in_map_iff.
  by apply Hx, list_elem_of_In.
Qed.

Lemma filter_comm {A} (p q : A -> bool) l :
  List.filter p (List.filter q l) = List.filter q (List.filter p l).
Proof.
  induction l as [|x l IH]; simpl; [done|].
  destruct (p x) eqn:Ep, (q x) eqn:Eq; simpl; rewrite ?Ep, ?Eq, IH; done.
Qed.

End RangeFacts.

(** X7. [get_meals_in_range] returns exactly the rows of the table
    whose date lies between the two bounds, both included, in the
    order of text comparison: none is lost or repeated, and they come
    sorted by date, then by meal slot. *)
Theorem get_meals_in_range_sorted db start_date end_date :
  let result := get_meals_in_range db start_date end_date in
  Permutation result
    (map entry_of_row
         (List.filter (date_in_range start_date end_date) (db_meal_plan db)))
  /\ StronglySorted (fun a b => entry_le a b = true) result
  /\ forall e, In e result ->
       String.leb start_date (entry_date e) = true
       /\ String.leb (entry_date e) end_date = true.
Proof.
  intros result. unfold result, get_meals_in_range. split_and!.
  - apply Permutation_map, stable_sort_perm.
  - apply StronglySorted_map.
    apply (stable_sort_sorted row_le row_le_total row_le_trans).
  - intros e (r & <- & [_ Hr]%stable_sort_In%filter_In)%in_map_iff.
    by apply andb_true_iff in Hr.
Qed.

Lemma get_meals_in_range_sorted_witness :
  In (entry_of_row (Sample.meal "2026-02-24" "Lunch" None 1))
     (get_meals_in_range Sample.notes_only "2026-02-23" "2026-03-01")
  /\ String.leb "2026-02-23" "2026-02-24" = true
  /\ String.leb "2026-02-24" "2026-03-01" = true.
Proof.
  assert (In (entry_of_row (Sample.meal "2026-02-24" "Lunch" None 1))
            (get_meals_in_range Sample.notes_only "2026-02-23" "2026-03-01")) as Hin
    by (vm_compute; by left).
  split; [exact Hin|].
  destruct (get_meals_in_range_sorted Sample.notes_only "2026-02-23" "2026-03-01")
    as (_ & _ & Hrange).
  apply (Hrange _ Hin).
Defined.

(** X8. When the start date is after the end date in text order, the
    range query finds no entry, [generate] returns the empty mapping and
    [get_ingredient_sources] the empty trace: an inverted range is not
    an error. *)
Theorem inverted_range_is_empty recipes db start_date end_date use_pantry :
  String.leb start_date end_date = false ->
  get_meals_in_range db start_date end_date = []
  /\ generate db start_date end_date use_pantry = []
  /\ get_ingredient_sources recipes db start_date end_date = [].
Proof.
  intros Hinv.
  assert (get_meals_in_range db start_date end_date = []) as Hnone.
  { unfold get_meals_in_range.
    assert (List.filter (date_in_range start_date end_date) (db_meal_plan db) = [])
      as ->; [|done].
    induction (db_meal_plan db) as [|r rows IH]; simpl; [done|].
    destruct (date_in_range start_date end_date r) eqn:E; [|done].
    apply date_in_range_ordered in E. congruence. }
  split; [done|]. unfold generate, get_ingredient_sources. by rewrite Hnone.
Qed.

Lemma inverted_range_is_empty_witness :
  String.leb "2026-03-01" "2026-02-23" = false
  /\ generate Sample.priced "2026-03-01" "2026-02-23" true = []
  /\ generate Sample.priced "2026-02-23" "2026-03-01" true <> [].
Proof.
  split; [reflexivity|]. split.
  - destruct (inverted_range_is_empty More.recipes Sample.priced
                "2026-03-01" "2026-02-23" true eq_refl) as (_ & Hgen & _).
    exact Hgen.
  - vm_compute. discriminate.
Defined.

(** ** Entries without a recipe *)

Lemma recipe_backed_ref r :
  recipe_backed r = true <-> recipe_ref (entry_of_row r) <> None.
Proof.
  unfold recipe_backed, recipe_ref. simpl.
  destruct (mp_recipe_id r) as [rid|]; [|done].
  by destruct (Z.eqb rid 0).
Qed.

Lemma visits_recipe_backed db rows :
  visits db (map entry_of_row (List.filter recipe_backed rows))
  = visits db (map entry_of_row rows).
Proof.
  unfold visits. induction rows as [|r rows IH]; simpl; [done|].
  destruct (recipe_backed r) eqn:E; simpl; [by rewrite IH|].
  rewrite IH. destruct (recipe_ref (entry_of_row r)) eqn:Eref; [|done].
  assert (recipe_backed r = true) by (apply recipe_backed_ref; congruence).
  congruence.
Qed.

Lemma get_meals_in_range_recipe_backed db start_date end_date :
  get_meals_in_range
    (with_meal_plan db (List.filter recipe_backed (db_meal_plan db)))
    start_date end_date
  = map entry_of_row
      (List.filter recipe_backed
         (stable_sort row_le
            (List.filter (date_in_range start_date end_date) (db_meal_plan db)))).
Proof.
  unfold get_meals_in_range. simpl. f_equal.
  rewrite filter_comm.
  symmetry. apply (stable_sort_filter row_le row_le_total row_le_trans).
Qed.

Lemma aggregate_visits db entries :
  aggregate db entries
  = fold_left (fun acc c => add_ingredient c.1 acc c.2)
      (map (fun v => (entry_servings v.1.1, v.2)) (visits db entries)) ([], ∅).
Proof. unfold aggregate. by rewrite fold_add_entry, contributions_visits. Qed.

(** X9. Meal-plan entries without a recipe (a null recipe id, or 0)
    contribute nothing: deleting them from the meal_plan table changes
    neither the mapping [generate] returns nor the trace of
    [get_ingredient_sources]. *)
Theorem recipe_less_entries_ignored recipes db start_date end_date use_pantry :
  let db' := with_meal_plan db (List.filter recipe_backed (db_meal_plan db)) in
  generate db' start_date end_date use_pantry
  = generate db start_date end_date use_pantry
  /\ get_ingredient_sources recipes db' start_date end_date
     = get_ingredient_sources recipes db start_date end_date.
Proof.
  intros db'.
  assert (visits db (get_meals_in_range db' start_date end_date)
          = visits db (get_meals_in_range db start_date end_date)) as Hvisits.
  { unfold db'. rewrite get_meals_in_range_recipe_backed.
    apply visits_recipe_backed. }
  split.
  - rewrite !generate_eq.
    change (aggregate db' (get_meals_in_range db' start_date end_date))
      with (aggregate db (get_meals_in_range db' start_date end_date)).
    rewrite (aggregate_visits db (get_meals_in_range db' start_date end_date)),
      Hvisits, <- aggregate_visits.
    reflexivity.
  - rewrite !get_ingredient_sources_fold.
    change (visits db' (get_meals_in_range db' start_date end_date))
      with (visits db (get_meals_in_range db' start_date end_date)).
    by rewrite Hvisits.
Qed.

(** ** The text of a shopping list *)

Lemma existsb_perm {A} (p : A -> bool) (x y : list A) :
  Permutation x y -> existsb p x = existsb p y.
Proof.
  intros Hperm. apply eq_true_iff_eq. rewrite !existsb_exists.
  split; intros (a & Ha & Hp); exists a; (split; [|done]).
  - by eapply Permutation_in.
  - eapply Permutation_in; [symmetry; exact Hperm|done].
Qed.

Lemma append_nil_l (s : string) : "" +:+ s = s.
Proof. reflexivity. Qed.

Lemma append_cons x (a s : string) : String x a +:+ s = String x (a +:+ s).
Proof. reflexivity. Qed.

Lemma append_nil_r (s : string) : s +:+ "" = s.
Proof. induction s as [|x s IH]; [done|]. by rewrite append_cons, IH. Qed.

Lemma append_assoc (a b c : string) : (a +:+ b) +:+ c = a +:+ (b +:+ c).
Proof.
  induction a as [|x a IH]; [done|]. by rewrite !append_cons, IH.
Qed.

(** A text that ends with a character that is no white space is kept
    whole by [rstrip], whatever follows it. *)
Lemma rstrip_app_keep a c t :
  is_space c = false ->
  rstrip ((a +:+ String c EmptyString) +:+ t)
  = (a +:+ String c EmptyString) +:+ rstrip t.
Proof.
  intros Hc. induction a as [|x a IH].
  - rewrite !append_nil_l, !append_cons, !append_nil_l. simpl.
    destruct (rstrip t); [by rewrite Hc|done].
  - rewrite !append_cons. simpl. rewrite IH.
    destruct a; by rewrite ?append_nil_l, !append_cons.
Qed.

(** The header of a store starts and ends with a sign that [strip]
    keeps. *)
Lemma strip_header_app store t :
  strip (("=== " +:+ store +:+ " ===") +:+ t)
  = ("=== " +:+ store +:+ " ===") +:+ rstrip t.
Proof.
  unfold strip.
  assert (lstrip (("=== " +:+ store +:+ " ===") +:+ t)
          = ("=== " +:+ store +:+ " ===") +:+ t) as -> by reflexivity.
  replace ("=== " +:+ store +:+ " ===")
    with (("=== " +:+ store +:+ " ==") +:+ String "="%char EmptyString).
  - by apply rstrip_app_keep.
  - rewrite !append_assoc. reflexivity.
Qed.

Lemma prefix_app (a s : string) : String.prefix a (a +:+ s) = true.
Proof.
  induction a as [|x a IH]; [by destruct s|].
  rewrite append_cons. simpl. by destruct (ascii_dec x x).
Qed.

Lemma concat_cons h lines :
  exists t, String.concat newline (h :: lines) = h +:+ t.
Proof.
  destruct lines as [|l lines]; simpl.
  - exists "". by rewrite append_nil_r.
  - eauto.
Qed.

Section FormatFacts.
Variable format_g : number -> string.
Variable format_2f : float -> string.

Local Abbreviation fmt_item := (format_item format_g format_2f).
Local Abbreviation fmt_store := (format_store format_g format_2f).
Local Abbreviation block := (store_block format_g format_2f).

(** The state of the loop over the items of a store. *)
Lemma format_items_state items lines subtotal priced :
  fold_left fmt_item items (lines, subtotal, priced)
  = (lines ++ map (item_line format_g format_2f) items,
     float_sum (omap line_cost items) subtotal,
     priced || match omap line_cost items with [] => false | _ => true end).
Proof.
  revert lines subtotal priced.
  induction items as [|item items IH]; intros lines subtotal priced.
  - simpl. by rewrite app_nil_r, orb_false_r.
  - destruct item as [[[name qty] unit] [c|]].
    + change (fold_left fmt_item items
                (lines ++ [item_line format_g format_2f (name, qty, unit, Some c)],
                 (subtotal + c)%float, true) = (lines ++ item_line format_g format_2f (name, qty, unit, Some c) :: map (item_line format_g format_2f) items,
                 float_sum (omap line_cost items) (subtotal + c)%float,
                 priced || true)).
      rewrite IH, <- app_assoc. simpl. by rewrite orb_true_r.
    + change (fold_left fmt_item items
                (lines ++ [item_line format_g format_2f (name, qty, unit, None)],
                 subtotal, priced) = (lines ++ item_line format_g format_2f (name, qty, unit, None) :: map (item_line format_g format_2f) items,
                 float_sum (omap line_cost items) subtotal,
                 priced || match omap line_cost items with [] => false | _ => true end)).
      rewrite IH, <- app_assoc. reflexivity.
Qed.

(** The state of the loop over the stores. *)
Lemma format_store_state lines total has entry :
  fmt_store (lines, total, has) entry
  = (lines ++ block entry,
     if store_priced entry then (total + store_subtotal entry)%float else total,
     has || store_priced entry).
Proof.
  unfold format_store. rewrite format_items_state. simpl.
  unfold store_block, store_priced, store_subtotal, store_costs.
  destruct (omap line_cost entry.2) as [|c cs] eqn:E; simpl.
  - rewrite orb_false_r, <- !app_assoc. reflexivity.
  - rewrite orb_true_r, <- !app_assoc. reflexivity.
Qed.

Lemma format_stores_state entries lines total has :
  fold_left fmt_store entries (lines, total, has)
  = (lines ++ flat_map block entries,
     float_sum (map store_subtotal (List.filter store_priced entries)) total,
     has || existsb store_priced entries).
Proof.
  revert lines total has.
  induction entries as [|entry entries IH]; intros lines total has.
  - simpl. by rewrite app_nil_r, orb_false_r.
  - change (fold_left fmt_store (entry :: entries) (lines, total, has))
      with (fold_left fmt_store entries (fmt_store (lines, total, has) entry)).
    rewrite format_store_state, IH, <- app_assoc, <- orb_assoc.
    cbn [flat_map List.filter existsb].
    by destruct (store_priced entry).
Qed.

(** The text, from its description. *)
Lemma format_shopping_list_text shopping_list :
  shopping_list <> [] ->
  format_shopping_list format_g format_2f shopping_list
  = strip (String.concat newline
             (store_blocks format_g format_2f shopping_list
              ++ if has_cost shopping_list
                 then [total_line format_2f shopping_list]
                 else [])).
Proof.
  intros Hne. unfold format_shopping_list, format_totals.
  destruct shopping_list as [|entry entries]; [done|].
  rewrite format_stores_state. simpl app at 1.
  unfold has_cost, store_blocks, total_line, estimated_total.
  rewrite (existsb_perm store_priced (entry :: entries)
             (sorted_stores (entry :: entries)))
    by (symmetry; apply stable_sort_perm).
  destruct (existsb store_priced (sorted_stores (entry :: entries)));
    simpl orb; cbv iota; [reflexivity|by rewrite app_nil_r].
Qed.

(** The text of a mapping with a store starts with the header of the
    first store in the order of the names. *)
Lemma format_shopping_list_head shopping_list entry entries :
  sorted_stores shopping_list = entry :: entries ->
  exists rest,
    format_shopping_list format_g format_2f shopping_list
    = ("=== " +:+ entry.1 +:+ " ===") +:+ rest.
Proof.
  intros Hsorted.
  assert (shopping_list <> []) as Hne.
  { intros ->. discriminate. }
  rewrite format_shopping_list_text by done.
  unfold store_blocks. rewrite Hsorted. cbn [flat_map]. unfold store_block at 1.
  match goal with
  | |- context [String.concat newline ?l] =>
      assert (exists t, String.concat newline l
                        = ("=== " +:+ entry.1 +:+ " ===") +:+ t) as [t ->]
        by apply concat_cons
  end.
  rewrite strip_header_app. eauto.
Qed.

(** No line of a block is the line of the total: it is empty, a header,
    or indented by two spaces. *)
Lemma store_block_lines entry line :
  In line (block entry) ->
  line = "" \/ String.prefix "=== " line = true \/ String.prefix "  " line = true.
Proof.
  unfold store_block. intros [<-|[Hitem|Hend]%in_app_or].
  - right; left. apply prefix_app.
  - right; right. apply in_map_iff in Hitem as ([[[name qty] unit] cost] & <- & _).
    unfold item_line. rewrite !append_assoc. apply (prefix_app "  " _).
  - destruct (store_priced entry).
    + destruct Hend as [<-|[<-|[]]]; [right; right; reflexivity|by left].
    + destruct Hend as [<-|[]]. by left.
Qed.

End FormatFacts.

(** ** The order of the stores in the text *)

Lemma store_le_total {B} (a b : string * B) :
  String.leb a.1 b.1 = true \/ String.leb b.1 a.1 = true.
Proof. apply String.leb_total. Qed.

Lemma store_le_trans {B} (a b c : string * B) :
  String.leb a.1 b.1 = true -> String.leb b.1 c.1 = true -> String.leb a.1 c.1 = true.
Proof. apply String_leb_trans. Qed.

(** Two lists with the same pairs, distinct keys, both sorted by key,
    are the same list. *)
Lemma sorted_by_key_unique {B} (l1 l2 : list (string * B)) :
  StronglySorted (fun a b => String.leb a.1 b.1 = true) l1 ->
  StronglySorted (fun a b => String.leb a.1 b.1 = true) l2 ->
  Permutation l1 l2 -> NoDup (map fst l1) -> l1 = l2.
Proof.
  revert l2. induction l1 as [|x l1 IH]; intros l2 Hs1 Hs2 Hperm Hnd.
  - by apply Permutation_nil in Hperm.
  - destruct l2 as [|y l2]; [by apply Permutation_sym, Permutation_nil in Hperm|].
    apply StronglySorted_inv in Hs1 as [Hs1 Hx].
    apply StronglySorted_inv in Hs2 as [Hs2 Hy].
    simpl in Hnd. apply NoDup_cons in Hnd as [Hxk Hnd].
    rewrite Forall_forall in Hx. rewrite Forall_forall in Hy.
    assert (x = y) as <-.
    { assert (In x (y :: l2)) as [->|Hx2]
        by (eapply Permutation_in; [exact Hperm|by left]); [done|].
      assert (In y (x :: l1)) as [->|Hy1]
        by (eapply Permutation_in; [symmetry; exact Hperm|by left]); [done|].
      exfalso. apply Hxk.
      assert (x.1 = y.1) as ->.
      { apply String.leb_antisym; [by apply Hx, list_elem_of_In
                                  |by apply Hy, list_elem_of_In]. }
      apply list_elem_of_In, in_map_iff. by exists y. }
    f_equal. apply IH; [done..| |done]. by apply Permutation_cons_inv in Hperm.
Qed.

Lemma sorted_stores_perm (x y : list (string * list line)) :
  Permutation x y -> NoDup (map fst x) -> sorted_stores x = sorted_stores y.
Proof.
  intros Hperm Hnd. unfold sorted_stores. apply sorted_by_key_unique.
  - apply (stable_sort_sorted store_le store_le_total store_le_trans).
  - apply (stable_sort_sorted store_le store_le_total store_le_trans).
  - by rewrite !stable_sort_perm.
  - pose proof (Permutation_map fst (stable_sort_perm store_le x)) as Hkeys.
    by rewrite Hkeys.
Qed.

(** The first element of a sorted list is a least element of the list. *)
Lemma sorted_stores_least (shopping_list : list (string * list line)) entry entries :
  sorted_stores shopping_list = entry :: entries ->
  In entry shopping_list
  /\ forall e, In e shopping_list -> String.leb entry.1 e.1 = true.
Proof.
  intros Hsorted.
  pose proof (stable_sort_sorted store_le store_le_total store_le_trans shopping_list)
    as Hs.
  pose proof (stable_sort_perm store_le shopping_list) as Hperm.
  fold (sorted_stores shopping_list) in Hs, Hperm. rewrite Hsorted in Hs, Hperm.
  split; [eapply Permutation_in; [exact Hperm|by left]|].
  intros e He. apply StronglySorted_inv in Hs as [_ Hall].
  rewrite Forall_forall in Hall.
  assert (In e (entry :: entries)) as [<-|Hin]
    by (eapply Permutation_in; [symmetry; exact Hperm|done]).
  - destruct (String.leb_total entry.1 entry.1); done.
  - by apply Hall, list_elem_of_In.
Qed.

(** X10. Whatever the two formats, the text of a mapping is exactly
    "No items needed." when, and only when, the mapping has no store;
    the text of any other mapping starts with the header of a store of
    the mapping, the first one in the order of the names. *)
Theorem no_items_text_iff_empty format_g format_2f shopping_list :
  (format_shopping_list format_g format_2f shopping_list = "No items needed."
   <-> shopping_list = [])
  /\ (shopping_list <> [] ->
      exists store items rest,
        In (store, items) shopping_list
        /\ (forall e, In e shopping_list -> String.leb store e.1 = true)
        /\ format_shopping_list format_g format_2f shopping_list
           = ("=== " +:+ store +:+ " ===") +:+ rest).
Proof.
  assert (shopping_list <> [] ->
      exists store items rest,
        In (store, items) shopping_list
        /\ (forall e, In e shopping_list -> String.leb store e.1 = true)
        /\ format_shopping_list format_g format_2f shopping_list
           = ("=== " +:+ store +:+ " ===") +:+ rest) as Hhead.
  { intros Hne.
    destruct (sorted_stores shopping_list) as [|[store items] entries] eqn:E.
    { apply (f_equal (@length _)) in E. unfold sorted_stores in E.
      rewrite (Permutation_length (stable_sort_perm store_le shopping_list)) in E.
      by destruct shopping_list. }
    destruct (sorted_stores_least _ _ _ E) as [Hin Hleast].
    destruct (format_shopping_list_head format_g format_2f _ _ _ E) as [rest Hrest].
    by exists store, items, rest. }
  split; [|exact Hhead]. split; [|by intros ->].
  intros Htext. destruct shopping_list as [|entry entries]; [done|].
  destruct Hhead as (store & items & rest & _ & _ & Hrest); [done|].
  rewrite Hrest in Htext. discriminate.
Qed.

Lemma no_items_text_iff_empty_witness :
  generate Sample.notes_only "2026-02-23" "2026-03-01" true = []
  /\ format_shopping_list format_g format_2f
       (generate Sample.notes_only "2026-02-23" "2026-03-01" true)
     = "No items needed."
  /\ exists store items rest,
       In (store, items) (generate Sample.priced "2026-02-23" "2026-02-23" true)
       /\ format_shopping_list format_g format_2f
            (generate Sample.priced "2026-02-23" "2026-02-23" true)
          = ("=== " +:+ store +:+ " ===") +:+ rest.
Proof.
  assert (generate Sample.notes_only "2026-02-23" "2026-03-01" true = []) as Hnone
    by (vm_compute; reflexivity).
  split; [exact Hnone|]. split.
  - apply (no_items_text_iff_empty format_g format_2f). exact Hnone.
  - destruct (no_items_text_iff_empty format_g format_2f
                (generate Sample.priced "2026-02-23" "2026-02-23" true))
      as [_ Hhead].
    destruct Hhead as (store & items & rest & Hin & _ & Htext).
    + vm_compute. discriminate.
    + by exists store, items, rest.
Defined.

(** X11. The text does not depend on the order in which the stores
    entered the mapping: two mappings with the same stores and lists,
    the stores being distinct, give the same text, store after store in
    the order of their names. *)
Theorem format_order_independent format_g format_2f x y :
  Permutation x y -> NoDup (map fst x) ->
  format_shopping_list format_g format_2f x = format_shopping_list format_g format_2f y.
Proof.
  intros Hperm Hnd. unfold format_shopping_list, format_totals.
  rewrite (sorted_stores_perm x y Hperm Hnd).
  destruct x as [|ex x]; [by apply Permutation_nil in Hperm as ->|].
  destruct y as [|ey y]; [by apply Permutation_sym, Permutation_nil in Hperm|].
  reflexivity.
Qed.

Lemma format_order_independent_witness :
  format_shopping_list format_g format_2f
    [("Kroger", [("Rice", Float 2, "cup", None)]);
     ("Aldi", [("Pepper", Float 1, "", Some 1.25%float)])]
  = format_shopping_list format_g format_2f
      [("Aldi", [("Pepper", Float 1, "", Some 1.25%float)]);
       ("Kroger", [("Rice", Float 2, "cup", None)])].
Proof.
  apply (format_order_independent format_g format_2f).
  - apply perm_swap.
  - apply (bool_decide_unpack _). vm_compute. exact I.
Defined.

(** ** The total of the text *)

Lemma has_cost_spec (shopping_list : list (string * list line)) :
  has_cost shopping_list = true
  <-> exists store l c, listed shopping_list store l /\ line_cost l = Some c.
Proof.
  unfold has_cost. rewrite existsb_exists. split.
  - intros ([store items] & Hin & Hp). unfold store_priced, store_costs in Hp.
    destruct (omap line_cost _) as [|c cs] eqn:E; [done|].
    assert (c ∈ omap line_cost (store, items).2) as Hc by (rewrite E; left).
    apply list_elem_of_omap in Hc as (l & Hl%list_elem_of_In & Hcost).
    exists store, l, c. split; [by exists items|done].
  - intros (store & l & c & (items & Hin & Hl) & Hcost).
    exists (store, items). split; [done|]. unfold store_priced, store_costs.
    assert (c ∈ omap line_cost (store, items).2) as Hc.
    { apply list_elem_of_omap. exists l. split; [by apply list_elem_of_In|done]. }
    destruct (omap line_cost _); [by apply elem_of_nil in Hc|done].
Qed.

(** X12. The text of a mapping with a store is made of the blocks of
    its stores, in the order of the store names, followed by the line
    "Estimated total: $" with the total, in the [.2f] format, exactly
    when some item of some store has a cost; no line of a block is such
    a line. The total is the sum in double precision that the code
    computes: the costs of each store with a priced item are added to 0.0
    in the order of its items, and these subtotals are added to 0.0 in the
    order of the store names. *)
Theorem estimated_total_printed format_g format_2f shopping_list :
  shopping_list <> [] ->
  format_shopping_list format_g format_2f shopping_list
  = strip (String.concat newline
             (store_blocks format_g format_2f shopping_list
              ++ if has_cost shopping_list
                 then ["Estimated total: $" +:+ format_2f (estimated_total shopping_list)]
                 else []))
  /\ (has_cost shopping_list = true
      <-> exists store l c, listed shopping_list store l /\ line_cost l = Some c)
  /\ (forall line, In line (store_blocks format_g format_2f shopping_list) ->
        line = "" \/ String.prefix "=== " line = true
        \/ String.prefix "  " line = true).
Proof.
  intros Hne. split_and!.
  - by apply format_shopping_list_text.
  - apply has_cost_spec.
  - intros line (entry & _ & Hline)%in_flat_map.
    by eapply store_block_lines.
Qed.

Lemma estimated_total_printed_witness :
  let result := generate Sample.priced "2026-02-23" "2026-02-23" true in
  result <> []
  /\ has_cost result = true
  /\ estimated_total result = (0 + (0 + 15.75 + 2.495))%float
  /\ format_2f (estimated_total result) = "18.25"
  /\ format_shopping_list format_g format_2f result
     = "=== Kroger ===" +:+ newline
       +:+ "  [ ] Chicken Breast " +:+ em_dash +:+ " 3.5 lb  $15.75" +:+ newline
       +:+ "  [ ] paper towels  $2.50" +:+ newline
       +:+ "  Store subtotal: $18.25" +:+ newline +:+ newline
       +:+ "Estimated total: $18.25".
Proof.
  intros result.
  assert (result <> []) as Hne by (vm_compute; discriminate).
  split; [exact Hne|]. split; [vm_compute; reflexivity|].
  split; [vm_compute; reflexivity|]. split; [vm_compute; reflexivity|].
  destruct (estimated_total_printed format_g format_2f result Hne) as [-> _].
  vm_compute. reflexivity.
Defined.

(** ** The settings table and the cache slot *)

(** X13. A setting reads back as last written, and writing a key leaves
    the value of every other key as it was. *)
Theorem setting_reads_back db k value k' :
  get_setting (set_setting db k value) k'
  = if decide (k' = k) then Some value else get_setting db k'.
Proof. unfold get_setting, set_setting. simpl. apply od_lookup_upsert. Qed.

Lemma load_cached_list_slot db :
  load_cached_list db
  = match get_setting db _CACHE_KEY with
    | None => Return None
    | Some EmptyText => Return None
    | Some raw =>
        match load_body raw with
        | Return data => Return (Some data)
        | Raise AttributeError => Raise AttributeError
        | Raise IndexError => Raise IndexError
        | Raise _ => Return None
        end
    end.
Proof. done. Qed.

Lemma get_setting_saved db shopping_data ingredient_sources start_date end_date up :
  get_setting
    (save_cached_list db shopping_data ingredient_sources start_date end_date up)
    _CACHE_KEY
  = Some (JsonText (VDict [("shopping_data", shopping_data);
                           ("ingredient_sources", ingredient_sources);
                           ("start_date", VStr start_date);
                           ("end_date", VStr end_date);
                           ("use_pantry", VBool up)])).
Proof.
  unfold save_cached_list, get_setting, set_setting. simpl.
  apply od_lookup_upsert_same.
Qed.

(** X14. [load_cached_list] returns [None], and raises nothing, when no
    list was ever saved and after [clear_cached_list], whatever was
    saved before the clearing. *)
Theorem load_without_cache db :
  (get_setting db _CACHE_KEY = None -> load_cached_list db = Return None)
  /\ load_cached_list (clear_cached_list db) = Return None.
Proof.
  split.
  - intros Hnone. by rewrite load_cached_list_slot, Hnone.
  - rewrite load_cached_list_slot. unfold clear_cached_list, get_setting, set_setting.
    simpl. by rewrite od_lookup_upsert_same.
Qed.

Lemma load_without_cache_witness :
  load_cached_list Sample.priced = Return None
  /\ load_cached_list
       (clear_cached_list
          (save_cached_list Sample.priced (VDict []) (VDict []) "2026-02-23"
             "2026-03-01" true))
     = Return None.
Proof.
  split.
  - destruct (load_without_cache Sample.priced) as [Hnever _].
    apply Hnever. reflexivity.
  - destruct (load_without_cache
                (save_cached_list Sample.priced (VDict []) (VDict []) "2026-02-23"
                   "2026-03-01" true)) as [_ Hcleared].
    exact Hcleared.
Defined.

(** X15. What [load_cached_list] returns after [save_cached_list]
    depends on the saved arguments only: the last save wins, whatever
    the slot held before, an earlier list or nothing. *)
Theorem last_save_wins db db' shopping_data ingredient_sources start_date end_date up :
  load_cached_list
    (save_cached_list db shopping_data ingredient_sources start_date end_date up)
  = load_cached_list
      (save_cached_list db' shopping_data ingredient_sources start_date end_date up).
Proof. by rewrite !load_cached_list_slot, !get_setting_saved. Qed.

(** X16. A stored text that is the JSON of anything but an object (a
    list, a string, a number, true, false or null) is not treated as a
    missing cache: [data.get] raises an [AttributeError], which the
    loader does not catch. *)
Theorem load_non_object_raises db payload :
  get_setting db _CACHE_KEY = Some (JsonText payload) ->
  (forall d, payload <> VDict d) ->
  load_cached_list db = Raise AttributeError.
Proof.
  intros Hslot Hshape. rewrite load_cached_list_slot, Hslot.
  unfold load_body. simpl.
  destruct payload as [|b|z|f|s|l|l|d]; try reflexivity. by destruct (Hshape d).
Qed.

Lemma load_non_object_raises_witness :
  load_cached_list
    (set_setting Sample.priced _CACHE_KEY (JsonText (VList [VInt 1])))
  = Raise AttributeError.
Proof.
  apply (load_non_object_raises _ (VList [VInt 1])); [reflexivity|done].
Defined.

Lemma od_lookup_map_values {V W} (f : V -> W) k (d : list (string * V)) :
  od_lookup k (map (fun kv => match kv with (k', x) => (k', f x) end) d)
  = f <$> od_lookup k d.
Proof.
  induction d as [|[k' v] d IH]; simpl; [done|]. by destruct (decide (k = k')).
Qed.

Lemma retuple_store_raises data store v rest :
  Py.getitem data (VStr "shopping_data") = Return (VDict ((store, v) :: rest)) ->
  Py.iter v = Raise TypeError ->
  retuple_store data (VStr store) = Raise TypeError.
Proof.
  intros Hsd Hiter. unfold retuple_store. rewrite Hsd, bind_Return.
  cbn [Py.getitem od_lookup]. destruct (decide (store = store)); [|done].
  rewrite bind_Return. unfold Py.tuples_of. by rewrite Hiter.
Qed.

(** X17. A stored object whose shopping data holds, for its first
    store, a number, a boolean or null instead of a list of lines is
    treated as a missing cache: converting it raises a [TypeError], the
    loader catches it and returns [None]. *)
Theorem load_corrupt_store_is_none db d store v rest :
  get_setting db _CACHE_KEY = Some (JsonText (VDict d)) ->
  od_lookup "shopping_data" d = Some (VDict ((store, v) :: rest)) ->
  (v = VNone \/ (exists b, v = VBool b) \/ exists x, v = py_number x) ->
  load_cached_list db = Return None.
Proof.
  intros Hslot Hshop Hv. rewrite load_cached_list_slot, Hslot.
  assert (load_body (JsonText (VDict d)) = Raise TypeError) as ->; [|done].
  assert (Py.json_value v = v) as Hjv by (by destruct Hv as [->|[[b ->]|[[z|f] ->]]]).
  assert (Py.iter v = Raise TypeError) as Hiter
    by (by destruct Hv as [->|[[b ->]|[[z|f] ->]]]).
  unfold load_body. cbn [Py.json_loads Py.json_value].
  rewrite bind_Return. cbn [Py.get]. rewrite od_lookup_map_values, Hshop.
  cbn [fmap option_fmap option_map default Py.json_value map id].
  rewrite bind_Return, Hjv. cbn [Py.iter map fst]. rewrite bind_Return.
  cbn [Py.for_each].
  rewrite (retuple_store_raises _ store v
             (map (fun kv => match kv with (k, x) => (k, Py.json_value x) end) rest));
    [done| |done].
  cbn [Py.getitem]. rewrite od_lookup_map_values, Hshop.
  cbn [fmap option_fmap option_map Py.json_value map id]. by rewrite Hjv.
Qed.

Lemma load_corrupt_store_is_none_witness :
  load_cached_list
    (save_cached_list Sample.priced (VDict [("Kroger", VInt 5)]) (VDict [])
       "2026-02-23" "2026-03-01" true)
  = Return None.
Proof.
  eapply (load_corrupt_store_is_none _ _ "Kroger" (VInt 5) []).
  - apply get_setting_saved.
  - reflexivity.
  - right; right. by exists (Int 5).
Defined.

(** ** Weeks *)

(** X18. For a date [d] (of ordinal at least 1) the start of its week
    is a Monday, it is [d] or one of the six days before it, it is
    itself a valid date, and every day from that Monday to the Sunday
    after it has the same week start; without a date the function
    answers for today. *)
Theorem week_start_is_monday d today :
  1 <= d ->
  let start := get_week_start (Some d) today in
  weekday start = 0
  /\ start <= d <= start + 6
  /\ 1 <= start
  /\ (forall d', start <= d' <= start + 6 -> get_week_start (Some d') today = start)
  /\ get_week_start None d = start.
Proof.
  intros Hd start. unfold start, get_week_start, weekday. simpl.
  split_and!; [..|done]; intros; Z.div_mod_to_equations; lia.
Qed.

Lemma week_start_is_monday_witness :
  get_week_start (Some 739673) 1 = 739670
  /\ weekday 739670 = 0
  /\ get_week_start (Some 739676) 1 = 739670.
Proof.
  destruct (week_start_is_monday 739673 1) as (Hmon & _ & _ & Hweek & _); [lia|].
  split; [reflexivity|]. split; [exact Hmon|].
  apply Hweek. vm_compute. split; discriminate.
Defined.

(** ** The upsert of a cell of the meal plan *)

Section SetMealFacts.
Variable recipes : list recipe_row.
Variables entry_date slot : string.
Implicit Types (tbl : list plan_row) (r : plan_row).

Local Abbreviation outside := (fun r : plan_row => negb (in_cell entry_date slot r)).

Lemma in_cell_spec r :
  in_cell entry_date slot r = true <-> cell_of r = (entry_date, slot).
Proof.
  unfold in_cell, cell_of. rewrite andb_true_iff, !String.eqb_eq.
  split; [by intros [-> ->]|by intros [= -> ->]].
Qed.

Lemma find_none_filter tbl :
  List.find (in_cell entry_date slot) tbl = None ->
  List.filter outside tbl = tbl.
Proof.
  induction tbl as [|r tbl IH]; simpl; [done|].
  destruct (in_cell entry_date slot r); [done|]. simpl. intros H. by rewrite IH.
Qed.

Lemma set_meal_empty tbl recipe_id servings notes :
  has_content recipe_id notes = false ->
  set_meal recipes tbl entry_date slot recipe_id servings notes
  = Some (List.filter outside tbl).
Proof.
  intros Hc. unfold set_meal. rewrite Hc.
  destruct (List.find _ _) eqn:E; [done|]. by rewrite find_none_filter.
Qed.



Lemma set_meal_cells tbl recipe_id servings notes tbl' :
  has_content recipe_id notes = true ->
  set_meal recipes tbl entry_date slot recipe_id servings notes = Some tbl' ->
  map cell_of tbl'
  = match List.find (in_cell entry_date slot) tbl with
    | Some _ => map cell_of tbl
    | None => map cell_of tbl ++ [(entry_date, slot)]
    end.
Proof.
  intros Hc. unfold set_meal. rewrite Hc.
  destruct (foreign_key_ok recipes recipe_id); [|by destruct (List.find _ _)].
  destruct (List.find _ _) eqn:E; intros [= <-].
  - rewrite map_map. apply map_ext. intros r.
    by destruct (in_cell entry_date slot r).
  - by rewrite map_app.
Qed.


Lemma set_meal_cell_rows tbl recipe_id servings notes tbl' r :
  has_content recipe_id notes = true ->
  set_meal recipes tbl entry_date slot recipe_id servings notes = Some tbl' ->
  In r tbl' -> cell_of r = (entry_date, slot) ->
  r = ({| mp_date := entry_date; mp_meal_slot := slot;
          mp_recipe_id := recipe_id; mp_servings := servings |}, notes).
Proof.
  intros Hc. unfold set_meal. rewrite Hc.
  destruct (foreign_key_ok recipes recipe_id); [|by destruct (List.find _ _)].
  destruct (List.find _ _) eqn:E; intros [= <-] Hin Hcell.
  - apply in_map_iff in Hin as (r1 & Hr1 & Hin).
    destruct (in_cell entry_date slot r1) eqn:E1.
    + subst r. apply in_cell_spec in E1. unfold cell_of in E1. by injection E1 as -> ->.
    + subst r1. apply in_cell_spec in Hcell. congruence.
  - apply in_app_or in Hin as [Hin|[<-|[]]]; [|done].
    eapply find_none in E; [|exact Hin]. apply in_cell_spec in Hcell. congruence.
Qed.

Lemma set_meal_cell_filled tbl recipe_id servings notes tbl' :
  has_content recipe_id notes = true ->
  set_meal recipes tbl entry_date slot recipe_id servings notes = Some tbl' ->
  In ({| mp_date := entry_date; mp_meal_slot := slot;
         mp_recipe_id := recipe_id; mp_servings := servings |}, notes) tbl'.
Proof.
  intros Hc Hset.
  assert (exists r, In r tbl' /\ cell_of r = (entry_date, slot)) as (r & Hin & Hcell).
  { revert Hset. unfold set_meal. rewrite Hc.
    destruct (foreign_key_ok recipes recipe_id); [|by destruct (List.find _ _)].
    destruct (List.find _ _) as [r0|] eqn:E; intros [= <-].
    - apply find_some in E as [Hin Hr0]. eexists. split.
      + apply in_map_iff. exists r0. split; [reflexivity|done].
      + rewrite Hr0. by apply in_cell_spec in Hr0.
    - eexists. split; [apply in_or_app; right; by left|done]. }
  by rewrite <- (set_meal_cell_rows _ _ _ _ _ _ Hc Hset Hin Hcell).
Qed.

End SetMealFacts.

Lemma NoDup_map_filter {A B} (f : A -> B) (p : A -> bool) l :
  NoDup (map f l) -> NoDup (map f (List.filter p l)).
Proof.
  induction l as [|x l IH]; simpl; [done|].
  rewrite NoDup_cons. intros [Hx Hnd]. destruct (p x); simpl; [|auto].
  apply NoDup_cons. split; [|auto].
  intros (y & Hy & [Hin _]%filter_In)%list_elem_of_In%in_map_iff.
  apply Hx, list_elem_of_In, in_map_iff. eauto.
Qed.

Lemma filter_outside_free (d s : string) (tbl : list plan_row) :
  (forall r, In r tbl -> cell_of r <> (d, s)) ->
  List.filter (fun r => negb (in_cell d s r)) tbl = tbl.
Proof.
  induction tbl as [|r tbl IH]; simpl; intros Hfree; [done|].
  destruct (in_cell d s r) eqn:E.
  - apply in_cell_spec in E. by destruct (Hfree r (or_introl eq_refl)).
  - simpl. rewrite IH; [done|]. intros; apply Hfree; by right.
Qed.



(** X20. [set_meal] without a recipe and without notes (or with empty
    notes), and so [clear_meal], always commits and deletes exactly the
    rows of the cell (date, slot): no row of the cell is left, the other
    rows stay in their order, and a table without a row in the cell is
    left as it is. *)
Theorem set_meal_without_content_clears recipes tbl entry_date slot recipe_id servings notes :
  has_content recipe_id notes = false ->
  let tbl' := List.filter (fun r => negb (in_cell entry_date slot r)) tbl in
  set_meal recipes tbl entry_date slot recipe_id servings notes = Some tbl'
  /\ clear_meal recipes tbl entry_date slot = Some tbl'
  /\ (forall r, In r tbl' -> cell_of r <> (entry_date, slot))
  /\ ((forall r, In r tbl -> cell_of r <> (entry_date, slot)) -> tbl' = tbl).
Proof.
  intros Hc tbl'. split_and!.
  - by apply set_meal_empty.
  - unfold clear_meal. by apply set_meal_empty.
  - intros r [_ Hr]%filter_In Hcell.
    apply in_cell_spec in Hcell. by rewrite Hcell in Hr.
  - apply filter_outside_free.
Qed.

Lemma set_meal_without_content_clears_witness :
  has_content None (Some "") = false
  /\ set_meal More.recipes
       [(Sample.meal "2026-02-24" "Lunch" (Some 1) 2, None);
        (Sample.meal "2026-02-24" "Dinner" (Some 1) 2, None)]
       "2026-02-24" "Lunch" None 3 (Some "")
     = Some [(Sample.meal "2026-02-24" "Dinner" (Some 1) 2, None)].
Proof.
  split; [reflexivity|].
  destruct (set_meal_without_content_clears More.recipes
              [(Sample.meal "2026-02-24" "Lunch" (Some 1) 2, None);
               (Sample.meal "2026-02-24" "Dinner" (Some 1) 2, None)]
              "2026-02-24" "Lunch" None 3 (Some "") eq_refl) as (-> & _).
  reflexivity.
Defined.

(** X21. [set_meal] keeps the grid well formed: when no two rows of
    the table are in the same cell (date, slot), no two rows are after a
    call that commits, whatever its arguments. *)
Theorem set_meal_keeps_cells_unique recipes tbl entry_date slot recipe_id servings notes tbl' :
  NoDup (map cell_of tbl) ->
  set_meal recipes tbl entry_date slot recipe_id servings notes = Some tbl' ->
  NoDup (map cell_of tbl').
Proof.
  intros Hnd Hset. destruct (has_content recipe_id notes) eqn:Hc.
  - rewrite (set_meal_cells _ _ _ _ _ _ _ _ Hc Hset).
    destruct (List.find _ _) eqn:E; [done|].
    apply NoDup_app. split_and!; [done| |apply NoDup_singleton].
    intros c (r & <- & Hin)%list_elem_of_In%in_map_iff Hcell%list_elem_of_singleton.
    eapply find_none in E; [|exact Hin].
    apply in_cell_spec in Hcell. congruence.
  - rewrite set_meal_empty in Hset by done. injection Hset as <-.
    by apply NoDup_map_filter.
Qed.

Lemma set_meal_keeps_cells_unique_witness :
  NoDup (map cell_of [(Sample.meal "2026-02-24" "Lunch" None 1, Some "Leftovers")])
  /\ set_meal More.recipes
       [(Sample.meal "2026-02-24" "Lunch" None 1, Some "Leftovers")]
       "2026-02-24" "Dinner" (Some 1) 2 None
     = Some [(Sample.meal "2026-02-24" "Lunch" None 1, Some "Leftovers");
             (Sample.meal "2026-02-24" "Dinner" (Some 1) 2, None)]
  /\ NoDup (map cell_of
              [(Sample.meal "2026-02-24" "Lunch" None 1, Some "Leftovers");
               (Sample.meal "2026-02-24" "Dinner" (Some 1) 2, None)]).
Proof.
  assert (NoDup (map cell_of
            [(Sample.meal "2026-02-24" "Lunch" None 1, Some "Leftovers")])) as Hnd
    by (apply (bool_decide_unpack _); vm_compute; exact I).
  split_and!; [exact Hnd|reflexivity|].
  exact (set_meal_keeps_cells_unique More.recipes _ "2026-02-24" "Dinner"
           (Some 1) 2 None _ Hnd eq_refl).
Defined.



(** X23. What [set_meal] writes is what [get_meals_in_range] reads:
    after a call with a recipe that commits, for a date within the range
    asked, the entry (date, slot, recipe, servings) is in the list, and
    every entry of the list for that date and slot is that entry. *)
Theorem set_meal_then_get_meals_in_range db recipes tbl date slot rid servings notes
    start_date end_date tbl' :
  set_meal recipes tbl date slot (Some rid) servings notes = Some tbl' ->
  String.leb start_date date && String.leb date end_date = true ->
  let planned := {| entry_date := date; entry_meal_slot := slot;
                    entry_recipe_id := Some rid; entry_servings := servings |} in
  let entries := get_meals_in_range (with_meal_plan db (map fst tbl'))
                   start_date end_date in
  In planned entries
  /\ forall e, In e entries ->
       entry_date e = date -> entry_meal_slot e = slot -> e = planned.
Proof.
  intros Hset Hrange planned entries. split.
  - unfold entries, get_meals_in_range. apply in_map_iff.
    eexists {| mp_date := date; mp_meal_slot := slot;
               mp_recipe_id := Some rid; mp_servings := servings |}.
    split; [done|]. apply stable_sort_In, filter_In. split; [|exact Hrange].
    simpl. apply in_map_iff.
    exists ({| mp_date := date; mp_meal_slot := slot;
               mp_recipe_id := Some rid; mp_servings := servings |}, notes).
    split; [done|]. by eapply set_meal_cell_filled; [|exact Hset].
  - intros e (r & [(r' & <- & Hin)%in_map_iff ->])%get_meals_in_range_origin Hd Hs.
    simpl in Hd, Hs.
    rewrite (set_meal_cell_rows recipes date slot tbl (Some rid) servings notes
               tbl' r' eq_refl Hset Hin); [done|].
    unfold cell_of. by rewrite Hd, Hs.
Qed.

Lemma set_meal_then_get_meals_in_range_witness :
  set_meal More.recipes [] "2026-02-24" "Lunch" (Some 1) 2 None
  = Some [(Sample.meal "2026-02-24" "Lunch" (Some 1) 2, None)]
  /\ In {| entry_date := "2026-02-24"; entry_meal_slot := "Lunch";
           entry_recipe_id := Some 1; entry_servings := 2 |}
        (get_meals_in_range
           (with_meal_plan Sample.priced
              [Sample.meal "2026-02-24" "Lunch" (Some 1) 2])
           "2026-02-23" "2026-03-01").
Proof.
  split; [reflexivity|].
  exact (proj1 (set_meal_then_get_meals_in_range Sample.priced More.recipes []
                  "2026-02-24" "Lunch" 1 2 None "2026-02-23" "2026-03-01" _
                  eq_refl eq_refl)).
Defined.

(** X24. After [clear_meal], [get_meals_in_range] lists no entry for
    the date and slot cleared, and the entries it lists are those it
    listed before for the other cells, in the same order. *)
Theorem clear_meal_then_get_meals_in_range db recipes tbl date slot
    start_date end_date :
  exists tbl',
    clear_meal recipes tbl date slot = Some tbl'
    /\ get_meals_in_range (with_meal_plan db (map fst tbl')) start_date end_date
       = List.filter
           (fun e => negb (String.eqb (entry_date e) date
                           && String.eqb (entry_meal_slot e) slot))
           (get_meals_in_range (with_meal_plan db (map fst tbl)) start_date end_date).
Proof.
  eexists. split; [unfold clear_meal; by apply set_meal_empty|].
  unfold get_meals_in_range. simpl.
  set (out := fun r : meal_plan_row =>
                negb (String.eqb (mp_date r) date
                      && String.eqb (mp_meal_slot r) slot)).
  assert (forall l : list plan_row,
            map fst (List.filter (fun r => negb (in_cell date slot r)) l)
            = List.filter out (map fst l)) as ->.
  { induction l as [|r l IH]; simpl; [done|].
    unfold in_cell at 1, out at 1. destruct (_ && _); simpl; by rewrite IH. }
  rewrite filter_comm, <- (stable_sort_filter row_le row_le_total row_le_trans).
  generalize (stable_sort row_le
                (List.filter (date_in_range start_date end_date) (map fst tbl))).
  induction l as [|r l IH]; simpl; [done|].
  unfold out at 1. destruct (_ && _); simpl; by rewrite IH.
Qed.
